(** * EHR999: a shallow embedding of [app.py]

    The program fetches daily bars page by page ([fetch_eth_klines]),
    derives two trailing moving averages and their ratio-of-ratios
    oscillator ([calculate_ehr999]), classifies the latest value and writes
    an HTML report ([generate_html_chart]).

    Conventions of the embedding.
    - Python integers are [Z].
    - A float that holds a price, an average or an oscillator value is an
      [fval]: a finite rational, one of the two infinities, or NaN.  The
      special values follow IEEE-754 (x/0 is an infinity for x <> 0, 0/0 is
      NaN, NaN compares false with everything), zero has no sign (it divides
      like +0.0), and a literal such as [0.73] denotes the decimal it is
      written as.
    - [calculate_ehr999] is given twice: with exact arithmetic on finite
      values, and as [calculate_ehr999_with] over any arithmetic, of which
      the exact one and binary64 (every result rounded to the nearest
      double, with overflow and underflow) are instances.  What depends on
      rounding, overflow or underflow is stated over any arithmetic.
    - The one float expression that feeds integer arithmetic,
      [int(len(df) * 0.6)], is modelled bit for bit as a binary64 product
      rounded to nearest-even.
    - A DataFrame is a mutable object: frames live in a store and are
      named by references, so copies and in-place column assignments are
      visible. *)

From Stdlib Require Import ZArith QArith Lia Lqa String List Bool Sorted.
From Stdlib Require Import Floats Uint63.
From stdpp Require Import gmap sorting.
Import ListNotations.

Local Open Scope Z_scope.

(** ** Binary64 arithmetic needed by [int(len(df) * 0.6)] *)

Module Binary64.

(** A non-negative binary float [mant * 2^expo]. *)
Record t := mk { mant : Z; expo : Z }.

(** Round the non-negative integer [p] to 53 significant bits, to
    nearest, ties to even.  The result stands for [mant * 2^expo]. *)
Definition round53 (p : Z) : t :=
  let k := Z.log2 p in
  if k <=? 52 then mk p 0
  else
    let s := k - 52 in
    let q := p / 2 ^ s in
    let r := p mod 2 ^ s in
    let half := 2 ^ (s - 1) in
    if (half <? r) || ((r =? half) && Z.odd q) then mk (q + 1) s else mk q s.

(** [float(n)] for a non-negative Python int. *)
Definition of_int (n : Z) : t := round53 n.

(** The double nearest to the literal [0.6] is
    [5404319552844595 * 2^-53] (bit pattern 0x3FE3333333333333). *)
Definition lit_0_6 : t := mk 5404319552844595 (-53).

(** Product of two non-negative floats: exact product, rounded once. *)
Definition mul (x y : t) : t :=
  let r := round53 (mant x * mant y) in
  mk (mant r) (expo r + expo x + expo y).

(** [int(x)]: truncation, which is the floor for a non-negative float. *)
Definition to_int (x : t) : Z :=
  if 0 <=? expo x then mant x * 2 ^ expo x else mant x / 2 ^ (- expo x).

End Binary64.

(** The same product on the machine's binary64 unit, for lengths below
    [2^63]; used only to cross-check [Binary64]. *)
Definition machine_max_long_window (n : Z) : Z :=
  match Prim2SF (PrimFloat.mul (PrimFloat.of_uint63 (Uint63.of_Z n))
                               0x1.3333333333333p-1%float) with
  | S754_finite _ m e => if 0 <=? e then Zpos m * 2 ^ e else Zpos m / 2 ^ (- e)
  | _ => 0
  end.

(** ** Float values with IEEE special cases *)

Inductive fval : Type :=
| Fin (q : Q)
| PInf
| NInf
| NaN.

Definition is_nan (v : fval) : bool :=
  match v with NaN => true | _ => false end.

Definition is_finite (v : fval) : bool :=
  match v with Fin _ => true | _ => false end.

(** Sign of a non-NaN value, used by division and multiplication. *)
Definition qsign (q : Q) : Z := Z.sgn (Qnum q).

(** [x / y] on floats. *)
Definition fdiv (x y : fval) : fval :=
  match x, y with
  | NaN, _ | _, NaN => NaN
  | Fin a, Fin b =>
      if Qeq_bool b 0 then
        match qsign a with
        | 0 => NaN
        | Zpos _ => PInf
        | Zneg _ => NInf
        end
      else Fin (a / b)
  | Fin _, (PInf | NInf) => Fin 0
  | (PInf | NInf), (PInf | NInf) => NaN
  | PInf, Fin b => if Qle_bool 0 b then PInf else NInf
  | NInf, Fin b => if Qle_bool 0 b then NInf else PInf
  end.

(** [x * y] on floats. *)
Definition fmul (x y : fval) : fval :=
  match x, y with
  | NaN, _ | _, NaN => NaN
  | Fin a, Fin b => Fin (a * b)
  | Fin a, PInf | PInf, Fin a =>
      match qsign a with 0 => NaN | Zpos _ => PInf | Zneg _ => NInf end
  | Fin a, NInf | NInf, Fin a =>
      match qsign a with 0 => NaN | Zpos _ => NInf | Zneg _ => PInf end
  | PInf, PInf | NInf, NInf => PInf
  | PInf, NInf | NInf, PInf => NInf
  end.

(** [x < y] and [x <= y]: false as soon as one side is NaN. *)
Definition fltb (x y : fval) : bool :=
  match x, y with
  | NaN, _ | _, NaN => false
  | Fin a, Fin b => negb (Qle_bool b a)
  | NInf, NInf => false
  | NInf, _ => true
  | _, NInf => false
  | PInf, _ => false
  | Fin _, PInf => true
  end.

Definition fleb (x y : fval) : bool :=
  match x, y with
  | NaN, _ | _, NaN => false
  | Fin a, Fin b => Qle_bool a b
  | NInf, _ => true
  | _, NInf => false
  | _, PInf => true
  | PInf, Fin _ => false
  end.

(** [x >= y] is [y <= x]. *)
Definition fgeb (x y : fval) : bool := fleb y x.

(** ** Classifier: the header's if/elif chain and the strategy table *)

(** The seven branches of the chain in [generate_html_chart], in source
    order; the strategy table has one row per branch, in the same order. *)
Inductive band : Type :=
| DiamondPit      (* 极度低估 (钻石坑) *)
| GoldenPit       (* 相对低估 (黄金坑) *)
| FairValue       (* 合理估值 (定投区) *)
| HoldAndWait     (* 持币待涨 *)
| EarlyBubble     (* 泡沫初现 (减仓区) *)
| ExtremeBubble   (* 极度泡沫 (清仓区) *)
| ManicTop.       (* 疯狂顶部 (逃顶区) *)

Definition bands : list band :=
  [DiamondPit; GoldenPit; FairValue; HoldAndWait; EarlyBubble; ExtremeBubble; ManicTop].

(** The branch taken by
    [if latest_ehr999 < 0.73: ... elif latest_ehr999 < 1.20: ... else: ...]. *)
Definition classify (latest_ehr999 : fval) : band :=
  if fltb latest_ehr999 (Fin 0.73) then DiamondPit
  else if fltb latest_ehr999 (Fin 1.20) then GoldenPit
  else if fltb latest_ehr999 (Fin 1.50) then FairValue
  else if fltb latest_ehr999 (Fin 3.0) then HoldAndWait
  else if fltb latest_ehr999 (Fin 4.5) then EarlyBubble
  else if fltb latest_ehr999 (Fin 6.5) then ExtremeBubble
  else ManicTop.

(** What each branch assigns. *)
Definition invest_multiplier (b : band) : string :=
  match b with
  | DiamondPit => "2.0x ~ 3.0x"
  | GoldenPit => "1.5x"
  | FairValue => "1.0x"
  | HoldAndWait => "0x (停止)"
  | EarlyBubble => "减仓"
  | ExtremeBubble => "清仓50-80%"
  | ManicTop => "全部卖出"
  end.

Definition market_status (b : band) : string :=
  match b with
  | DiamondPit => "极度低估 (钻石坑)"
  | GoldenPit => "相对低估 (黄金坑)"
  | FairValue => "合理估值 (定投区)"
  | HoldAndWait => "持币待涨"
  | EarlyBubble => "泡沫初现 (减仓区)"
  | ExtremeBubble => "极度泡沫 (清仓区)"
  | ManicTop => "疯狂顶部 (逃顶区)"
  end.

Definition status_color (b : band) : string :=
  match b with
  | DiamondPit => "#00c853"
  | GoldenPit => "#ffd600"
  | FairValue => "#2196f3"
  | HoldAndWait => "#9e9e9e"
  | EarlyBubble => "#ff9800"
  | ExtremeBubble => "#ff5722"
  | ManicTop => "#d50000"
  end.

(** The condition under which a row of the strategy table gets
    [class="current-row"]; a chained comparison [a <= v < b] is
    [a <= v and v < b]. *)
Definition row_is_current (b : band) (latest_ehr999 : fval) : bool :=
  match b with
  | DiamondPit => fltb latest_ehr999 (Fin 0.73)
  | GoldenPit => fleb (Fin 0.73) latest_ehr999 && fltb latest_ehr999 (Fin 1.20)
  | FairValue => fleb (Fin 1.20) latest_ehr999 && fltb latest_ehr999 (Fin 1.50)
  | HoldAndWait => fleb (Fin 1.50) latest_ehr999 && fltb latest_ehr999 (Fin 3.0)
  | EarlyBubble => fleb (Fin 3.0) latest_ehr999 && fltb latest_ehr999 (Fin 4.5)
  | ExtremeBubble => fleb (Fin 4.5) latest_ehr999 && fltb latest_ehr999 (Fin 6.5)
  | ManicTop => fgeb latest_ehr999 (Fin 6.5)
  end.

Definition row_class (b : band) (latest_ehr999 : fval) : string :=
  if row_is_current b latest_ehr999 then "current-row" else "".

(** The rows that carry the class, in table order. *)
Definition current_rows (latest_ehr999 : fval) : list band :=
  List.filter (fun b => row_is_current b latest_ehr999) bands.

(** The MarketBand table as the specification words it: seven half-open
    intervals [lo, hi) over [0, +oo), the last one unbounded. *)
Definition MarketBand_interval (b : band) : Q * option Q :=
  match b with
  | DiamondPit => (0, Some 0.73)
  | GoldenPit => (0.73, Some 1.20)
  | FairValue => (1.20, Some 1.50)
  | HoldAndWait => (1.50, Some 3.0)
  | EarlyBubble => (3.0, Some 4.5)
  | ExtremeBubble => (4.5, Some 6.5)
  | ManicTop => (6.5, None)
  end%Q.

Definition in_MarketBand (b : band) (v : Q) : Prop :=
  (fst (MarketBand_interval b) <= v)%Q /\
  match snd (MarketBand_interval b) with
  | Some hi => (v < hi)%Q
  | None => True
  end.

(** ** Adaptive window sizing *)

(** [int(len(df) * 0.6)]: the length is converted to a double, multiplied
    by the double [0.6] and truncated. *)
Definition max_long_window_of (data_length : Z) : Z :=
  Binary64.to_int (Binary64.mul (Binary64.of_int data_length) Binary64.lit_0_6).

(** [ma_window] as computed from [data_length] ([//] is floor division). *)
Definition ma_window_of (data_length : Z) : Z :=
  if data_length <? 200 then Z.min 50 (data_length / 4) else 200.

(** [long_window] as computed from [data_length]. *)
Definition long_window_of (data_length : Z) : Z :=
  let ma_window := ma_window_of data_length in
  let max_long_window := max_long_window_of data_length in
  let long_window := Z.min (ma_window * 7) max_long_window in
  if long_window <? ma_window + 50
  then Z.min (ma_window + 50) (data_length - 10)
  else long_window.

(** ** Bars and frames *)

(** One row of the upstream answer, in column order.  A price or volume
    token is represented by the number it parses to; the four columns the
    program never converts stay text. *)
Record kline : Type := mk_kline {
  open_time : Z;            (* milliseconds since the epoch *)
  open : Q;
  high : Q;
  low : Q;
  close : Q;
  volume : Q;
  close_time : Z;
  quote_volume : string;
  trades : Z;
  taker_buy_base : string;
  taker_buy_quote : string;
  ignore : string
}.

(** A DataFrame: the twelve bar columns (kept row-wise in [bars]) and the
    three columns [calculate_ehr999] adds, absent until assigned. *)
Record frame : Type := mk_frame {
  bars : list kline;
  MA200 : option (list fval);
  MA_long : option (list fval);
  EHR999 : option (list fval)
}.

Definition DataFrame (all_data : list kline) : frame :=
  mk_frame all_data None None None.

Definition closes (f : frame) : list Q := List.map close (bars f).
Definition open_times (f : frame) : list Z := List.map open_time (bars f).

(** Keep the entries of [xs] whose flag in [mask] is set (boolean indexing). *)
Fixpoint select {A : Type} (mask : list bool) (xs : list A) : list A :=
  match mask, xs with
  | m :: mask', x :: xs' => if m then x :: select mask' xs' else select mask' xs'
  | _, _ => []
  end.

Definition select_frame (mask : list bool) (f : frame) : frame :=
  mk_frame (select mask (bars f))
           (option_map (select mask) (MA200 f))
           (option_map (select mask) (MA_long f))
           (option_map (select mask) (EHR999 f)).

(** ** Exceptions, outcomes and the world *)

Inductive exn : Type :=
| ValueError
| KeyError
| IndexError
| NotImplementedError
| RequestException.

Inductive outcome (A : Type) : Type :=
| Ok (a : A)
| Raise (e : exn)
| Hang.
Arguments Ok {A} a.
Arguments Raise {A} e.
Arguments Hang {A}.

(** ** Moving averages and the oscillator column *)

Definition Qsum (xs : list Q) : Q := List.fold_right Qplus 0%Q xs.

Definition Qmean (xs : list Q) : Q := (Qsum xs / inject_Z (Z.of_nat (List.length xs)))%Q.

(** The [w] values ending at index [i]. *)
Definition window_at (w i : nat) (xs : list Q) : list Q :=
  List.firstn w (List.skipn (S i - w) xs).

(** The trailing mean over [wn] positions at position [i]: the mean of the
    [wn] values ending there once [wn] values are available and [wn] is at
    least one, and NaN otherwise. *)
Definition rolling_at (wn : nat) (xs : list Q) (i : nat) : fval :=
  if (1 <=? wn)%nat && (wn <=? S i)%nat
  then Fin (Qmean (window_at wn i xs))
  else NaN.

Definition rolling_values (wn : nat) (xs : list Q) : list fval :=
  List.map (rolling_at wn xs) (List.seq 0 (List.length xs)).

(** [xs.rolling(window=w).mean()] with the default [min_periods]: a
    negative window is refused with [ValueError]. *)
Definition rolling_mean (w : Z) (xs : list Q) : outcome (list fval) :=
  if w <? 0 then Raise ValueError else Ok (rolling_values (Z.to_nat w) xs).

(** Element-wise operations on columns. *)
Definition col_div (xs ys : list fval) : list fval := zip_with fdiv xs ys.
Definition col_mul (xs ys : list fval) : list fval := zip_with fmul xs ys.
Definition float_col (xs : list Q) : list fval := List.map Fin xs.

(** [(close / MA200) * (close / MA_long)], column-wise. *)
Definition ehr999_of (close_col : list Q) (ma200 ma_long : list fval) : list fval :=
  col_mul (col_div (float_col close_col) ma200) (col_div (float_col close_col) ma_long).

(** The mask of [dropna]: rows whose value is not NaN. *)
Definition notna (xs : list fval) : list bool := List.map (fun v => negb (is_nan v)) xs.

(** ** The world: frames in a store, standard output, the report file *)

(** Every [print] of the program, with the values it interpolates. *)
Inductive line : Type :=
| LFetching (symbol interval : string)
| LProgress (n : nat)
| LNoData
| LFetchOk (n : nat)
| LRange (first last : option Z)
| LFetchFailed (e : exn)
| LCalculating
| LWindows (ma_window long_window : Z)
| LCalculated (n : nat)
| LRendering
| LEmptyData
| LWritten
| LRule
| LStart
| LLatestHeader
| LPrice (p : Q)
| LValue (v : fval)
| LTime (t : Z)
| LUpdateDone
| LWaitRetry.

(** What the HTML template interpolates, and the number of rows of the
    frame it was made from ([r_count], which the page does not show). *)
Record report : Type := mk_report {
  r_symbol : string;
  r_start_time : Z;
  r_end_time : Z;
  r_count : nat;
  r_latest_price : Q;
  r_latest_ehr999 : fval;
  r_latest_time : Z;
  r_invest_multiplier : string;
  r_market_status : string;
  r_status_color : string;
  r_row_classes : list string;
  r_ehr999_data : list (Z * fval)
}.

Record world : Type := mk_world {
  heap : gmap nat frame;
  stdout : list line;
  index_html : option report
}.

Definition M (A : Type) : Type := world -> outcome A * world.

Definition ret {A : Type} (a : A) : M A := fun w => (Ok a, w).

Definition bind {A B : Type} (m : M A) (k : A -> M B) : M B :=
  fun w =>
    match m w with
    | (Ok a, w') => k a w'
    | (Raise e, w') => (Raise e, w')
    | (Hang, w') => (Hang, w')
    end.

Definition raise {A : Type} (e : exn) : M A := fun w => (Raise e, w).

Definition hang {A : Type} : M A := fun w => (Hang, w).

(** [try: body except Exception as e: handler(e)] *)
Definition try_except {A : Type} (body : M A) (handler : exn -> M A) : M A :=
  fun w =>
    match body w with
    | (Raise e, w') => handler e w'
    | r => r
    end.

Definition lift {A : Type} (o : outcome A) : M A := fun w => (o, w).

Declare Scope M_scope.
Delimit Scope M_scope with M.
Notation "x <- m ;; k" := (bind m (fun x => k))
  (at level 100, m at next level, right associativity) : M_scope.
Notation "m ;; k" := (bind m (fun _ => k))
  (at level 100, right associativity) : M_scope.
Local Open Scope M_scope.

Definition print (l : line) : M unit :=
  fun w => (Ok tt, mk_world (heap w) (stdout w ++ [l]) (index_html w)).

(** A new object gets a reference no live object has. *)
Definition alloc (f : frame) : M nat :=
  fun w =>
    let r := fresh (dom (heap w)) in
    (Ok r, mk_world (<[r := f]> (heap w)) (stdout w) (index_html w)).

Definition load (r : nat) : M frame :=
  fun w =>
    match heap w !! r with
    | Some f => (Ok f, w)
    | None => (Raise KeyError, w)
    end.

(** In-place update of the object behind [r]. *)
Definition store (r : nat) (f : frame) : M unit :=
  fun w => (Ok tt, mk_world (<[r := f]> (heap w)) (stdout w) (index_html w)).

(** [with open("index.html", 'w') as f: f.write(html_content)] *)
Definition write_index_html (doc : report) : M unit :=
  fun w => (Ok tt, mk_world (heap w) (stdout w) (Some doc)).

(** [df[name]] on a column that may be absent. *)
Definition getcol {A : Type} (c : option A) : M A :=
  match c with
  | Some x => ret x
  | None => raise KeyError
  end.

(** [s.iloc[-1]] *)
Definition iloc_last {A : Type} (xs : list A) : M A :=
  match List.rev xs with
  | x :: _ => ret x
  | [] => raise IndexError
  end.

(** ** [calculate_ehr999] *)

Definition calculate_ehr999 (df : nat) : M nat :=
  print LCalculating ;;
  f0 <- load df ;;
  df <- alloc f0 ;;                                   (* df = df.copy() *)
  let data_length := Z.of_nat (List.length (bars f0)) in
  let ma_window := ma_window_of data_length in
  f <- load df ;;
  ma200 <- lift (rolling_mean ma_window (closes f)) ;;
  store df (mk_frame (bars f) (Some ma200) (MA_long f) (EHR999 f)) ;;
  let long_window := long_window_of data_length in
  print (LWindows ma_window long_window) ;;
  f <- load df ;;
  ma_long <- lift (rolling_mean long_window (closes f)) ;;
  store df (mk_frame (bars f) (MA200 f) (Some ma_long) (EHR999 f)) ;;
  f <- load df ;;
  c200 <- getcol (MA200 f) ;;
  clong <- getcol (MA_long f) ;;
  store df (mk_frame (bars f) (MA200 f) (MA_long f)
                     (Some (ehr999_of (closes f) c200 clong))) ;;
  f <- load df ;;
  e <- getcol (EHR999 f) ;;
  df <- alloc (select_frame (notna e) f) ;;           (* df = df.dropna(...) *)
  f <- load df ;;
  print (LCalculated (List.length (bars f))) ;;
  ret df.

(** ** [generate_html_chart] *)

(** [int(row['open_time'].timestamp())]: whole seconds of a millisecond
    instant, truncated towards zero. *)
Definition epoch_seconds (open_time_ms : Z) : Z := Z.quot open_time_ms 1000.

(** The loop over [df.iterrows()] that fills [ehr999_data]. *)
Fixpoint ehr999_data_of (times : list Z) (values : list fval) : list (Z * fval) :=
  match times, values with
  | t :: times', v :: values' =>
      if negb (is_nan v)                              (* pd.notna(row['EHR999']) *)
      then (epoch_seconds t, v) :: ehr999_data_of times' values'
      else ehr999_data_of times' values'
  | _, _ => []
  end.

Definition col_min (xs : list Z) : option Z :=
  match xs with
  | [] => None
  | x :: xs' => Some (List.fold_left Z.min xs' x)
  end.

Definition col_max (xs : list Z) : option Z :=
  match xs with
  | [] => None
  | x :: xs' => Some (List.fold_left Z.max xs' x)
  end.

(** The instants [Timestamp.strftime] can format are those of Python's
    [datetime], years 1 to 9999: from 0001-01-01T00:00:00 on and before
    10000-01-01T00:00:00, in milliseconds since the epoch. *)
Definition datetime_min_ms : Z := -62135596800000.
Definition datetime_end_ms : Z := 253402300800000.

Definition strftime_supports (t : Z) : bool :=
  (datetime_min_ms <=? t) && (t <? datetime_end_ms).

(** [t.strftime(...)], standing for the instant it formats: [NaT] raises
    [ValueError], an instant outside the years of [datetime] raises
    [NotImplementedError]. *)
Definition strftime (t : option Z) : M Z :=
  match t with
  | Some t => if strftime_supports t then ret t else raise NotImplementedError
  | None => raise ValueError
  end.

Definition generate_html_chart (df : option nat) (symbol : string) : M (option string) :=
  print LRendering ;;
  match df with
  | None => print LEmptyData ;; ret None
  | Some df =>
      f <- load df ;;
      if (List.length (bars f) =? 0)%nat                 (* df.empty *)
      then print LEmptyData ;; ret None
      else
        e <- getcol (EHR999 f) ;;
        let ehr999_data := ehr999_data_of (open_times f) e in
        start_time <- strftime (col_min (open_times f)) ;;
        end_time <- strftime (col_max (open_times f)) ;;
        latest_ehr999 <- iloc_last e ;;
        latest_price <- iloc_last (closes f) ;;
        latest_time <- iloc_last (open_times f) ;;
        let b := classify latest_ehr999 in
        write_index_html
          (mk_report symbol start_time end_time (List.length (bars f))
                     latest_price latest_ehr999 latest_time
                     (invest_multiplier b) (market_status b) (status_color b)
                     (List.map (fun row => row_class row latest_ehr999) bands)
                     ehr999_data) ;;
        print LWritten ;;
        ret (Some "index.html"%string)
  end.

(** ** [fetch_eth_klines] *)

(** What one [requests.get(...)], [raise_for_status()], [response.json()]
    round gives: the decoded rows, or an exception. *)
Inductive response : Type :=
| Page (data : list kline)
| Failure.

(** The upstream source as the sequence of its answers, each a function of
    the [startTime] it is asked for. *)
Definition script : Type := list (Z -> response).

(** [int(datetime(2017, 8, 17).timestamp() * 1000)] on a host whose clock
    is UTC. *)
Definition inception_ms : Z := 1502928000000.

(** The [while True] loop.  When the recorded answers run out the program
    is still waiting for the server. *)
Fixpoint fetch_pages (s : script) (start_time : Z) (all_data : list kline)
  : M (list kline) :=
  match s with
  | [] => hang
  | serve :: s' =>
      match serve start_time with
      | Failure => raise RequestException
      | Page data =>
          match List.rev data with
          | [] => ret all_data                            (* if not data: break *)
          | last_row :: _ =>
              let all_data := all_data ++ data in         (* all_data.extend(data) *)
              print (LProgress (List.length all_data)) ;;
              let start_time := open_time last_row + 1 in (* data[-1][0] + 1 *)
              if (List.length data <? 1000)%nat
              then ret all_data
              else fetch_pages s' start_time all_data
          end
      end
  end.

(** [s.duplicated()] with [keep='first']: a row is flagged when its key
    was seen before. *)
Fixpoint duplicated_from (seen : gset Z) (keys : list Z) : list bool :=
  match keys with
  | [] => []
  | k :: keys' =>
      if decide (k ∈ seen)
      then true :: duplicated_from seen keys'
      else false :: duplicated_from ({[k]} ∪ seen) keys'
  end.

Definition duplicated (keys : list Z) : list bool := duplicated_from ∅ keys.

(** [df.drop_duplicates(subset=['open_time']).reset_index(drop=True)] *)
Definition drop_duplicates (f : frame) : frame :=
  select_frame (List.map negb (duplicated (open_times f))) f.

(** [fetch_eth_klines(symbol, interval)] against the source [s]; [Ok None]
    is Python's [None].  The [limit] parameter is never read and is left
    out, and the column conversions ([pd.to_datetime], [astype(float)]) are
    the identity on rows that already hold numbers: every [open_time] is
    taken to be an instant pandas can hold and every price a number that
    parses.  (A row for which a conversion raises would end the call in its
    handler, with [None].) *)
Definition fetch_eth_klines (s : script) (symbol interval : string) : M (option nat) :=
  print (LFetching symbol interval) ;;
  try_except
    (all_data <- fetch_pages s inception_ms [] ;;
     match all_data with
     | [] => print LNoData ;; ret None
     | _ :: _ =>
         df <- alloc (DataFrame all_data) ;;
         f <- load df ;;
         df <- alloc (drop_duplicates f) ;;
         f <- load df ;;
         print (LFetchOk (List.length (bars f))) ;;
         print (LRange (col_min (open_times f)) (col_max (open_times f))) ;;
         ret (Some df)
     end)
    (fun e => print (LFetchFailed e) ;; ret None).

(** ** The entry point *)

Definition SYMBOL : string := "ETHUSDT".

Definition main (s : script) : M unit :=
  print LRule ;; print LStart ;; print LRule ;;
  df <- fetch_eth_klines s SYMBOL "1d" ;;
  match df with
  | Some df =>
      df <- calculate_ehr999 df ;;
      f <- load df ;;
      print LLatestHeader ;;
      p <- iloc_last (closes f) ;;
      print (LPrice p) ;;
      e <- getcol (EHR999 f) ;;
      v <- iloc_last e ;;
      print (LValue v) ;;
      t <- iloc_last (open_times f) ;;
      print (LTime t) ;;
      generate_html_chart (Some df) SYMBOL ;;
      print LUpdateDone
  | None => print LWaitRetry
  end.

(** The world a fresh process starts in. *)
Definition boot : world := mk_world ∅ [] None.

(** ** Running the Indicator Engine on one frame *)

(** A world that holds [f] alone, and its reference. *)
Definition world_of (f : frame) : world := mk_world {[ 0%nat := f ]} [] None.

(** The frame [calculate_ehr999] returns for the input frame [f]. *)
Definition ehr999_frame (f : frame) : outcome frame :=
  match calculate_ehr999 0%nat (world_of f) with
  | (Ok r, w) =>
      match heap w !! r with
      | Some out => Ok out
      | None => Raise KeyError
      end
  | (Raise e, _) => Raise e
  | (Hang, _) => Hang
  end.

(** The frame [fetch_eth_klines] returns against the source [s]:
    [Ok None] is Python's [None]. *)
Definition fetched_frame (s : script) : outcome (option frame) :=
  match fetch_eth_klines s SYMBOL "1d" boot with
  | (Ok (Some r), w) =>
      match heap w !! r with
      | Some f => Ok (Some f)
      | None => Raise KeyError
      end
  | (Ok None, _) => Ok None
  | (Raise e, _) => Raise e
  | (Hang, _) => Hang
  end.

(** A bar that carries only a time and a closing price. *)
Definition bar (t : Z) (c : Q) : kline :=
  mk_kline t c c c c 0 t "" 0 "" "" "".

(** The frame after the three column assignments of [calculate_ehr999],
    before [dropna]. *)
Definition with_indicators (f : frame) : frame :=
  let n := Z.of_nat (List.length (bars f)) in
  let ma200 := rolling_values (Z.to_nat (ma_window_of n)) (closes f) in
  let ma_long := rolling_values (Z.to_nat (long_window_of n)) (closes f) in
  mk_frame (bars f) (Some ma200) (Some ma_long)
           (Some (ehr999_of (closes f) ma200 ma_long)).

(** The oscillator column before [dropna]. *)
Definition ehr999_column (f : frame) : list fval :=
  let n := Z.of_nat (List.length (bars f)) in
  ehr999_of (closes f)
            (rolling_values (Z.to_nat (ma_window_of n)) (closes f))
            (rolling_values (Z.to_nat (long_window_of n)) (closes f)).

(** The oscillator at row [i], read off the three columns. *)
Definition oscillator_at (f : frame) (i : nat) : fval :=
  let n := Z.of_nat (List.length (bars f)) in
  let c := Fin (List.nth i (closes f) 0%Q) in
  fmul (fdiv c (rolling_at (Z.to_nat (ma_window_of n)) (closes f) i))
       (fdiv c (rolling_at (Z.to_nat (long_window_of n)) (closes f) i)).

(** The rows the loop of [fetch_eth_klines] has accumulated when it ends,
    against the source [s]. *)
Definition accumulated (s : script) : outcome (list kline) :=
  fst (fetch_pages s inception_ms [] boot).

(** The first row of [rows] that carries the timestamp [t]. *)
Definition first_at (t : Z) (rows : list kline) : option kline :=
  List.find (fun r => open_time r =? t) rows.

(** The rows of [rows] that carry the timestamp [t]. *)
Definition rows_at (t : Z) (rows : list kline) : list kline :=
  List.filter (fun r => open_time r =? t) rows.

(** Timestamps arrive in order when each one either occurred before or is
    larger than every timestamp before it: overlaps are allowed, a new
    timestamp below an earlier one is not. *)
Definition arrives_in_order (keys : list Z) : Prop :=
  forall before k after,
    keys = before ++ k :: after ->
    List.In k before \/ List.Forall (fun x => x < k) before.

(** A handler that answers with a full page whatever it is asked. *)
Definition full_page (serve : Z -> response) : Prop :=
  forall start_time, exists data,
    serve start_time = Page data /\ (1000 <= List.length data)%nat.

(** ** The arithmetic as a parameter *)

(** [calculate_ehr999] leaves three operations to its libraries: the
    value [rolling(window).mean()] has at a row whose window is complete
    (pandas), and the division and the product of two floats (the float
    unit).  An [arith] names them.  The rolling mean is given the window
    size, the whole column and the row, since an implementation that
    updates a running sum row after row may let earlier values weigh on the
    rounding.  [exact_arith] is the arithmetic of the definitions above;
    [binary64_arith], below, rounds every result to the nearest double. *)
Record arith : Type := mk_arith {
  a_rolling : nat -> list Q -> nat -> fval;
  a_div : fval -> fval -> fval;
  a_mul : fval -> fval -> fval
}.

Definition exact_arith : arith :=
  mk_arith (fun wn xs i => Fin (Qmean (window_at wn i xs))) fdiv fmul.

(** NaN is absorbing for the division and the product, as in IEEE-754. *)
Record propagates_nan (A : arith) : Prop := mk_propagates_nan {
  div_nan_l : forall y, a_div A NaN y = NaN;
  div_nan_r : forall x, a_div A x NaN = NaN;
  mul_nan_l : forall y, a_mul A NaN y = NaN;
  mul_nan_r : forall x, a_mul A x NaN = NaN
}.

(** Zero, a positive number or plus infinity. *)
Definition nonneg (v : fval) : bool :=
  match v with
  | Fin q => Qle_bool 0 q
  | PInf => true
  | NInf | NaN => false
  end.

Definition nonneg_or_nan (v : fval) : bool := is_nan v || nonneg v.

(** No operation makes a negative value out of operands that are not
    negative: the result is NaN, zero, positive or plus infinity.  Rounding
    to nearest keeps the sign, and pandas clips the mean of a window without
    negative values at zero. *)
Record keeps_sign (A : arith) : Prop := mk_keeps_sign {
  mean_sign : forall wn xs i,
    List.Forall (fun x => (0 <= x)%Q) xs ->
    nonneg_or_nan (a_rolling A wn xs i) = true;
  div_sign : forall x y,
    nonneg_or_nan x = true -> nonneg_or_nan y = true ->
    nonneg_or_nan (a_div A x y) = true;
  mul_sign : forall x y,
    nonneg_or_nan x = true -> nonneg_or_nan y = true ->
    nonneg_or_nan (a_mul A x y) = true
}.

Section Engine.

Variable A : arith.

(** The trailing mean at position [i], as [rolling_at], with the mean of a
    complete window left to [A]. *)
Definition rolling_at_with (wn : nat) (xs : list Q) (i : nat) : fval :=
  if (1 <=? wn)%nat && (wn <=? S i)%nat
  then a_rolling A wn xs i
  else NaN.

Definition rolling_values_with (wn : nat) (xs : list Q) : list fval :=
  List.map (rolling_at_with wn xs) (List.seq 0 (List.length xs)).

Definition rolling_mean_with (w : Z) (xs : list Q) : outcome (list fval) :=
  if w <? 0 then Raise ValueError else Ok (rolling_values_with (Z.to_nat w) xs).

(** [(close / MA200) * (close / MA_long)], column-wise. *)
Definition ehr999_of_with (close_col : list Q) (ma200 ma_long : list fval) : list fval :=
  zip_with (a_mul A)
           (zip_with (a_div A) (float_col close_col) ma200)
           (zip_with (a_div A) (float_col close_col) ma_long).

(** [calculate_ehr999], statement by statement, over the arithmetic [A]. *)
Definition calculate_ehr999_with (df : nat) : M nat :=
  print LCalculating ;;
  f0 <- load df ;;
  df <- alloc f0 ;;                                   (* df = df.copy() *)
  let data_length := Z.of_nat (List.length (bars f0)) in
  let ma_window := ma_window_of data_length in
  f <- load df ;;
  ma200 <- lift (rolling_mean_with ma_window (closes f)) ;;
  store df (mk_frame (bars f) (Some ma200) (MA_long f) (EHR999 f)) ;;
  let long_window := long_window_of data_length in
  print (LWindows ma_window long_window) ;;
  f <- load df ;;
  ma_long <- lift (rolling_mean_with long_window (closes f)) ;;
  store df (mk_frame (bars f) (MA200 f) (Some ma_long) (EHR999 f)) ;;
  f <- load df ;;
  c200 <- getcol (MA200 f) ;;
  clong <- getcol (MA_long f) ;;
  store df (mk_frame (bars f) (MA200 f) (MA_long f)
                     (Some (ehr999_of_with (closes f) c200 clong))) ;;
  f <- load df ;;
  e <- getcol (EHR999 f) ;;
  df <- alloc (select_frame (notna e) f) ;;           (* df = df.dropna(...) *)
  f <- load df ;;
  print (LCalculated (List.length (bars f))) ;;
  ret df.

(** The frame [calculate_ehr999_with] returns for the input frame [f]. *)
Definition ehr999_frame_with (f : frame) : outcome frame :=
  match calculate_ehr999_with 0%nat (world_of f) with
  | (Ok r, w) =>
      match heap w !! r with
      | Some out => Ok out
      | None => Raise KeyError
      end
  | (Raise e, _) => Raise e
  | (Hang, _) => Hang
  end.

(** The frame after the three column assignments, before [dropna]. *)
Definition with_indicators_with (f : frame) : frame :=
  let n := Z.of_nat (List.length (bars f)) in
  let ma200 := rolling_values_with (Z.to_nat (ma_window_of n)) (closes f) in
  let ma_long := rolling_values_with (Z.to_nat (long_window_of n)) (closes f) in
  mk_frame (bars f) (Some ma200) (Some ma_long)
           (Some (ehr999_of_with (closes f) ma200 ma_long)).

(** The oscillator column before [dropna]. *)
Definition ehr999_column_with (f : frame) : list fval :=
  let n := Z.of_nat (List.length (bars f)) in
  ehr999_of_with (closes f)
                 (rolling_values_with (Z.to_nat (ma_window_of n)) (closes f))
                 (rolling_values_with (Z.to_nat (long_window_of n)) (closes f)).

(** The two averages and the oscillator at row [i]. *)
Definition ma200_at_with (f : frame) (i : nat) : fval :=
  rolling_at_with (Z.to_nat (ma_window_of (Z.of_nat (List.length (bars f)))))
                  (closes f) i.

Definition ma_long_at_with (f : frame) (i : nat) : fval :=
  rolling_at_with (Z.to_nat (long_window_of (Z.of_nat (List.length (bars f)))))
                  (closes f) i.

Definition oscillator_at_with (f : frame) (i : nat) : fval :=
  let c := Fin (List.nth i (closes f) 0%Q) in
  a_mul A (a_div A c (ma200_at_with f i)) (a_div A c (ma_long_at_with f i)).

End Engine.

(** ** Binary64 on float values *)

(** The exponent [e] of the leading bit of the positive rational [n / d]:
    [2^e <= n / d < 2^(e + 1)]. *)
Definition leading_bit (n d : Z) : Z :=
  let e0 := Z.log2 n - Z.log2 d in
  if (if 0 <=? e0 then d * 2 ^ e0 <=? n else d <=? n * 2 ^ (- e0))
  then e0 else e0 - 1.

(** The double nearest to [n / d] (ties to even) for positive [n] and [d],
    with the sign [negative]: 53 significant bits for a normal result, a
    multiple of [2^-1074] below [2^-1022], an infinity from [2^1024] on. *)
Definition round_to_double (negative : bool) (n d : Z) : fval :=
  let ex := Z.max (leading_bit n d - 52) (-1074) in
  let num := if 0 <=? ex then n else n * 2 ^ (- ex) in
  let den := if 0 <=? ex then d * 2 ^ ex else d in
  let m := num / den in
  let r := num mod den in
  let m := if (den <? 2 * r) || ((2 * r =? den) && Z.odd m) then m + 1 else m in
  let s := if negative then - m else m in
  if 0 <=? ex
  then if 2 ^ 1024 <=? m * 2 ^ ex
       then (if negative then NInf else PInf)
       else Fin (inject_Z (s * 2 ^ ex))
  else Fin (Qmake s (Z.to_pos (2 ^ (- ex)))).

Definition round64 (q : Q) : fval :=
  match Qnum q with
  | 0 => Fin 0
  | Zpos n => round_to_double false (Zpos n) (Zpos (Qden q))
  | Zneg n => round_to_double true (Zpos n) (Zpos (Qden q))
  end.

(** A float as the double it is stored as; a double is left as it is. *)
Definition to_double (v : fval) : fval :=
  match v with
  | Fin q => round64 q
  | _ => v
  end.

(** [x + y] on floats. *)
Definition fadd (x y : fval) : fval :=
  match x, y with
  | NaN, _ | _, NaN => NaN
  | Fin a, Fin b => Fin (a + b)
  | PInf, NInf | NInf, PInf => NaN
  | PInf, _ | _, PInf => PInf
  | NInf, _ | _, NInf => NInf
  end.

(** The three operations of the float unit: the exact result of the
    operation on two doubles, rounded once. *)
Definition add64 (x y : fval) : fval := to_double (fadd (to_double x) (to_double y)).
Definition div64 (x y : fval) : fval := to_double (fdiv (to_double x) (to_double y)).
Definition mul64 (x y : fval) : fval := to_double (fmul (to_double x) (to_double y)).

(** The mean of a window in doubles: the values summed from the oldest to
    the newest, divided by their number. *)
Definition mean64 (xs : list Q) : fval :=
  div64 (List.fold_left add64 (List.map Fin xs) (Fin 0))
        (Fin (inject_Z (Z.of_nat (List.length xs)))).

(** Binary64 with every window summed afresh.  (pandas keeps a running,
    compensated sum; the two agree wherever the additions are exact, as
    they are on the samples below.) *)
Definition binary64_arith : arith :=
  mk_arith (fun wn xs i => mean64 (window_at wn i xs)) div64 mul64.

(** The value of a machine double, used to cross-check [binary64_arith]
    against the machine's float unit. *)
Definition of_float (x : float) : fval :=
  match Prim2SF x with
  | S754_zero _ => Fin 0
  | S754_infinity negative => if negative then NInf else PInf
  | S754_nan => NaN
  | S754_finite negative m e =>
      let s := if negative then Zneg m else Zpos m in
      if 0 <=? e then Fin (inject_Z (s * 2 ^ e))
      else Fin (Qmake s (Z.to_pos (2 ^ (- e))))
  end.

(** Two floats that denote the same number. *)
Definition fval_eq (x y : fval) : Prop :=
  match x, y with
  | Fin a, Fin b => (a == b)%Q
  | PInf, PInf | NInf, NInf | NaN, NaN => True
  | _, _ => False
  end.

(** ** Sample inputs *)

(** The smallest positive double, [2^-1074]. *)
Definition smallest_double : Q := Qmake 1 (2 ^ 1074).

(** Eleven bars, none negative, whose last two closes are 0 and the
    smallest positive double: the windows are 2 and 1. *)
Definition underflow_series : frame :=
  DataFrame [bar 1 1; bar 2 1; bar 3 1; bar 4 1; bar 5 1; bar 6 1;
             bar 7 1; bar 8 1; bar 9 1; bar 10 0; bar 11 smallest_double].

(** Eleven bars whose last two closes are 1e308 and 1.7e308. *)
Definition overflow_series : frame :=
  DataFrame [bar 1 1; bar 2 1; bar 3 1; bar 4 1; bar 5 1; bar 6 1;
             bar 7 1; bar 8 1; bar 9 1; bar 10 1e308; bar 11 1.7e308].

(** Twelve bars of rising price. *)
Definition rising_series : frame :=
  DataFrame [bar 1 1; bar 2 2; bar 3 3; bar 4 4; bar 5 5; bar 6 6;
             bar 7 7; bar 8 8; bar 9 9; bar 10 10; bar 11 11; bar 12 12].

(** [n] bars at times [t0], [t0 + 1], ... with the close [c]. *)
Definition flat_bars (t0 : Z) (n : nat) (c : Q) : list kline :=
  List.map (fun i => bar (t0 + Z.of_nat i) c) (List.seq 0 n).

(** A source whose single page lists two bars in descending time. *)
Definition out_of_order_source : script :=
  [fun _ => Page [bar 2 1; bar 1 1]].

(** A source whose second page starts again at the last timestamp of the
    first one, with another price. *)
Definition overlapping_source : script :=
  [fun _ => Page (flat_bars 1 1000 1);
   fun _ => Page [bar 1000 2; bar 1001 2]].

(** A source that fails on the second request. *)
Definition failing_source : script :=
  [fun _ => Page (flat_bars 1 1000 1); fun _ => Failure].

(** 250 bars at the constant price 2. *)
Definition flat_series : frame := DataFrame (flat_bars 1 250 2).

(** What deduplication leaves of the two pages of [overlapping_source]. *)
Definition overlapping_series : frame :=
  drop_duplicates (DataFrame (flat_bars 1 1000 1 ++ [bar 1000 2; bar 1001 2])).

(** ** Further sources and inputs *)

(** A source that answers the successive requests with the given pages,
    whatever [startTime] it is asked for. *)
Definition replay (pages : list (list kline)) : script :=
  List.map (fun page => fun _ : Z => Page page) pages.

(** A handler is honest when the rows of every page it answers with start
    at the [startTime] asked for and are strictly increasing in time. *)
Definition honest (serve : Z -> response) : Prop :=
  forall start_time data,
    serve start_time = Page data ->
    List.Forall (fun r => start_time <= open_time r) data /\
    StronglySorted Z.lt (List.map open_time data).

(** A handler that, asked for [startTime], answers with the two bars at
    [startTime] and [startTime + 1]. *)
Definition two_bars_from (start_time : Z) : response :=
  Page [bar start_time 1; bar (start_time + 1) 1].

(** The index of the first row that has both averages: the longer of the
    two windows, minus one. *)
Definition first_point_index (data_length : Z) : nat :=
  Z.to_nat (Z.max (ma_window_of data_length) (long_window_of data_length)) - 1.

(** The place of a band in the chain and in the strategy table. *)
Definition band_rank (b : band) : nat :=
  match b with
  | DiamondPit => 0
  | GoldenPit => 1
  | FairValue => 2
  | HoldAndWait => 3
  | EarlyBubble => 4
  | ExtremeBubble => 5
  | ManicTop => 6
  end.

(** [market_levels] of [generate_html_chart]: the price lines drawn over
    the chart, as (value, colour, title). *)
Definition market_levels : list (Q * string * string) :=
  [(0.73%Q, "#00c853"%string, "钻石坑/黄金坑"%string);
   (1.20%Q, "#ffd600"%string, "黄金坑/定投区"%string);
   (1.50%Q, "#2196f3"%string, "定投截止线"%string);
   (3.0%Q, "#ff9800"%string, "减仓区"%string);
   (4.5%Q, "#ff5722"%string, "清仓区"%string);
   (6.5%Q, "#d50000"%string, "逃顶区"%string)].

(** How many price lines lie at or below the value. *)
Definition levels_reached (v : fval) : nat :=
  List.length (List.filter (fun level => fleb (Fin (fst (fst level))) v) market_levels).

(** A frame as [calculate_ehr999] could return it: two daily bars with
    their three indicator columns. *)
Definition charted_series : frame :=
  mk_frame [bar 86400000 1; bar 172800000 2]
           (Some [Fin 1; Fin 2]) (Some [Fin 1; Fin 2]) (Some [Fin 1; Fin 1]).

(** A frame as [calculate_ehr999] could return it whose second bar opens
    at 10000-01-01T00:00:00. *)
Definition far_future_series : frame :=
  mk_frame [bar 86400000 1; bar datetime_end_ms 2]
           (Some [Fin 1; Fin 2]) (Some [Fin 1; Fin 2]) (Some [Fin 1; Fin 1]).

(** Three daily instants and three values, one of them NaN. *)
Definition three_days : list Z := [86400000; 172800000; 259200000].
Definition three_values : list fval := [Fin 1; NaN; PInf].

(** The branch of the entry point taken when a frame was fetched. *)
Definition update_from (df : nat) : M unit :=
  df <- calculate_ehr999 df ;;
  f <- load df ;;
  print LLatestHeader ;;
  p <- iloc_last (closes f) ;;
  print (LPrice p) ;;
  e <- getcol (EHR999 f) ;;
  v <- iloc_last e ;;
  print (LValue v) ;;
  t <- iloc_last (open_times f) ;;
  print (LTime t) ;;
  generate_html_chart (Some df) SYMBOL ;;
  print LUpdateDone.

(** The same branch and the entry point over the arithmetic [A]; [main]
    is [main_with exact_arith]. *)
Definition update_from_with (A : arith) (df : nat) : M unit :=
  df <- calculate_ehr999_with A df ;;
  f <- load df ;;
  print LLatestHeader ;;
  p <- iloc_last (closes f) ;;
  print (LPrice p) ;;
  e <- getcol (EHR999 f) ;;
  v <- iloc_last e ;;
  print (LValue v) ;;
  t <- iloc_last (open_times f) ;;
  print (LTime t) ;;
  generate_html_chart (Some df) SYMBOL ;;
  print LUpdateDone.

Definition main_with (A : arith) (s : script) : M unit :=
  print LRule ;; print LStart ;; print LRule ;;
  df <- fetch_eth_klines s SYMBOL "1d" ;;
  match df with
  | Some df => update_from_with A df
  | None => print LWaitRetry
  end.

(** Sources that answer with one short page. *)
Definition rising_source : script := [fun _ => Page (bars rising_series)].
Definition five_bar_source : script :=
  [fun _ => Page [bar 1 1; bar 2 2; bar 3 3; bar 4 4; bar 5 5]].
Definition ten_bar_source : script := [fun _ => Page (flat_bars 1 10 1)].
Definition underflow_source : script := [fun _ => Page (bars underflow_series)].

(** The report the program writes against [rising_source]. *)
Definition rising_report : report :=
  match index_html (snd (main rising_source boot)) with
  | Some doc => doc
  | None => mk_report "" 0 0 0 0 NaN 0 "" "" "" [] []
  end.

(** * Properties *)

(** ** Comparisons on finite values *)

Lemma fltb_Fin (a b : Q) : fltb (Fin a) (Fin b) = true <-> (a < b)%Q.
Proof.
  simpl. rewrite negb_true_iff. split.
  - intros H. apply Qnot_le_lt. intros Hle.
    apply Qle_bool_iff in Hle. congruence.
  - intros H. apply not_true_is_false. intros Hle.
    apply Qle_bool_iff in Hle. lra.
Qed.

Lemma fleb_Fin (a b : Q) : fleb (Fin a) (Fin b) = true <-> (a <= b)%Q.
Proof. simpl. apply Qle_bool_iff. Qed.

Lemma fltb_Fin_false (a b : Q) : fltb (Fin a) (Fin b) = false <-> (b <= a)%Q.
Proof.
  rewrite <- not_true_iff_false, fltb_Fin. split; intros H; lra.
Qed.

Lemma fleb_Fin_false (a b : Q) : fleb (Fin a) (Fin b) = false <-> (b < a)%Q.
Proof.
  rewrite <- not_true_iff_false, fleb_Fin. split; intros H; lra.
Qed.

(** Settle every comparison of the goal that the context decides. *)
Ltac decide_cmp :=
  repeat match goal with
  | |- context [fltb (Fin ?a) (Fin ?b)] =>
      first
        [ replace (fltb (Fin a) (Fin b)) with true
            by (symmetry; apply fltb_Fin; lra)
        | replace (fltb (Fin a) (Fin b)) with false
            by (symmetry; apply fltb_Fin_false; lra) ]
  | |- context [fleb (Fin ?a) (Fin ?b)] =>
      first
        [ replace (fleb (Fin a) (Fin b)) with true
            by (symmetry; apply fleb_Fin; lra)
        | replace (fleb (Fin a) (Fin b)) with false
            by (symmetry; apply fleb_Fin_false; lra) ]
  end.

(** The chain, branch by branch, with what is known of the value when a
    branch is taken. *)
Lemma classify_cases (v : Q) :
  ((v < 0.73)%Q /\ classify (Fin v) = DiamondPit) \/
  ((0.73 <= v < 1.20)%Q /\ classify (Fin v) = GoldenPit) \/
  ((1.20 <= v < 1.50)%Q /\ classify (Fin v) = FairValue) \/
  ((1.50 <= v < 3.0)%Q /\ classify (Fin v) = HoldAndWait) \/
  ((3.0 <= v < 4.5)%Q /\ classify (Fin v) = EarlyBubble) \/
  ((4.5 <= v < 6.5)%Q /\ classify (Fin v) = ExtremeBubble) \/
  ((6.5 <= v)%Q /\ classify (Fin v) = ManicTop).
Proof.
  unfold classify.
  destruct (fltb (Fin v) (Fin 0.73)) eqn:E1;
    [apply fltb_Fin in E1; tauto | apply fltb_Fin_false in E1; right].
  destruct (fltb (Fin v) (Fin 1.20)) eqn:E2;
    [apply fltb_Fin in E2; tauto | apply fltb_Fin_false in E2; right].
  destruct (fltb (Fin v) (Fin 1.50)) eqn:E3;
    [apply fltb_Fin in E3; tauto | apply fltb_Fin_false in E3; right].
  destruct (fltb (Fin v) (Fin 3.0)) eqn:E4;
    [apply fltb_Fin in E4; tauto | apply fltb_Fin_false in E4; right].
  destruct (fltb (Fin v) (Fin 4.5)) eqn:E5;
    [apply fltb_Fin in E5; tauto | apply fltb_Fin_false in E5; right].
  destruct (fltb (Fin v) (Fin 6.5)) eqn:E6;
    [apply fltb_Fin in E6; tauto | apply fltb_Fin_false in E6; right].
  tauto.
Qed.

Ltac by_band v :=
  destruct (classify_cases v)
    as [[? ->] | [[? ->] | [[? ->] | [[? ->] | [[? ->] | [[? ->] | [? ->]]]]]]].

(** The branch the chain takes is the one whose interval holds the value. *)
Lemma classify_in_interval (v : Q) :
  (0 <= v)%Q -> in_MarketBand (classify (Fin v)) v.
Proof.
  intros Hv. by_band v; unfold in_MarketBand; simpl; lra.
Qed.

Lemma interval_determines_band (v : Q) (b : band) :
  in_MarketBand b v -> b = classify (Fin v).
Proof.
  unfold in_MarketBand. intros [Hlo Hhi].
  by_band v; destruct b; simpl in *; solve [reflexivity | lra].
Qed.

(** C4. For a finite value [v >= 0] the chain of ascending threshold tests
    selects a band whose interval contains [v], and no other band's
    interval contains [v]: exactly one of the seven bands matches.  The
    boundary [0.73] falls in the second band and [6.5] in the top band. *)
Theorem classify_exactly_one_band (v : Q) :
  (0 <= v)%Q ->
  in_MarketBand (classify (Fin v)) v /\
  (forall b, in_MarketBand b v -> b = classify (Fin v)) /\
  classify (Fin 0.73) = GoldenPit /\
  classify (Fin 6.5) = ManicTop.
Proof.
  intros Hv. split; [now apply classify_in_interval|].
  split; [intros b; apply interval_determines_band|].
  split; reflexivity.
Qed.

Lemma classify_exactly_one_band_witness :
  in_MarketBand (classify (Fin 1.3)) 1.3 /\
  (forall b, in_MarketBand b 1.3 -> b = classify (Fin 1.3)) /\
  classify (Fin 0.73) = GoldenPit /\
  classify (Fin 6.5) = ManicTop.
Proof. apply (classify_exactly_one_band 1.3). unfold Qle; simpl; lia. Defined.

Lemma row_is_current_iff (v : Q) (b : band) :
  row_is_current b (Fin v) = true <-> b = classify (Fin v).
Proof.
  by_band v; destruct b; unfold row_is_current, fgeb; decide_cmp; simpl;
    split; intros Hrow; solve [reflexivity | discriminate Hrow].
Qed.

(** C10. For every finite latest oscillator value, the band chosen by the
    header's if/elif chain is the one row of the strategy table that carries
    the current-row class: the list of highlighted rows is exactly that
    band, and a row is highlighted if and only if it is that band. *)
Theorem header_band_is_the_highlighted_row (v : Q) :
  current_rows (Fin v) = [classify (Fin v)] /\
  (forall b, row_class b (Fin v) = "current-row"%string <-> b = classify (Fin v)).
Proof.
  split.
  - by_band v; unfold current_rows, bands, row_is_current, fgeb;
      decide_cmp; reflexivity.
  - intros b. unfold row_class. rewrite <- row_is_current_iff.
    destruct (row_is_current b (Fin v)); split; intros; congruence.
Qed.

(** ** Window sizing *)

(** The integer model of the binary64 product agrees with the machine's
    floating-point unit on small lengths, around [2^53] where lengths stop
    being exact doubles, and around [2^62]. *)
Example binary64_agrees_with_machine :
  List.forallb
    (fun n => Binary64.to_int (Binary64.mul (Binary64.of_int n) Binary64.lit_0_6)
              =? machine_max_long_window n)
    (List.map Z.of_nat (List.seq 0 5000)
     ++ List.map (fun k => 2 ^ 53 - 50 + Z.of_nat k) (List.seq 0 100)
     ++ List.map (fun k => 2 ^ 62 + 1234567 * Z.of_nat k) (List.seq 0 100))
  = true.
Proof. vm_compute. reflexivity. Qed.

Example windows_at_1000 : (ma_window_of 1000, long_window_of 1000) = (200, 600).
Proof. reflexivity. Qed.

Example windows_at_60 : (ma_window_of 60, long_window_of 60) = (15, 50).
Proof. reflexivity. Qed.

Example windows_at_5 : (ma_window_of 5, long_window_of 5) = (1, -5).
Proof. reflexivity. Qed.

(** The comparison does not depend on what the 60% cap evaluates to. *)
Lemma long_window_ge_short_any_cap (n cap : Z) :
  60 <= n -> n < 200 \/ 210 <= n ->
  let ma_window := ma_window_of n in
  let long_window := Z.min (ma_window * 7) cap in
  ma_window <=
  (if long_window <? ma_window + 50
   then Z.min (ma_window + 50) (n - 10) else long_window).
Proof.
  intros Hn Hr. unfold ma_window_of. cbv zeta.
  destruct (n <? 200) eqn:E200;
    [apply Z.ltb_lt in E200 | apply Z.ltb_ge in E200].
  - assert (n / 4 <= n - 10) by (Z.to_euclidean_division_equations; lia).
    destruct (Z.min (Z.min 50 (n / 4) * 7) cap <? Z.min 50 (n / 4) + 50) eqn:E;
      [apply Z.ltb_lt in E | apply Z.ltb_ge in E]; lia.
  - destruct (Z.min (200 * 7) cap <? 200 + 50) eqn:E;
      [apply Z.ltb_lt in E | apply Z.ltb_ge in E]; lia.
Qed.

(** C1, as the code has it.  For every series length [N >= 60] outside
    [200..209] the long window is at least the short window.  (For
    [200 <= N <= 209] the short window jumps to 200 while the long window
    is clamped to [N - 10].) *)
Theorem long_window_ge_short_window (n : Z) :
  60 <= n -> n < 200 \/ 210 <= n ->
  ma_window_of n <= long_window_of n.
Proof.
  intros Hn Hr. unfold long_window_of.
  apply (long_window_ge_short_any_cap n (max_long_window_of n) Hn Hr).
Qed.

Lemma long_window_ge_short_window_witness :
  ma_window_of 1000 <= long_window_of 1000.
Proof. apply (long_window_ge_short_window 1000); lia. Defined.

(** C1, as stated, fails at [N = 200]: the short window is 200 and the long
    window is 190. *)
Lemma long_window_below_short_at_200 :
  60 <= 200 /\ ma_window_of 200 = 200 /\ long_window_of 200 = 190 /\
  ~ (long_window_of 200 >= ma_window_of 200).
Proof. repeat split; try reflexivity; try lia. vm_compute. intros H; apply H; reflexivity. Qed.

(** The whole gap: between 200 and 209 bars the long window is [N - 10]. *)
Lemma long_window_between_200_and_209 (n : Z) :
  200 <= n <= 209 -> ma_window_of n = 200 /\ long_window_of n = n - 10.
Proof.
  intros Hn.
  assert (Hcases : n = 200 \/ n = 201 \/ n = 202 \/ n = 203 \/ n = 204 \/
                   n = 205 \/ n = 206 \/ n = 207 \/ n = 208 \/ n = 209) by lia.
  repeat destruct Hcases as [-> | Hcases]; try subst n; split; reflexivity.
Qed.

(** ** Symbolic execution of the Indicator Engine *)

Lemma ma_window_nonneg (n : Z) : 0 <= n -> 0 <= ma_window_of n.
Proof.
  intros Hn. unfold ma_window_of.
  destruct (n <? 200); [|lia].
  assert (0 <= n / 4) by (Z.to_euclidean_division_equations; lia). lia.
Qed.

Lemma long_window_nonneg (n : Z) : 10 <= n -> 0 <= long_window_of n.
Proof.
  intros Hn. unfold long_window_of.
  pose proof (ma_window_nonneg n ltac:(lia)) as Hma.
  destruct (_ <? _) eqn:E; [apply Z.ltb_lt in E | apply Z.ltb_ge in E]; lia.
Qed.

Lemma long_window_negative (n : Z) :
  0 <= n < 10 -> long_window_of n = n - 10.
Proof.
  intros Hn. unfold long_window_of.
  assert (Hma : 0 <= ma_window_of n <= 2).
  { unfold ma_window_of. destruct (n <? 200) eqn:E; [|apply Z.ltb_ge in E; lia].
    assert (0 <= n / 4 <= 2) by (Z.to_euclidean_division_equations; lia). lia. }
  destruct (_ <? _) eqn:E; [apply Z.ltb_lt in E | apply Z.ltb_ge in E]; lia.
Qed.

Lemma rolling_mean_nonneg (w : Z) (xs : list Q) :
  0 <= w -> rolling_mean w xs = Ok (rolling_values (Z.to_nat w) xs).
Proof.
  intros Hw. unfold rolling_mean.
  destruct (w <? 0) eqn:E; [apply Z.ltb_lt in E; lia | reflexivity].
Qed.

Lemma rolling_mean_negative (w : Z) (xs : list Q) :
  w < 0 -> rolling_mean w xs = Raise ValueError.
Proof.
  intros Hw. unfold rolling_mean.
  destruct (w <? 0) eqn:E; [reflexivity | apply Z.ltb_ge in E; lia].
Qed.

Lemma fresh_not_live (h : gmap nat frame) (r : nat) (f : frame) :
  h !! r = Some f -> fresh (dom h) <> r.
Proof.
  intros Hr Heq. pose proof (is_fresh (dom h)) as Hfresh.
  apply Hfresh. rewrite Heq. apply elem_of_dom. eauto.
Qed.

(** One step of a sequence, for each primitive of the world. *)
Lemma bind_print {B : Type} (l : line) (k : unit -> M B) (w : world) :
  bind (print l) k w = k tt (mk_world (heap w) (stdout w ++ [l]) (index_html w)).
Proof. reflexivity. Qed.

Lemma bind_load {B : Type} (r : nat) (f : frame) (k : frame -> M B) (w : world) :
  heap w !! r = Some f -> bind (load r) k w = k f w.
Proof. intros H. unfold bind, load. rewrite H. reflexivity. Qed.

Lemma bind_alloc {B : Type} (f : frame) (k : nat -> M B) (w : world) :
  bind (alloc f) k w =
  k (fresh (dom (heap w)))
    (mk_world (<[fresh (dom (heap w)) := f]> (heap w)) (stdout w) (index_html w)).
Proof. reflexivity. Qed.

Lemma bind_store {B : Type} (r : nat) (f : frame) (k : unit -> M B) (w : world) :
  bind (store r f) k w =
  k tt (mk_world (<[r := f]> (heap w)) (stdout w) (index_html w)).
Proof. reflexivity. Qed.

Lemma bind_lift_Ok {A B : Type} (a : A) (k : A -> M B) (w : world) :
  bind (lift (Ok a)) k w = k a w.
Proof. reflexivity. Qed.

Lemma bind_lift_Raise {A B : Type} (e : exn) (k : A -> M B) (w : world) :
  bind (lift (Raise e)) k w = (Raise e, w).
Proof. reflexivity. Qed.

Lemma bind_getcol_Some {A B : Type} (a : A) (k : A -> M B) (w : world) :
  bind (getcol (Some a)) k w = k a w.
Proof. reflexivity. Qed.

Lemma bind_ret {A B : Type} (a : A) (k : A -> M B) (w : world) :
  bind (ret a) k w = k a w.
Proof. reflexivity. Qed.

(** Run the straight-line prefix of a sequence. *)
Ltac run_step :=
  first
    [ rewrite bind_print
    | rewrite bind_alloc
    | rewrite bind_store
    | rewrite bind_lift_Ok
    | rewrite bind_getcol_Some
    | rewrite bind_ret
    | erewrite bind_load by (cbn [heap]; first [eassumption | apply lookup_insert_eq]) ];
  cbn [heap stdout index_html bars MA200 MA_long EHR999].

(** With at least ten rows the call returns: it allocates the copy, fills
    its three columns in place, and allocates the frame [dropna] builds. *)
Lemma calculate_ehr999_returns (w : world) (df : nat) (f : frame) :
  heap w !! df = Some f ->
  (10 <= List.length (bars f))%nat ->
  let n := Z.of_nat (List.length (bars f)) in
  let copy := fresh (dom (heap w)) in
  let h1 := <[copy := with_indicators f]> (heap w) in
  let out := select_frame (notna (ehr999_column f)) (with_indicators f) in
  calculate_ehr999 df w =
  (Ok (fresh (dom h1)),
   mk_world (<[fresh (dom h1) := out]> h1)
            (stdout w ++ [LCalculating;
                          LWindows (ma_window_of n) (long_window_of n);
                          LCalculated (List.length (bars out))])
            (index_html w)).
Proof.
  intros Hf Hlen n copy h1 out.
  unfold calculate_ehr999.
  repeat run_step.
  rewrite (rolling_mean_nonneg (ma_window_of _)) by (apply ma_window_nonneg; lia).
  repeat run_step.
  unfold closes at 1; cbn [bars]; fold (closes f).
  rewrite (rolling_mean_nonneg (long_window_of _)) by (apply long_window_nonneg; lia).
  repeat run_step.
  rewrite !insert_insert_eq.
  repeat run_step.
  subst n copy h1 out.
  unfold ret, with_indicators, ehr999_column, closes.
  cbn [bars MA200 MA_long EHR999].
  rewrite <- !app_assoc. reflexivity.
Qed.

(** With fewer than ten rows the long window is negative and the second
    [rolling] call raises; the copy, with its first new column, stays in
    the store. *)
Lemma calculate_ehr999_raises (w : world) (df : nat) (f : frame) :
  heap w !! df = Some f ->
  (List.length (bars f) < 10)%nat ->
  let n := Z.of_nat (List.length (bars f)) in
  let copy := fresh (dom (heap w)) in
  let ma200 := rolling_values (Z.to_nat (ma_window_of n)) (closes f) in
  calculate_ehr999 df w =
  (Raise ValueError,
   mk_world (<[copy := mk_frame (bars f) (Some ma200) (MA_long f) (EHR999 f)]> (heap w))
            (stdout w ++ [LCalculating; LWindows (ma_window_of n) (long_window_of n)])
            (index_html w)).
Proof.
  intros Hf Hlen n copy ma200.
  unfold calculate_ehr999.
  repeat run_step.
  rewrite (rolling_mean_nonneg (ma_window_of _)) by (apply ma_window_nonneg; lia).
  repeat run_step.
  unfold closes at 1; cbn [bars]; fold (closes f).
  rewrite (rolling_mean_negative (long_window_of _))
    by (rewrite long_window_negative; lia).
  rewrite bind_lift_Raise.
  rewrite !insert_insert_eq.
  subst n copy ma200. rewrite <- !app_assoc. reflexivity.
Qed.

Lemma ehr999_frame_returns (f : frame) :
  (10 <= List.length (bars f))%nat ->
  ehr999_frame f = Ok (select_frame (notna (ehr999_column f)) (with_indicators f)).
Proof.
  intros Hlen. unfold ehr999_frame.
  rewrite (calculate_ehr999_returns (world_of f) 0%nat f)
    by (try apply lookup_singleton_eq; assumption).
  cbn [heap]. rewrite lookup_insert_eq. reflexivity.
Qed.

Lemma ehr999_frame_raises (f : frame) :
  (List.length (bars f) < 10)%nat -> ehr999_frame f = Raise ValueError.
Proof.
  intros Hlen. unfold ehr999_frame.
  rewrite (calculate_ehr999_raises (world_of f) 0%nat f)
    by (try apply lookup_singleton_eq; assumption).
  reflexivity.
Qed.

(** C2. On a series of five bars the long window is [-5], so
    [rolling(window=-5)] raises [ValueError]: the Indicator Engine does not
    return an empty sequence. *)
Theorem five_bars_raise_ValueError (b1 b2 b3 b4 b5 : kline) :
  long_window_of 5 = -5 /\
  ehr999_frame (DataFrame [b1; b2; b3; b4; b5]) = Raise ValueError.
Proof.
  split; [reflexivity|].
  apply ehr999_frame_raises. simpl. lia.
Qed.

(** Ten bars are the shortest series the engine accepts: both windows are
    then too short or zero, and the result is empty. *)
Example ten_bars_give_no_points :
  ehr999_frame (DataFrame (List.map (fun t => bar t 1) [1;2;3;4;5;6;7;8;9;10]))
  = Ok (mk_frame [] (Some []) (Some []) (Some [])).
Proof. vm_compute. reflexivity. Qed.

(** C9. [calculate_ehr999] works on a copy: whatever the call does, return
    or raise, the frame behind the reference it was given is the same
    afterwards, and so is every other frame that existed before the call. *)
Theorem calculate_ehr999_leaves_input_unchanged (w : world) (df : nat) (f : frame) :
  heap w !! df = Some f ->
  heap (snd (calculate_ehr999 df w)) !! df = Some f /\
  (forall r g, heap w !! r = Some g ->
               heap (snd (calculate_ehr999 df w)) !! r = Some g).
Proof.
  intros Hf.
  assert (Hall : forall r g, heap w !! r = Some g ->
                             heap (snd (calculate_ehr999 df w)) !! r = Some g).
  { intros r g Hr.
    destruct (le_lt_dec 10 (List.length (bars f))) as [Hlen | Hlen].
    - rewrite (calculate_ehr999_returns w df f Hf Hlen). cbn [snd heap].
      rewrite lookup_insert_ne.
      + rewrite lookup_insert_ne; [assumption|].
        eapply fresh_not_live; eassumption.
      + eapply fresh_not_live. rewrite lookup_insert_ne; [eassumption|].
        eapply fresh_not_live; eassumption.
    - rewrite (calculate_ehr999_raises w df f Hf Hlen). cbn [snd heap].
      rewrite lookup_insert_ne; [assumption|].
      eapply fresh_not_live; eassumption. }
  split; [apply Hall; assumption | exact Hall].
Qed.

Lemma calculate_ehr999_leaves_input_unchanged_witness :
  heap (snd (calculate_ehr999 0%nat (world_of rising_series))) !! 0%nat
    = Some rising_series /\
  (forall r g, heap (world_of rising_series) !! r = Some g ->
               heap (snd (calculate_ehr999 0%nat (world_of rising_series))) !! r
               = Some g).
Proof.
  apply (calculate_ehr999_leaves_input_unchanged (world_of rising_series) 0%nat).
  reflexivity.
Defined.

(** ** Columns, row by row *)

Lemma map_nth_seq {A : Type} (d : A) (xs : list A) :
  xs = List.map (fun i => List.nth i xs d) (List.seq 0 (List.length xs)).
Proof.
  induction xs as [|x xs IH]; [reflexivity|].
  cbn [List.length List.seq List.map List.nth]. f_equal.
  rewrite <- List.seq_shift, List.map_map. exact IH.
Qed.

Lemma zip_with_map_same {A B C D : Type} (g : B -> C -> D) (a : A -> B) (b : A -> C)
      (l : list A) :
  zip_with g (List.map a l) (List.map b l) = List.map (fun i => g (a i) (b i)) l.
Proof. induction l as [|x l IH]; [reflexivity|]. simpl. now rewrite IH. Qed.

Lemma ehr999_column_by_row (f : frame) :
  ehr999_column f =
  List.map (oscillator_at f) (List.seq 0 (List.length (bars f))).
Proof.
  unfold ehr999_column, ehr999_of, col_mul, col_div, float_col, rolling_values.
  assert (Hlen : List.length (closes f) = List.length (bars f))
    by (unfold closes; apply List.length_map).
  rewrite Hlen.
  rewrite (map_nth_seq 0%Q (closes f)) at 1 3.
  rewrite Hlen, !List.map_map, !zip_with_map_same. reflexivity.
Qed.

Lemma select_notna_filter (xs : list fval) :
  select (notna xs) xs = List.filter (fun v => negb (is_nan v)) xs.
Proof.
  induction xs as [|x xs IH]; [reflexivity|].
  simpl. destruct (negb (is_nan x)); now rewrite IH.
Qed.

Lemma select_sublist {A : Type} (mask : list bool) (xs : list A) :
  sublist (select mask xs) xs.
Proof.
  revert mask. induction xs as [|x xs IH]; intros [|m mask]; simpl;
    try apply sublist_nil_l.
  destruct m; [apply sublist_skip | apply sublist_cons]; apply IH.
Qed.

(** ** Sums and means over a window *)

Lemma Qsum_nonneg (xs : list Q) :
  List.Forall (fun x => (0 <= x)%Q) xs -> (0 <= Qsum xs)%Q.
Proof.
  induction 1 as [|x xs Hx _ IH]; [simpl; lra|].
  change (Qsum (x :: xs)) with (x + Qsum xs)%Q. cbv beta in *. lra.
Qed.

Lemma Qsum_zero_all_zero (xs : list Q) :
  List.Forall (fun x => (0 <= x)%Q) xs -> (Qsum xs == 0)%Q ->
  List.Forall (fun x => (x == 0)%Q) xs.
Proof.
  induction 1 as [|x xs Hx Hxs IH]; intros Hsum; constructor;
    pose proof (Qsum_nonneg xs Hxs);
    change (Qsum (x :: xs)) with (x + Qsum xs)%Q in Hsum; cbv beta in *.
  - clear IH Hxs. lra.
  - apply IH. clear IH Hxs. lra.
Qed.


Lemma length_pos_Q {A : Type} (xs : list A) :
  xs <> [] -> (0 < inject_Z (Z.of_nat (List.length xs)))%Q.
Proof.
  intros Hne. destruct xs as [|x xs]; [congruence|].
  change 0%Q with (inject_Z 0). rewrite <- Zlt_Qlt. simpl List.length. lia.
Qed.


Lemma Qmean_zero_sum_zero (xs : list Q) :
  xs <> [] -> (Qmean xs == 0)%Q -> (Qsum xs == 0)%Q.
Proof.
  intros Hne Hm. unfold Qmean in Hm.
  pose proof (length_pos_Q xs Hne) as Hpos.
  assert (H : (Qsum xs == Qsum xs / inject_Z (Z.of_nat (List.length xs))
                          * inject_Z (Z.of_nat (List.length xs)))%Q)
    by (field; lra).
  rewrite H, Hm. ring.
Qed.

Lemma Qmean_nonneg (xs : list Q) :
  xs <> [] -> List.Forall (fun x => (0 <= x)%Q) xs -> (0 <= Qmean xs)%Q.
Proof.
  intros Hne Hall. unfold Qmean.
  apply Qle_shift_div_l; [now apply length_pos_Q|].
  pose proof (Qsum_nonneg xs Hall). lra.
Qed.

(** The window that ends at [i] is made of values of the column and ends
    with the value at [i]. *)
Lemma window_at_Forall (P : Q -> Prop) (w i : nat) (xs : list Q) :
  List.Forall P xs -> List.Forall P (window_at w i xs).
Proof.
  intros H. unfold window_at. now apply Forall_take, Forall_drop.
Qed.

Lemma window_at_last (w i : nat) (xs : list Q) :
  (1 <= w)%nat -> (w <= S i)%nat -> (i < List.length xs)%nat ->
  List.In (List.nth i xs 0%Q) (window_at w i xs).
Proof.
  intros Hw Hwi Hi. unfold window_at.
  assert (Hnth : List.nth (w - 1) (List.firstn w (List.skipn (S i - w) xs)) 0%Q
                 = List.nth i xs 0%Q).
  { rewrite List.nth_firstn.
    destruct (w - 1 <? w)%nat eqn:E; [|apply Nat.ltb_ge in E; lia].
    rewrite List.nth_skipn. f_equal. lia. }
  rewrite <- Hnth. apply List.nth_In.
  rewrite List.length_firstn, List.length_skipn. lia.
Qed.

Lemma window_at_nonempty (w i : nat) (xs : list Q) :
  (1 <= w)%nat -> (w <= S i)%nat -> (i < List.length xs)%nat ->
  window_at w i xs <> [].
Proof.
  intros Hw Hwi Hi Hnil.
  pose proof (window_at_last w i xs Hw Hwi Hi) as Hin.
  rewrite Hnil in Hin. exact Hin.
Qed.

Lemma Qeq_zero_qsign (q : Q) : (q == 0)%Q -> qsign q = 0.
Proof.
  unfold Qeq, qsign. simpl. intros H. rewrite Z.mul_1_r in H. now rewrite H.
Qed.

Lemma nth_Forall (P : Q -> Prop) (i : nat) (xs : list Q) :
  List.Forall P xs -> (i < List.length xs)%nat -> P (List.nth i xs 0%Q).
Proof.
  intros H Hi. rewrite List.Forall_forall in H. apply H. now apply List.nth_In.
Qed.

(** Over non-negative prices a zero average forces a zero price. *)
Lemma zero_mean_zero_close (w i : nat) (xs : list Q) :
  List.Forall (fun x => (0 <= x)%Q) xs ->
  (1 <= w)%nat -> (w <= S i)%nat -> (i < List.length xs)%nat ->
  (Qmean (window_at w i xs) == 0)%Q ->
  (List.nth i xs 0 == 0)%Q.
Proof.
  intros Hpos Hw Hwi Hi Hmean.
  apply Qmean_zero_sum_zero in Hmean; [|now apply window_at_nonempty].
  apply Qsum_zero_all_zero in Hmean; [|now apply window_at_Forall].
  rewrite List.Forall_forall in Hmean.
  apply Hmean. now apply window_at_last.
Qed.

(** ** The oscillator, row by row *)

Lemma rolling_at_cases (w : nat) (xs : list Q) (i : nat) :
  rolling_at w xs i = NaN \/
  ((1 <= w)%nat /\ (w <= S i)%nat /\
   rolling_at w xs i = Fin (Qmean (window_at w i xs))).
Proof.
  unfold rolling_at.
  destruct (1 <=? w)%nat eqn:E1; [|now left].
  destruct (w <=? S i)%nat eqn:E2; [|now left].
  right. apply Nat.leb_le in E1, E2. auto.
Qed.

(** A price divided by an average that can only vanish together with it. *)
Lemma fdiv_Fin_cases (c m : Q) :
  ((m == 0)%Q -> (c == 0)%Q) ->
  fdiv (Fin c) (Fin m) = NaN \/
  (fdiv (Fin c) (Fin m) = Fin (c / m) /\ ~ (m == 0)%Q).
Proof.
  intros Hzero. unfold fdiv.
  destruct (Qeq_bool m 0) eqn:E.
  - apply Qeq_bool_iff in E. rewrite (Qeq_zero_qsign c (Hzero E)). now left.
  - right. split; [reflexivity|]. intros H.
    apply Qeq_bool_iff in H. congruence.
Qed.

Lemma fmul_NaN_r (x : fval) : fmul x NaN = NaN.
Proof. now destruct x. Qed.

(** The shape of the oscillator when, at every defined average, a zero
    average forces a zero price: NaN, or the finite product of the two
    finite ratios. *)
Lemma oscillator_at_cases (f : frame) (i : nat) :
  (forall w, (1 <= w)%nat -> (w <= S i)%nat ->
             (Qmean (window_at w i (closes f)) == 0)%Q ->
             (List.nth i (closes f) 0 == 0)%Q) ->
  oscillator_at f i = NaN \/
  exists w1 w2,
    let c := List.nth i (closes f) 0%Q in
    let m1 := Qmean (window_at w1 i (closes f)) in
    let m2 := Qmean (window_at w2 i (closes f)) in
    (1 <= w1)%nat /\ (w1 <= S i)%nat /\ (1 <= w2)%nat /\ (w2 <= S i)%nat /\
    ~ (m1 == 0)%Q /\ ~ (m2 == 0)%Q /\
    oscillator_at f i = Fin ((c / m1) * (c / m2)).
Proof.
  intros Hzero. unfold oscillator_at.
  set (c := List.nth i (closes f) 0%Q).
  destruct (rolling_at_cases (Z.to_nat (ma_window_of (Z.of_nat (List.length (bars f)))))
                             (closes f) i) as [-> | (Hw1 & Hi1 & ->)];
    [now left|].
  destruct (rolling_at_cases (Z.to_nat (long_window_of (Z.of_nat (List.length (bars f)))))
                             (closes f) i) as [-> | (Hw2 & Hi2 & ->)];
    [left; apply fmul_NaN_r|].
  destruct (fdiv_Fin_cases c _ (Hzero _ Hw1 Hi1)) as [-> | [-> Hm1]]; [now left|].
  destruct (fdiv_Fin_cases c _ (Hzero _ Hw2 Hi2)) as [-> | [-> Hm2]]; [now left|].
  right. eexists _, _. cbv zeta. repeat split; eassumption.
Qed.

(** With exact arithmetic and non-negative prices a value that is not NaN
    is finite, since an average vanishes only together with the price.  In
    double precision an average can round to zero under a positive price:
    see [underflow_series]. *)
Lemma oscillator_nonneg_finite (f : frame) (i : nat) :
  List.Forall (fun c => (0 <= c)%Q) (closes f) ->
  (i < List.length (bars f))%nat ->
  is_nan (oscillator_at f i) = false ->
  is_finite (oscillator_at f i) = true.
Proof.
  intros Hpos Hi Hnan.
  assert (Hlen : List.length (closes f) = List.length (bars f))
    by (unfold closes; apply List.length_map).
  destruct (oscillator_at_cases f i) as [E | (w1 & w2 & E)].
  - intros w Hw Hwi. apply zero_mean_zero_close; auto. lia.
  - rewrite E in Hnan. discriminate.
  - cbv zeta in E. destruct E as (_ & _ & _ & _ & _ & _ & ->). reflexivity.
Qed.



Lemma Forall_filter_map_seq (P : fval -> Prop) (g : fval -> bool)
      (osc : nat -> fval) (n : nat) :
  (forall i, (i < n)%nat -> g (osc i) = true -> P (osc i)) ->
  List.Forall P (List.filter g (List.map osc (List.seq 0 n))).
Proof.
  intros H. apply List.Forall_forall. intros v Hv.
  apply List.filter_In in Hv. destruct Hv as [Hv Hg].
  apply List.in_map_iff in Hv. destruct Hv as (i & <- & Hi).
  apply List.in_seq in Hi. apply H; [lia | assumption].
Qed.

(** The chart's own [pd.notna] test removes nothing more once [dropna]
    has run: every remaining row becomes a point, in order. *)
Lemma ehr999_data_of_notna (times : list Z) (values : list fval) :
  List.Forall (fun v => is_nan v = false) values ->
  List.length times = List.length values ->
  ehr999_data_of times values =
  List.combine (List.map epoch_seconds times) values.
Proof.
  intros Hall. revert times.
  induction Hall as [|v values Hv _ IH]; intros [|t times] Hlen;
    try reflexivity; try discriminate.
  simpl. rewrite Hv. simpl. f_equal. apply IH. simpl in Hlen. lia.
Qed.

Lemma select_length_same_mask {A B : Type} (mask : list bool) (xs : list A) (ys : list B) :
  List.length xs = List.length ys ->
  List.length (select mask xs) = List.length (select mask ys).
Proof.
  revert xs ys. induction mask as [|m mask IH]; intros [|x xs] [|y ys] Hlen;
    try reflexivity; try discriminate.
  simpl. destruct m; simpl; [f_equal|]; apply IH; simpl in Hlen; lia.
Qed.

Lemma ehr999_column_length (f : frame) :
  List.length (ehr999_column f) = List.length (bars f).
Proof.
  rewrite ehr999_column_by_row, List.length_map, List.length_seq. reflexivity.
Qed.

(** ** The engine over any arithmetic *)

(** [calculate_ehr999] is [calculate_ehr999_with] at the exact arithmetic. *)
Lemma calculate_ehr999_with_exact (df : nat) :
  calculate_ehr999_with exact_arith df = calculate_ehr999 df.
Proof. reflexivity. Qed.

Lemma ehr999_frame_with_exact (f : frame) :
  ehr999_frame_with exact_arith f = ehr999_frame f.
Proof. reflexivity. Qed.

Lemma rolling_mean_with_nonneg (A : arith) (w : Z) (xs : list Q) :
  0 <= w -> rolling_mean_with A w xs = Ok (rolling_values_with A (Z.to_nat w) xs).
Proof.
  intros Hw. unfold rolling_mean_with.
  destruct (w <? 0) eqn:E; [apply Z.ltb_lt in E; lia | reflexivity].
Qed.

Lemma rolling_mean_with_negative (A : arith) (w : Z) (xs : list Q) :
  w < 0 -> rolling_mean_with A w xs = Raise ValueError.
Proof.
  intros Hw. unfold rolling_mean_with.
  destruct (w <? 0) eqn:E; [reflexivity | apply Z.ltb_ge in E; lia].
Qed.

(** With at least ten rows the call returns, whatever the arithmetic. *)
Lemma calculate_ehr999_with_returns (A : arith) (w : world) (df : nat) (f : frame) :
  heap w !! df = Some f ->
  (10 <= List.length (bars f))%nat ->
  let n := Z.of_nat (List.length (bars f)) in
  let copy := fresh (dom (heap w)) in
  let h1 := <[copy := with_indicators_with A f]> (heap w) in
  let out := select_frame (notna (ehr999_column_with A f)) (with_indicators_with A f) in
  calculate_ehr999_with A df w =
  (Ok (fresh (dom h1)),
   mk_world (<[fresh (dom h1) := out]> h1)
            (stdout w ++ [LCalculating;
                          LWindows (ma_window_of n) (long_window_of n);
                          LCalculated (List.length (bars out))])
            (index_html w)).
Proof.
  intros Hf Hlen n copy h1 out.
  unfold calculate_ehr999_with.
  repeat run_step.
  rewrite (rolling_mean_with_nonneg A (ma_window_of _)) by (apply ma_window_nonneg; lia).
  repeat run_step.
  unfold closes at 1; cbn [bars]; fold (closes f).
  rewrite (rolling_mean_with_nonneg A (long_window_of _))
    by (apply long_window_nonneg; lia).
  repeat run_step.
  rewrite !insert_insert_eq.
  repeat run_step.
  subst n copy h1 out.
  unfold ret, with_indicators_with, ehr999_column_with, closes.
  cbn [bars MA200 MA_long EHR999].
  rewrite <- !app_assoc. reflexivity.
Qed.

(** With fewer than ten rows it raises, whatever the arithmetic. *)
Lemma calculate_ehr999_with_raises (A : arith) (w : world) (df : nat) (f : frame) :
  heap w !! df = Some f ->
  (List.length (bars f) < 10)%nat ->
  fst (calculate_ehr999_with A df w) = Raise ValueError.
Proof.
  intros Hf Hlen.
  unfold calculate_ehr999_with.
  repeat run_step.
  rewrite (rolling_mean_with_nonneg A (ma_window_of _)) by (apply ma_window_nonneg; lia).
  repeat run_step.
  unfold closes at 1; cbn [bars]; fold (closes f).
  rewrite (rolling_mean_with_negative A (long_window_of _))
    by (rewrite long_window_negative; lia).
  rewrite bind_lift_Raise. reflexivity.
Qed.

Lemma ehr999_frame_with_returns (A : arith) (f : frame) :
  (10 <= List.length (bars f))%nat ->
  ehr999_frame_with A f =
  Ok (select_frame (notna (ehr999_column_with A f)) (with_indicators_with A f)).
Proof.
  intros Hlen. unfold ehr999_frame_with.
  rewrite (calculate_ehr999_with_returns A (world_of f) 0%nat f)
    by (try apply lookup_singleton_eq; assumption).
  cbn [heap]. rewrite lookup_insert_eq. reflexivity.
Qed.

Lemma ehr999_column_with_by_row (A : arith) (f : frame) :
  ehr999_column_with A f =
  List.map (oscillator_at_with A f) (List.seq 0 (List.length (bars f))).
Proof.
  unfold ehr999_column_with, ehr999_of_with, float_col, rolling_values_with.
  assert (Hlen : List.length (closes f) = List.length (bars f))
    by (unfold closes; apply List.length_map).
  rewrite Hlen.
  rewrite (map_nth_seq 0%Q (closes f)) at 1 3.
  rewrite Hlen, !List.map_map, !zip_with_map_same. reflexivity.
Qed.

Lemma ehr999_column_with_length (A : arith) (f : frame) :
  List.length (ehr999_column_with A f) = List.length (bars f).
Proof.
  rewrite ehr999_column_with_by_row, List.length_map, List.length_seq. reflexivity.
Qed.

Lemma is_nan_true (v : fval) : is_nan v = true -> v = NaN.
Proof. destruct v; try discriminate. reflexivity. Qed.

(** An average that is NaN makes the oscillator NaN. *)
Lemma oscillator_nan_average (A : arith) (f : frame) (i : nat) :
  propagates_nan A ->
  is_nan (ma200_at_with A f i) = true \/ is_nan (ma_long_at_with A f i) = true ->
  oscillator_at_with A f i = NaN.
Proof.
  intros [Hdl Hdr Hml Hmr] [H | H]; apply is_nan_true in H;
    unfold oscillator_at_with; cbv zeta; rewrite H, Hdr.
  - apply Hml.
  - apply Hmr.
Qed.

(** The frame the engine builds from [f], and its value column. *)
Lemma engine_output_columns_with (A : arith) (f : frame) :
  let out := select_frame (notna (ehr999_column_with A f)) (with_indicators_with A f) in
  let values := select (notna (ehr999_column_with A f)) (ehr999_column_with A f) in
  EHR999 out = Some values /\
  List.length values = List.length (bars out) /\
  List.Forall (fun v => is_nan v = false) values.
Proof.
  cbv zeta. split; [reflexivity|]. split.
  - cbn [select_frame with_indicators_with bars].
    apply select_length_same_mask. apply ehr999_column_with_length.
  - rewrite select_notna_filter. apply List.Forall_forall. intros v Hv.
    apply List.filter_In in Hv. destruct Hv as [_ Hv].
    now apply negb_true_iff in Hv.
Qed.



(** Overflow goes the other way: on [overflow_series] the sum of the last
    two closes is infinite in double precision, so is the short average,
    and the last row is in the output with the value zero. *)
Example overflowing_average_gives_zero_point :
  exists out ma200 values,
    ehr999_frame_with binary64_arith overflow_series = Ok out /\
    MA200 out = Some ma200 /\ EHR999 out = Some values /\
    List.last ma200 NaN = PInf /\
    fval_eq (List.last values NaN) (Fin 0).
Proof.
  eexists _, _, _. split; [vm_compute; reflexivity|].
  repeat split; reflexivity.
Qed.

(** The same three operations on the machine's float unit. *)
Example binary64_mean_can_underflow :
  PrimFloat.ltb 0 0x1p-1074 = true /\
  PrimFloat.div (PrimFloat.add 0 0x1p-1074) 2 = 0%float /\
  PrimFloat.div 0x1p-1074 (PrimFloat.div (PrimFloat.add 0 0x1p-1074) 2)
  = infinity.
Proof. repeat split; reflexivity. Qed.

(** [binary64_arith] against the machine's float unit: a quotient and a
    product that round, a sum that overflows, a quotient that underflows,
    a division by zero. *)
Example binary64_arith_agrees_with_machine :
  fval_eq (div64 (of_float 0x1.3333333333333p-2) (of_float 0x1.999999999999ap-3))
          (of_float (0x1.3333333333333p-2 / 0x1.999999999999ap-3)) /\
  fval_eq (mul64 (of_float 0x1.0ccccccccccccp+1) (of_float 0x1.6db6db6db6db7p+0))
          (of_float (0x1.0ccccccccccccp+1 * 0x1.6db6db6db6db7p+0)) /\
  fval_eq (add64 (of_float 0x1.1ccf385ebc8ap+1023) (of_float 0x1.e42d130773b76p+1023))
          (of_float (0x1.1ccf385ebc8ap+1023 + 0x1.e42d130773b76p+1023)) /\
  fval_eq (div64 (of_float 0x1p-1074) (of_float 2)) (of_float (0x1p-1074 / 2)) /\
  fval_eq (div64 (of_float 0x1p-1074) (of_float 0)) (of_float (0x1p-1074 / 0)) /\
  fval_eq (mean64 [0; smallest_double]%Q) (of_float ((0 + 0 + 0x1p-1074) / 2)).
Proof. vm_compute. repeat split; reflexivity. Qed.

(** ** The two arithmetics keep the laws *)

Lemma to_double_nan (v : fval) : is_nan v = true -> to_double v = NaN.
Proof. intros H. apply is_nan_true in H. now subst. Qed.

Lemma fdiv_nan_l (y : fval) : fdiv NaN y = NaN.
Proof. reflexivity. Qed.

Lemma fdiv_nan_r (x : fval) : fdiv x NaN = NaN.
Proof. now destruct x. Qed.

Lemma fmul_nan_l (y : fval) : fmul NaN y = NaN.
Proof. reflexivity. Qed.

Lemma exact_propagates_nan : propagates_nan exact_arith.
Proof.
  constructor; cbn [a_div a_mul exact_arith]; intros.
  - apply fdiv_nan_l.
  - apply fdiv_nan_r.
  - apply fmul_nan_l.
  - apply fmul_NaN_r.
Qed.

Lemma binary64_propagates_nan : propagates_nan binary64_arith.
Proof.
  constructor; cbn [a_div a_mul binary64_arith]; intros;
    unfold div64, mul64; cbn [to_double].
  - reflexivity.
  - now rewrite fdiv_nan_r.
  - reflexivity.
  - now rewrite fmul_NaN_r.
Qed.

Lemma nonneg_Fin (q : Q) : nonneg (Fin q) = true <-> (0 <= q)%Q.
Proof. cbn [nonneg]. apply Qle_bool_iff. Qed.

Lemma nonneg_or_nan_cases (v : fval) :
  nonneg_or_nan v = true ->
  v = NaN \/ v = PInf \/ exists q, v = Fin q /\ (0 <= q)%Q.
Proof.
  destruct v as [q| | |]; unfold nonneg_or_nan; cbn [is_nan nonneg orb]; intros H;
    try discriminate; auto.
  right. right. exists q. split; [reflexivity|]. now apply Qle_bool_iff.
Qed.

Lemma nonneg_or_nan_Fin (q : Q) : (0 <= q)%Q -> nonneg_or_nan (Fin q) = true.
Proof. intros H. unfold nonneg_or_nan. cbn [is_nan orb]. now apply nonneg_Fin. Qed.

Lemma qsign_nonneg (q : Q) : (0 <= q)%Q -> qsign q = 0 \/ exists p, qsign q = Zpos p.
Proof.
  unfold Qle, qsign. destruct q as [n d]. cbn [Qnum Qden]. intros H.
  destruct n as [|p|p]; cbn [Z.sgn]; [now left | right; now exists 1%positive | lia].
Qed.

Lemma fdiv_keeps_sign (x y : fval) :
  nonneg_or_nan x = true -> nonneg_or_nan y = true ->
  nonneg_or_nan (fdiv x y) = true.
Proof.
  intros Hx Hy.
  destruct (nonneg_or_nan_cases x Hx) as [-> | [-> | (a & -> & Ha)]];
    destruct (nonneg_or_nan_cases y Hy) as [-> | [-> | (b & -> & Hb)]];
    try reflexivity.
  - cbn [fdiv]. apply Qle_bool_iff in Hb. rewrite Hb. reflexivity.
  - cbn [fdiv]. destruct (Qeq_bool b 0) eqn:E.
    + destruct (qsign_nonneg a Ha) as [-> | [p ->]]; reflexivity.
    + apply nonneg_or_nan_Fin.
      assert (Hb0 : ~ (b == 0)%Q).
      { intros H. apply Qeq_bool_iff in H. congruence. }
      apply Qle_shift_div_l; [|lra].
      destruct (Qlt_le_dec 0 b) as [Hl | Hl]; [exact Hl | exfalso; apply Hb0; lra].
Qed.

Lemma fmul_keeps_sign (x y : fval) :
  nonneg_or_nan x = true -> nonneg_or_nan y = true ->
  nonneg_or_nan (fmul x y) = true.
Proof.
  intros Hx Hy.
  destruct (nonneg_or_nan_cases x Hx) as [-> | [-> | (a & -> & Ha)]];
    destruct (nonneg_or_nan_cases y Hy) as [-> | [-> | (b & -> & Hb)]];
    try reflexivity.
  - cbn [fmul]. destruct (qsign_nonneg b Hb) as [-> | [p ->]]; reflexivity.
  - cbn [fmul]. destruct (qsign_nonneg a Ha) as [-> | [p ->]]; reflexivity.
  - cbn [fmul]. apply nonneg_or_nan_Fin. now apply Qmult_le_0_compat.
Qed.

Lemma fadd_keeps_sign (x y : fval) :
  nonneg_or_nan x = true -> nonneg_or_nan y = true ->
  nonneg_or_nan (fadd x y) = true.
Proof.
  intros Hx Hy.
  destruct (nonneg_or_nan_cases x Hx) as [-> | [-> | (a & -> & Ha)]];
    destruct (nonneg_or_nan_cases y Hy) as [-> | [-> | (b & -> & Hb)]];
    try reflexivity.
  cbn [fadd]. apply nonneg_or_nan_Fin. lra.
Qed.

Lemma exact_keeps_sign : keeps_sign exact_arith.
Proof.
  constructor; cbn [a_rolling a_div a_mul exact_arith].
  - intros wn xs i Hxs. apply nonneg_or_nan_Fin.
    pose proof (window_at_Forall _ wn i xs Hxs) as Hw.
    destruct (window_at wn i xs) as [|x l]; [unfold Qle; simpl; lia|].
    apply Qmean_nonneg; [discriminate | exact Hw].
  - apply fdiv_keeps_sign.
  - apply fmul_keeps_sign.
Qed.

(** Rounding to the nearest double keeps the sign. *)
Lemma round_to_double_nonneg (n d : Z) :
  0 <= n -> 0 < d -> nonneg (round_to_double false n d) = true.
Proof.
  intros Hn Hd. unfold round_to_double.
  set (ex := Z.max (leading_bit n d - 52) (-1074)).
  set (num := if 0 <=? ex then n else n * 2 ^ (- ex)).
  set (den := if 0 <=? ex then d * 2 ^ ex else d).
  assert (Hnum : 0 <= num).
  { unfold num. destruct (0 <=? ex); [exact Hn|].
    apply Z.mul_nonneg_nonneg; [exact Hn | apply Z.pow_nonneg; lia]. }
  assert (Hden : 0 < den).
  { unfold den. destruct (0 <=? ex) eqn:E; [|exact Hd].
    apply Z.leb_le in E. apply Z.mul_pos_pos; [exact Hd | apply Z.pow_pos_nonneg; lia]. }
  assert (Hm : 0 <= num / den) by (apply Z.div_pos; assumption).
  cbv zeta.
  set (m := if (den <? 2 * (num mod den)) || ((2 * (num mod den) =? den) && Z.odd (num / den))
            then num / den + 1 else num / den).
  assert (Hm' : 0 <= m) by (unfold m; destruct (_ || _); lia).
  destruct (0 <=? ex) eqn:E.
  - destruct (2 ^ 1024 <=? m * 2 ^ ex); [reflexivity|].
    apply nonneg_Fin. change 0%Q with (inject_Z 0). rewrite <- Zle_Qle.
    apply Z.mul_nonneg_nonneg; [exact Hm' | apply Z.pow_nonneg; lia].
  - apply nonneg_Fin. unfold Qle. cbn [Qnum Qden]. lia.
Qed.

Lemma to_double_keeps_sign (v : fval) :
  nonneg_or_nan v = true -> nonneg_or_nan (to_double v) = true.
Proof.
  intros Hv.
  destruct (nonneg_or_nan_cases v Hv) as [-> | [-> | (q & -> & Hq)]];
    try reflexivity.
  cbn [to_double]. unfold round64, nonneg_or_nan.
  destruct q as [n d]. cbn [Qnum Qden].
  destruct n as [|p|p].
  - reflexivity.
  - rewrite round_to_double_nonneg by lia. apply orb_true_r.
  - unfold Qle in Hq. cbn [Qnum Qden] in Hq. lia.
Qed.

Lemma div64_keeps_sign (x y : fval) :
  nonneg_or_nan x = true -> nonneg_or_nan y = true ->
  nonneg_or_nan (div64 x y) = true.
Proof.
  intros Hx Hy. unfold div64.
  apply to_double_keeps_sign, fdiv_keeps_sign; now apply to_double_keeps_sign.
Qed.

Lemma mul64_keeps_sign (x y : fval) :
  nonneg_or_nan x = true -> nonneg_or_nan y = true ->
  nonneg_or_nan (mul64 x y) = true.
Proof.
  intros Hx Hy. unfold mul64.
  apply to_double_keeps_sign, fmul_keeps_sign; now apply to_double_keeps_sign.
Qed.

Lemma add64_keeps_sign (x y : fval) :
  nonneg_or_nan x = true -> nonneg_or_nan y = true ->
  nonneg_or_nan (add64 x y) = true.
Proof.
  intros Hx Hy. unfold add64.
  apply to_double_keeps_sign, fadd_keeps_sign; now apply to_double_keeps_sign.
Qed.

Lemma sum64_keeps_sign (xs : list Q) (acc : fval) :
  List.Forall (fun x => (0 <= x)%Q) xs ->
  nonneg_or_nan acc = true ->
  nonneg_or_nan (List.fold_left add64 (List.map Fin xs) acc) = true.
Proof.
  intros Hxs. revert acc.
  induction Hxs as [|x xs Hx _ IH]; intros acc Hacc; [exact Hacc|].
  cbn [List.map List.fold_left]. apply IH.
  apply add64_keeps_sign; [exact Hacc | now apply nonneg_or_nan_Fin].
Qed.

Lemma binary64_keeps_sign : keeps_sign binary64_arith.
Proof.
  constructor; cbn [a_rolling a_div a_mul binary64_arith].
  - intros wn xs i Hxs. unfold mean64. apply div64_keeps_sign.
    + apply sum64_keeps_sign; [now apply window_at_Forall | reflexivity].
    + apply nonneg_or_nan_Fin. change 0%Q with (inject_Z 0).
      rewrite <- Zle_Qle. lia.
  - apply div64_keeps_sign.
  - apply mul64_keeps_sign.
Qed.


(** ** The 60% cap never exceeds the length *)



(** ** Constant price *)







(** On 250 flat bars the windows are 200 and 240 and eleven points come
    out. *)
Example flat_series_points :
  match ehr999_frame flat_series with
  | Ok out => List.length (bars out)
  | _ => 0%nat
  end = 11%nat.
Proof. vm_compute. reflexivity. Qed.

(** ** The Acquirer *)

(** The loop touches nothing but standard output, and what it computes
    does not depend on the world it runs in. *)
Lemma fetch_pages_frame (s : script) (start_time : Z) (all_data : list kline) (w : world) :
  fetch_pages s start_time all_data w =
  (fst (fetch_pages s start_time all_data boot),
   mk_world (heap w)
            (stdout w ++ stdout (snd (fetch_pages s start_time all_data boot)))
            (index_html w)).
Proof.
  revert start_time all_data w.
  induction s as [|serve s IH]; intros start_time all_data w.
  - destruct w. cbn. rewrite List.app_nil_r. reflexivity.
  - cbn [fetch_pages].
    destruct (serve start_time) as [data|].
    + destruct (List.rev data) as [|last_row rest].
      * destruct w. cbn. rewrite List.app_nil_r. reflexivity.
      * rewrite !bind_print.
        destruct (List.length data <? 1000)%nat.
        -- destruct w. cbn. reflexivity.
        -- rewrite IH. rewrite (IH _ _ (mk_world _ _ _)).
           cbn [fst snd heap stdout index_html boot].
           rewrite <- List.app_assoc. reflexivity.
    + destruct w. cbn. rewrite List.app_nil_r. reflexivity.
Qed.

(** The only exception the loop lets out is the one of the request. *)
Lemma fetch_pages_raises (s : script) (start_time : Z) (all_data : list kline)
      (w : world) (e : exn) (w' : world) :
  fetch_pages s start_time all_data w = (Raise e, w') -> e = RequestException.
Proof.
  revert start_time all_data w.
  induction s as [|serve s IH]; intros start_time all_data w; cbn [fetch_pages].
  - discriminate.
  - destruct (serve start_time) as [data|].
    + destruct (List.rev data) as [|last_row rest]; [discriminate|].
      rewrite bind_print.
      destruct (List.length data <? 1000)%nat; [discriminate|]. apply IH.
    + intros H. inversion H. reflexivity.
Qed.

(** What [fetch_eth_klines] returns, by the way its loop ended. *)
Lemma fetched_frame_by_cases (s : script) :
  fetched_frame s =
  match accumulated s with
  | Ok [] => Ok None
  | Ok (r :: rows) => Ok (Some (drop_duplicates (DataFrame (r :: rows))))
  | Raise _ => Ok None
  | Hang => Hang
  end.
Proof.
  unfold fetched_frame, fetch_eth_klines.
  rewrite bind_print. unfold try_except, bind at 1.
  rewrite fetch_pages_frame. fold (accumulated s).
  destruct (accumulated s) as [[|r rows]|e|]; reflexivity.
Qed.

(** ** Deduplication *)

Lemma select_map {A B : Type} (g : A -> B) (mask : list bool) (xs : list A) :
  List.map g (select mask xs) = select mask (List.map g xs).
Proof.
  revert xs. induction mask as [|m mask IH]; intros [|x xs]; try reflexivity.
  simpl. destruct m; simpl; now rewrite IH.
Qed.

(** The keys [drop_duplicates] keeps, starting from the keys already seen. *)
Lemma kept_keys_fresh (seen : gset Z) (keys : list Z) (k : Z) :
  List.In k (select (List.map negb (duplicated_from seen keys)) keys) ->
  (k ∉ seen) /\ List.In k keys.
Proof.
  revert seen. induction keys as [|k0 keys IH]; intros seen; simpl;
    [intros []|].
  destruct (decide (k0 ∈ seen)) as [Hin | Hnin]; simpl.
  - intros H. apply IH in H. destruct H as [H1 H2]. split; [exact H1 | now right].
  - intros [<- | H]; [split; [exact Hnin | now left]|].
    apply IH in H. destruct H as [H1 H2].
    split; [|now right].
    intros Hk. apply H1, elem_of_union. now right.
Qed.

Lemma kept_keys_NoDup (seen : gset Z) (keys : list Z) :
  List.NoDup (select (List.map negb (duplicated_from seen keys)) keys).
Proof.
  revert seen. induction keys as [|k0 keys IH]; intros seen; simpl;
    [constructor|].
  destruct (decide (k0 ∈ seen)) as [Hin | Hnin]; simpl; [apply IH|].
  constructor; [|apply IH].
  intros H. apply kept_keys_fresh in H. destruct H as [H _].
  apply H, elem_of_union. left. now apply elem_of_singleton.
Qed.

Lemma kept_keys_increasing (seen : gset Z) (keys : list Z) :
  StronglySorted Z.le keys ->
  StronglySorted Z.lt (select (List.map negb (duplicated_from seen keys)) keys).
Proof.
  intros Hs. revert seen.
  induction Hs as [|k0 keys Hs IH Hall]; intros seen; simpl; [constructor|].
  destruct (decide (k0 ∈ seen)) as [Hin | Hnin]; simpl; [apply IH|].
  constructor; [apply IH|].
  apply List.Forall_forall. intros k Hk.
  apply kept_keys_fresh in Hk. destruct Hk as [Hk1 Hk2].
  rewrite List.Forall_forall in Hall. specialize (Hall k Hk2).
  assert (k <> k0).
  { intros ->. apply Hk1, elem_of_union. left. now apply elem_of_singleton. }
  lia.
Qed.

(** Of the rows that share a timestamp, the first one is kept and no other. *)
Lemma kept_rows_at (seen : gset Z) (rows : list kline) (t : Z) :
  rows_at t (select (List.map negb (duplicated_from seen (List.map open_time rows))) rows)
  = if decide (t ∈ seen) then []
    else match first_at t rows with
         | Some r => [r]
         | None => []
         end.
Proof.
  revert seen. unfold rows_at, first_at.
  induction rows as [|r rows IH]; intros seen; simpl.
  - destruct (decide (t ∈ seen)); reflexivity.
  - destruct (decide (open_time r ∈ seen)) as [Hin | Hnin]; simpl.
    + rewrite IH. destruct (decide (t ∈ seen)) as [Ht | Ht]; [reflexivity|].
      destruct (open_time r =? t) eqn:E; [|reflexivity].
      apply Z.eqb_eq in E. congruence.
    + rewrite IH. destruct (open_time r =? t) eqn:E.
      * apply Z.eqb_eq in E. subst t.
        destruct (decide (open_time r ∈ {[open_time r]} ∪ seen)) as [_ | Hn].
        -- destruct (decide (open_time r ∈ seen)); [contradiction | reflexivity].
        -- exfalso. apply Hn, elem_of_union. left. now apply elem_of_singleton.
      * apply Z.eqb_neq in E.
        destruct (decide (t ∈ {[open_time r]} ∪ seen)) as [H1 | H1];
          destruct (decide (t ∈ seen)) as [H2 | H2];
          try reflexivity; exfalso.
        -- apply elem_of_union in H1. destruct H1 as [H1 | H1]; [|contradiction].
           apply elem_of_singleton in H1. congruence.
        -- apply H1, elem_of_union. now right.
Qed.

Lemma drop_duplicates_bars (rows : list kline) :
  bars (drop_duplicates (DataFrame rows)) =
  select (List.map negb (duplicated (List.map open_time rows))) rows.
Proof. reflexivity. Qed.

Lemma drop_duplicates_open_times (rows : list kline) :
  open_times (drop_duplicates (DataFrame rows)) =
  select (List.map negb (duplicated (List.map open_time rows)))
         (List.map open_time rows).
Proof. unfold open_times. rewrite drop_duplicates_bars. apply select_map. Qed.

(** ** Order of arrival *)

Lemma kept_keys_snoc (seen : gset Z) (keys : list Z) (k : Z) :
  select (List.map negb (duplicated_from seen (keys ++ [k]))) (keys ++ [k]) =
  select (List.map negb (duplicated_from seen keys)) keys
  ++ (if decide (k ∈ seen \/ k ∈ keys) then [] else [k]).
Proof.
  revert seen. induction keys as [|k0 keys IH]; intros seen; simpl.
  - destruct (decide (k ∈ seen)) as [Hin | Hnin];
      destruct (decide (k ∈ seen \/ k ∈ [])) as [H | H];
      try reflexivity; exfalso; [tauto|].
    destruct H as [H | H]; [tauto | now apply not_elem_of_nil in H].
  - destruct (decide (k0 ∈ seen)) as [Hin | Hnin]; simpl; rewrite IH.
    + destruct (decide (k ∈ seen \/ k ∈ keys)) as [H | H];
        destruct (decide (k ∈ seen \/ k ∈ k0 :: keys)) as [H' | H'];
        try reflexivity; exfalso.
      * apply H'. rewrite elem_of_cons. tauto.
      * apply H. rewrite elem_of_cons in H'.
        destruct H' as [H' | [-> | H']]; tauto.
    + destruct (decide (k ∈ {[k0]} ∪ seen \/ k ∈ keys)) as [H | H];
        destruct (decide (k ∈ seen \/ k ∈ k0 :: keys)) as [H' | H'];
        try reflexivity; exfalso.
      * apply H'. rewrite elem_of_cons. destruct H as [H | H]; [|tauto].
        apply elem_of_union in H. destruct H as [H | H]; [|tauto].
        apply elem_of_singleton in H. tauto.
      * apply H. rewrite elem_of_cons in H'.
        destruct H' as [H' | [-> | H']]; [| |tauto].
        -- left. apply elem_of_union. now right.
        -- left. apply elem_of_union. left. now apply elem_of_singleton.
Qed.

Lemma kept_keys_complete (seen : gset Z) (keys : list Z) (k : Z) :
  List.In k keys ->
  k ∈ seen \/ List.In k (select (List.map negb (duplicated_from seen keys)) keys).
Proof.
  revert seen. induction keys as [|k0 keys IH]; intros seen; simpl; [tauto|].
  intros [-> | Hin].
  - destruct (decide (k ∈ seen)); simpl; tauto.
  - destruct (decide (k0 ∈ seen)) as [H0 | H0]; simpl.
    + apply IH. exact Hin.
    + destruct (IH ({[k0]} ∪ seen) Hin) as [H | H]; [|tauto].
      apply elem_of_union in H. destruct H as [H | H]; [|tauto].
      apply elem_of_singleton in H. subst. tauto.
Qed.

Lemma arrives_in_order_snoc (keys : list Z) (k : Z) :
  arrives_in_order (keys ++ [k]) <->
  arrives_in_order keys /\ (List.In k keys \/ List.Forall (fun x => x < k) keys).
Proof.
  unfold arrives_in_order. split.
  - intros H. split.
    + intros before x after ->. apply (H before x (after ++ [k])).
      rewrite <- List.app_assoc. reflexivity.
    + apply (H keys k []). reflexivity.
  - intros [H Hk] before x after. 
    induction after as [|y after' _] using List.rev_ind; intros Heq.
    + apply List.app_inj_tail in Heq. destruct Heq as [-> ->]. exact Hk.
    + change (x :: after' ++ [y]) with ((x :: after') ++ [y]) in Heq.
      rewrite List.app_assoc in Heq.
      apply List.app_inj_tail in Heq. destruct Heq as [-> ->].
      apply (H before x after'). reflexivity.
Qed.

(** The kept timestamps are strictly increasing exactly when the
    timestamps arrived in order. *)
Lemma kept_keys_increasing_iff (keys : list Z) :
  StronglySorted Z.lt (select (List.map negb (duplicated keys)) keys) <->
  arrives_in_order keys.
Proof.
  unfold duplicated.
  induction keys as [|k keys IH] using List.rev_ind.
  - split; [|constructor]. intros _ before k after H.
    destruct before; discriminate.
  - rewrite kept_keys_snoc, arrives_in_order_snoc, <- IH.
    destruct (decide (k ∈ (∅ : gset Z) \/ k ∈ keys)) as [[H | H] | H].
    + now apply not_elem_of_empty in H.
    + rewrite List.app_nil_r. apply list_elem_of_In in H. tauto.
    + rewrite <- list_elem_of_In.
      assert (Hall : List.Forall (fun x => x < k)
                       (select (List.map negb (duplicated_from ∅ keys)) keys)
                     <-> List.Forall (fun x => x < k) keys).
      { rewrite !List.Forall_forall. split; intros Hf x Hx.
        - destruct (kept_keys_complete ∅ keys x Hx) as [Hx' | Hx'];
            [now apply not_elem_of_empty in Hx' | auto].
        - apply kept_keys_fresh in Hx. apply Hf. tauto. }
      split.
      * intros Hs. pose proof Hs as Hs'.
        apply StronglySorted_app_1_l in Hs.
        split; [exact Hs|]. right. apply Hall.
        apply List.Forall_forall. intros x Hx.
        apply (StronglySorted_app_1_elem_of _ _ _ x k Hs');
          [now apply list_elem_of_In | apply list_elem_of_here].
      * intros [Hs [Hin | Hlt]]; [tauto|].
        apply StronglySorted_app_2.
        -- intros x y Hx Hy. apply list_elem_of_singleton in Hy. subst y.
           apply Hall in Hlt. rewrite List.Forall_forall in Hlt.
           apply Hlt. now apply list_elem_of_In.
        -- exact Hs.
        -- constructor; constructor.
Qed.

(** When the call returns a frame, the loop ended with some rows and the
    frame is their deduplication. *)
Lemma fetched_frame_Some (s : script) (f : frame) :
  fetched_frame s = Ok (Some f) ->
  exists all_data,
    accumulated s = Ok all_data /\ f = drop_duplicates (DataFrame all_data).
Proof.
  rewrite fetched_frame_by_cases.
  destruct (accumulated s) as [[|r rows]|e|]; try discriminate.
  intros H. inversion H. eauto.
Qed.

(** C5, as the code has it.  Whatever the pages, the Series the Acquirer
    returns has no duplicate timestamp and lists the bars in arrival order
    (a sub-sequence of the accumulated rows: nothing is sorted).  It is
    strictly increasing in [open_time] exactly when the timestamps arrived
    in order, that is when every timestamp not seen before is larger than
    all the earlier ones: overlapping pages keep the order, a new bar that
    arrives after a later one breaks it. *)
Theorem fetched_series_unique_times (s : script) (f : frame) :
  fetched_frame s = Ok (Some f) ->
  exists all_data,
    accumulated s = Ok all_data /\
    List.NoDup (open_times f) /\
    sublist (bars f) all_data /\
    (StronglySorted Z.lt (open_times f) <->
     arrives_in_order (List.map open_time all_data)).
Proof.
  intros H. destruct (fetched_frame_Some s f H) as (all_data & Hacc & ->).
  exists all_data. split; [exact Hacc|].
  rewrite drop_duplicates_open_times, drop_duplicates_bars.
  split; [apply kept_keys_NoDup|].
  split; [apply select_sublist|].
  apply kept_keys_increasing_iff.
Qed.

(** In particular pages that arrive in non-decreasing time order, with or
    without repeated timestamps, give a strictly increasing Series. *)
Lemma fetched_series_increasing (s : script) (f : frame) (all_data : list kline) :
  fetched_frame s = Ok (Some f) ->
  accumulated s = Ok all_data ->
  Sorted Z.le (List.map open_time all_data) ->
  StronglySorted Z.lt (open_times f).
Proof.
  intros H Hacc Hs.
  destruct (fetched_frame_Some s f H) as (all_data' & Hacc' & ->).
  rewrite Hacc in Hacc'. inversion Hacc'. subst all_data'.
  rewrite drop_duplicates_open_times. apply kept_keys_increasing.
  apply Sorted_StronglySorted; [|exact Hs].
  intros x y z. apply Z.le_trans.
Qed.

(** C6. Deduplication keeps the first occurrence: in the Series the
    Acquirer returns, every timestamp of the accumulated pages appears
    exactly once, carried by the first accumulated row that has it. *)
Theorem fetched_series_keeps_first (s : script) (f : frame) :
  fetched_frame s = Ok (Some f) ->
  exists all_data,
    accumulated s = Ok all_data /\
    forall t, List.In t (List.map open_time all_data) ->
      exists r, first_at t all_data = Some r /\ rows_at t (bars f) = [r].
Proof.
  intros H. destruct (fetched_frame_Some s f H) as (all_data & Hacc & ->).
  exists all_data. split; [exact Hacc|].
  intros t Ht. rewrite drop_duplicates_bars. unfold duplicated.
  rewrite kept_rows_at.
  destruct (decide (t ∈ (∅ : gset Z))) as [Hin | _];
    [now apply not_elem_of_empty in Hin|].
  unfold first_at.
  destruct (List.find (fun r => open_time r =? t) all_data) as [r|] eqn:E.
  - eauto.
  - exfalso. apply List.in_map_iff in Ht. destruct Ht as (r & Hr & Hin).
    pose proof (List.find_none _ _ E r Hin) as Hnone. cbv beta in Hnone.
    apply Z.eqb_neq in Hnone. congruence.
Qed.

Lemma overlapping_source_fetched :
  fetched_frame overlapping_source = Ok (Some overlapping_series).
Proof. vm_compute. reflexivity. Qed.

Lemma fetched_series_unique_times_witness :
  exists all_data,
    accumulated overlapping_source = Ok all_data /\
    List.NoDup (open_times overlapping_series) /\
    sublist (bars overlapping_series) all_data /\
    (StronglySorted Z.lt (open_times overlapping_series) <->
     arrives_in_order (List.map open_time all_data)).
Proof.
  apply (fetched_series_unique_times overlapping_source overlapping_series).
  vm_compute. reflexivity.
Defined.

(** C5, as stated, fails on [out_of_order_source]: the page lists time 2
    before time 1 and the returned Series keeps that order. *)
Lemma out_of_order_pages_stay_out_of_order :
  exists f,
    fetched_frame out_of_order_source = Ok (Some f) /\
    open_times f = [2; 1] /\
    ~ StronglySorted Z.lt (open_times f).
Proof.
  eexists. split; [vm_compute; reflexivity|].
  split; [reflexivity|].
  intros H. change (StronglySorted Z.lt [2; 1]) in H.
  apply StronglySorted_inv in H. destruct H as [_ H].
  apply Forall_inv in H. lia.
Qed.

Lemma fetched_series_keeps_first_witness :
  exists all_data,
    accumulated overlapping_source = Ok all_data /\
    forall t, List.In t (List.map open_time all_data) ->
      exists r, first_at t all_data = Some r /\
                rows_at t (bars overlapping_series) = [r].
Proof.
  apply (fetched_series_keeps_first overlapping_source overlapping_series).
  vm_compute. reflexivity.
Defined.

(** The two pages of [overlapping_source] share the timestamp 1000; the
    Series has it once, with the close of the first page. *)
Example overlapping_pages_keep_first_row :
  List.length (flat_bars 1 1000 1 ++ [bar 1000 2; bar 1001 2]) = 1002%nat /\
  List.length (bars overlapping_series) = 1001%nat /\
  rows_at 1000 (bars overlapping_series) = [bar 1000 1] /\
  rows_at 1001 (bars overlapping_series) = [bar 1001 2].
Proof. vm_compute. repeat split; reflexivity. Qed.

(** ** Failure of a request *)

Lemma fetch_pages_failure (pre : script) (serve : Z -> response) (rest : script)
      (start_time : Z) (all_data : list kline) (w : world) :
  List.Forall full_page pre ->
  (forall t, serve t = Failure) ->
  fst (fetch_pages (pre ++ serve :: rest) start_time all_data w)
  = Raise RequestException.
Proof.
  intros Hpre Hfail. revert start_time all_data w.
  induction Hpre as [|h pre Hh _ IH]; intros start_time all_data w.
  - cbn [List.app fetch_pages]. rewrite Hfail. reflexivity.
  - cbn [List.app fetch_pages].
    destruct (Hh start_time) as (data & -> & Hlen).
    destruct (List.rev data) as [|last_row others] eqn:Erev.
    + apply (f_equal (@List.length kline)) in Erev.
      rewrite List.length_rev in Erev. simpl in Erev. lia.
    + rewrite bind_print.
      destruct (List.length data <? 1000)%nat eqn:E;
        [apply Nat.ltb_lt in E; lia | apply IH].
Qed.

(** When the loop raises, [fetch_eth_klines] builds no frame, logs the
    failure and returns [None]. *)
Lemma fetch_eth_klines_failure (s : script) (symbol interval : string)
      (e : exn) (w : world) :
  accumulated s = Raise e ->
  fetch_eth_klines s symbol interval w =
  (Ok None,
   mk_world (heap w)
            (stdout w ++ LFetching symbol interval
                      :: stdout (snd (fetch_pages s inception_ms [] boot))
                      ++ [LFetchFailed e])
            (index_html w)).
Proof.
  intros Hacc. unfold fetch_eth_klines.
  rewrite bind_print. unfold try_except, bind at 1.
  rewrite fetch_pages_frame. fold (accumulated s). rewrite Hacc.
  rewrite bind_print. cbn [ret heap stdout index_html].
  rewrite <- !List.app_assoc. reflexivity.
Qed.

(** C7. If a page request raises, after any number of full pages, the
    Acquirer returns [None] and leaves no frame behind (the rows fetched so
    far are dropped), and the program logs the failure and ends normally
    with no report written. *)
Theorem failed_request_gives_no_report (pre : script) (serve : Z -> response)
        (rest : script) :
  List.Forall full_page pre ->
  (forall t, serve t = Failure) ->
  fetched_frame (pre ++ serve :: rest) = Ok None /\
  (forall symbol interval w, exists log,
     fetch_eth_klines (pre ++ serve :: rest) symbol interval w =
     (Ok None,
      mk_world (heap w) (stdout w ++ log ++ [LFetchFailed RequestException])
               (index_html w))) /\
  exists log,
    main (pre ++ serve :: rest) boot =
    (Ok tt, mk_world ∅ (log ++ [LFetchFailed RequestException; LWaitRetry]) None).
Proof.
  intros Hpre Hfail.
  assert (Hacc : accumulated (pre ++ serve :: rest) = Raise RequestException)
    by (apply fetch_pages_failure; assumption).
  split; [rewrite fetched_frame_by_cases, Hacc; reflexivity|].
  split.
  - intros symbol interval w.
    exists (LFetching symbol interval
            :: stdout (snd (fetch_pages (pre ++ serve :: rest) inception_ms [] boot))).
    rewrite (fetch_eth_klines_failure _ _ _ _ _ Hacc). reflexivity.
  - exists (LRule :: LStart :: LRule :: LFetching SYMBOL "1d"
            :: stdout (snd (fetch_pages (pre ++ serve :: rest) inception_ms [] boot))).
    unfold main. rewrite !bind_print.
    unfold bind at 1. rewrite (fetch_eth_klines_failure _ _ _ _ _ Hacc).
    unfold print. cbn [boot heap stdout index_html List.app].
    rewrite <- List.app_assoc. reflexivity.
Qed.

Lemma failed_request_gives_no_report_witness :
  fetched_frame failing_source = Ok None /\
  (forall symbol interval w, exists log,
     fetch_eth_klines failing_source symbol interval w =
     (Ok None,
      mk_world (heap w) (stdout w ++ log ++ [LFetchFailed RequestException])
               (index_html w))) /\
  exists log,
    main failing_source boot =
    (Ok tt, mk_world ∅ (log ++ [LFetchFailed RequestException; LWaitRetry]) None).
Proof.
  apply (failed_request_gives_no_report
           [fun _ => Page (flat_bars 1 1000 1)] (fun _ => Failure) []).
  - constructor; [|constructor].
    intros start_time. exists (flat_bars 1 1000 1).
    split; [reflexivity|]. apply Nat.leb_le. vm_compute. reflexivity.
  - reflexivity.
Defined.

(** ** The report *)

(** Whenever a report is written, its header is the one of the band the
    chain selects for the latest value, and its row classes are the
    interval tests of the strategy table on the same value. *)
Lemma report_header_and_rows (df : nat) (symbol : string) (w w' : world) (path : string) :
  generate_html_chart (Some df) symbol w = (Ok (Some path), w') ->
  exists doc,
    index_html w' = Some doc /\
    r_market_status doc = market_status (classify (r_latest_ehr999 doc)) /\
    r_invest_multiplier doc = invest_multiplier (classify (r_latest_ehr999 doc)) /\
    r_status_color doc = status_color (classify (r_latest_ehr999 doc)) /\
    r_row_classes doc =
      List.map (fun row => row_class row (r_latest_ehr999 doc)) bands.
Proof.
  unfold generate_html_chart. rewrite bind_print.
  unfold bind, load, getcol, strftime, iloc_last, ret, raise, print,
    write_index_html.
  cbn [heap stdout index_html].
  intros H.
  repeat match type of H with
         | context [match ?x with _ => _ end] =>
             destruct x eqn:?; try discriminate H
         end.
  inversion H. subst. cbn [index_html]. eexists. split; [reflexivity|].
  cbn. repeat split; reflexivity.
Qed.

(** ** End-to-end runs *)

(** A source with a single page of twelve rising bars: the report is
    written and carries one point per bar that has both averages. *)
Example twelve_bars_report :
  match main [fun _ => Page (bars rising_series)] boot with
  | (Ok tt, w) =>
      match index_html w with
      | Some doc => (r_count doc, List.length (r_ehr999_data doc), r_market_status doc)
      | None => (0%nat, 0%nat, ""%string)
      end
  | _ => (0%nat, 0%nat, ""%string)
  end = (10%nat, 10%nat, market_status GoldenPit).
Proof. vm_compute. reflexivity. Qed.

(** A source with a single page of five bars: the program stops on the
    [ValueError] of the Indicator Engine, before any report is written. *)
Example five_bars_crash :
  let r := main [fun _ => Page [bar 1 1; bar 2 2; bar 3 3; bar 4 4; bar 5 5]] boot in
  fst r = Raise ValueError /\ index_html (snd r) = None.
Proof. vm_compute. split; reflexivity. Qed.

(** A source with a single page of ten bars: the engine returns an empty
    frame and the program stops on the [IndexError] of [iloc[-1]]. *)
Example ten_bars_crash :
  let r := main [fun _ => Page (flat_bars 1 10 1)] boot in
  fst r = Raise IndexError /\ index_html (snd r) = None.
Proof. vm_compute. split; reflexivity. Qed.

(** * Further properties of the code *)

(** ** [fetch_eth_klines]: every way the call can end *)

(** The call, by the way its loop ended, in any world. *)
Lemma fetch_eth_klines_by_cases (s : script) (symbol interval : string) (w : world) :
  fetch_eth_klines s symbol interval w =
  let log := LFetching symbol interval
             :: stdout (snd (fetch_pages s inception_ms [] boot)) in
  match accumulated s with
  | Ok [] =>
      (Ok None, mk_world (heap w) (stdout w ++ log ++ [LNoData]) (index_html w))
  | Ok (r :: rows) =>
      let f := DataFrame (r :: rows) in
      let r1 := fresh (dom (heap w)) in
      let h1 := <[r1 := f]> (heap w) in
      let g := drop_duplicates f in
      (Ok (Some (fresh (dom h1))),
       mk_world (<[fresh (dom h1) := g]> h1)
                (stdout w ++ log ++
                 [LFetchOk (List.length (bars g));
                  LRange (col_min (open_times g)) (col_max (open_times g))])
                (index_html w))
  | Raise e =>
      (Ok None,
       mk_world (heap w) (stdout w ++ log ++ [LFetchFailed e]) (index_html w))
  | Hang => (Hang, mk_world (heap w) (stdout w ++ log) (index_html w))
  end.
Proof.
  unfold fetch_eth_klines.
  rewrite bind_print. unfold try_except, bind at 1.
  rewrite fetch_pages_frame. fold (accumulated s).
  cbn [heap stdout index_html].
  destruct (accumulated s) as [[|r rows]|e|]; cbv zeta.
  - rewrite bind_print. cbn [ret heap stdout index_html].
    rewrite <- !List.app_assoc. reflexivity.
  - repeat run_step. cbn [ret].
    rewrite <- !List.app_assoc. reflexivity.
  - rewrite bind_print. cbn [ret heap stdout index_html].
    rewrite <- !List.app_assoc. reflexivity.
  - rewrite <- !List.app_assoc. reflexivity.
Qed.

(** X1. [fetch_eth_klines] never lets an exception out (its handler catches
    them all); it never touches the report, leaves every frame that existed
    before the call as it was, and only appends to standard output. *)
Theorem fetch_eth_klines_never_raises (s : script) (symbol interval : string)
        (w : world) :
  (forall e, fst (fetch_eth_klines s symbol interval w) <> Raise e) /\
  index_html (snd (fetch_eth_klines s symbol interval w)) = index_html w /\
  (forall r g, heap w !! r = Some g ->
               heap (snd (fetch_eth_klines s symbol interval w)) !! r = Some g) /\
  exists log,
    stdout (snd (fetch_eth_klines s symbol interval w)) = stdout w ++ log.
Proof.
  rewrite fetch_eth_klines_by_cases. cbv zeta.
  destruct (accumulated s) as [[|r0 rows]|e0|]; cbn [fst snd heap stdout index_html];
    (split; [intros e; discriminate|]);
    (split; [reflexivity|]);
    (split; [|eexists; reflexivity]);
    intros r g Hr; try assumption.
  rewrite lookup_insert_ne.
  - rewrite lookup_insert_ne; [assumption|].
    eapply fresh_not_live; eassumption.
  - eapply fresh_not_live. rewrite lookup_insert_ne; [eassumption|].
    eapply fresh_not_live; eassumption.
Qed.

(** X2. When the very first page is empty the call prints the no-data
    line and returns [None]; the program then prints its retry line and
    ends normally, without a report and without having built a frame. *)
Theorem empty_first_page_is_no_data (serve : Z -> response) (rest : script) :
  serve inception_ms = Page [] ->
  fetched_frame (serve :: rest) = Ok None /\
  main (serve :: rest) boot =
  (Ok tt,
   mk_world ∅ [LRule; LStart; LRule; LFetching SYMBOL "1d"; LNoData; LWaitRetry]
            None).
Proof.
  intros Hempty.
  assert (Hrun : fetch_pages (serve :: rest) inception_ms [] boot = (Ok [], boot))
    by (cbn [fetch_pages]; rewrite Hempty; reflexivity).
  assert (Hacc : accumulated (serve :: rest) = Ok [])
    by (unfold accumulated; rewrite Hrun; reflexivity).
  split; [rewrite fetched_frame_by_cases, Hacc; reflexivity|].
  unfold main. rewrite !bind_print. unfold bind at 1.
  rewrite fetch_eth_klines_by_cases, Hacc, Hrun. reflexivity.
Qed.

Lemma empty_first_page_is_no_data_witness :
  fetched_frame [fun _ => Page []; two_bars_from] = Ok None /\
  main [fun _ => Page []; two_bars_from] boot =
  (Ok tt,
   mk_world ∅ [LRule; LStart; LRule; LFetching SYMBOL "1d"; LNoData; LWaitRetry]
            None).
Proof.
  apply (empty_first_page_is_no_data (fun _ => Page []) [two_bars_from]).
  reflexivity.
Defined.

(** ** [fetch_eth_klines]: when the loop stops *)

Lemma fetch_pages_replay (pages : list (list kline)) (last_page : list kline)
      (rest : script) (start_time : Z) (all_data : list kline) (w : world) :
  List.Forall (fun page => (1000 <= List.length page)%nat) pages ->
  (List.length last_page < 1000)%nat ->
  fst (fetch_pages (replay pages ++ (fun _ => Page last_page) :: rest)
                   start_time all_data w)
  = Ok (all_data ++ List.concat pages ++ last_page).
Proof.
  intros Hfull Hshort. revert start_time all_data w.
  induction Hfull as [|page pages Hpage _ IH]; intros start_time all_data w.
  - cbn [replay List.map List.app fetch_pages List.concat].
    destruct (List.rev last_page) as [|last_row others] eqn:Erev.
    + apply (f_equal (@List.rev kline)) in Erev.
      rewrite List.rev_involutive in Erev. subst last_page.
      rewrite List.app_nil_r. reflexivity.
    + rewrite bind_print.
      destruct (List.length last_page <? 1000)%nat eqn:E;
        [reflexivity | apply Nat.ltb_ge in E; lia].
  - cbn [replay List.map List.app fetch_pages List.concat].
    destruct (List.rev page) as [|last_row others] eqn:Erev.
    + apply (f_equal (@List.length kline)) in Erev.
      rewrite List.length_rev in Erev. simpl in Erev. lia.
    + rewrite bind_print.
      destruct (List.length page <? 1000)%nat eqn:E;
        [apply Nat.ltb_lt in E; lia|].
      fold (replay pages). rewrite IH.
      rewrite <- !List.app_assoc. reflexivity.
Qed.

(** X3. The loop goes on while pages are full and stops at the first page
    of fewer than 1000 rows, empty or not: the rows accumulated are the
    pages received so far in order, and what the source would have answered
    next is never asked for. *)
Theorem short_page_ends_the_loop (pages : list (list kline))
        (last_page : list kline) (rest : script) :
  List.Forall (fun page => (1000 <= List.length page)%nat) pages ->
  (List.length last_page < 1000)%nat ->
  accumulated (replay pages ++ (fun _ => Page last_page) :: rest)
  = Ok (List.concat pages ++ last_page).
Proof.
  intros Hfull Hshort. unfold accumulated.
  rewrite (fetch_pages_replay pages last_page rest) by assumption.
  reflexivity.
Qed.

Lemma short_page_ends_the_loop_witness :
  accumulated (replay [flat_bars 1 1000 1]
               ++ (fun _ => Page [bar 1001 1]) :: [fun _ => Failure])
  = Ok (List.concat [flat_bars 1 1000 1] ++ [bar 1001 1]).
Proof.
  apply (short_page_ends_the_loop [flat_bars 1 1000 1] [bar 1001 1]
                                  [fun _ => Failure]).
  - constructor; [|constructor]. apply Nat.leb_le. vm_compute. reflexivity.
  - simpl. lia.
Defined.

(** ** [fetch_eth_klines]: the cursor against an honest source *)

Lemma increasing_NoDup (keys : list Z) :
  StronglySorted Z.lt keys -> List.NoDup keys.
Proof.
  induction 1 as [|k keys _ IH Hall]; constructor; [|exact IH].
  intros Hin. rewrite List.Forall_forall in Hall.
  specialize (Hall k Hin). lia.
Qed.

(** Rows whose timestamps are all different, and not seen before, all
    survive deduplication. *)
Lemma distinct_rows_all_kept (seen : gset Z) (rows : list kline) :
  List.Forall (fun r => open_time r ∉ seen) rows ->
  List.NoDup (List.map open_time rows) ->
  select (List.map negb (duplicated_from seen (List.map open_time rows))) rows
  = rows.
Proof.
  revert seen. induction rows as [|r rows IH]; intros seen Hseen Hnd;
    [reflexivity|].
  apply List.Forall_cons_iff in Hseen. destruct Hseen as [Hr Hrows].
  apply List.NoDup_cons_iff in Hnd. destruct Hnd as [Hnotin Hnd].
  cbn [List.map duplicated_from].
  destruct (decide (open_time r ∈ seen)) as [Hin | _]; [contradiction|].
  cbn [List.map negb select]. f_equal. apply IH; [|exact Hnd].
  apply List.Forall_forall. intros x Hx Hin.
  apply elem_of_union in Hin. destruct Hin as [Hin | Hin].
  - apply elem_of_singleton in Hin. apply Hnotin.
    rewrite <- Hin. now apply List.in_map.
  - rewrite List.Forall_forall in Hrows. now apply (Hrows x Hx).
Qed.

(** In an increasing page no row is later than the last one. *)
Lemma last_row_is_latest (data : list kline) (last_row : kline) (others : list kline) :
  List.rev data = last_row :: others ->
  StronglySorted Z.lt (List.map open_time data) ->
  List.In last_row data /\
  List.Forall (fun r => open_time r <= open_time last_row) data.
Proof.
  intros Hrev Hs.
  assert (Hdata : data = List.rev others ++ [last_row]).
  { rewrite <- (List.rev_involutive data), Hrev. reflexivity. }
  subst data. split; [apply List.in_or_app; right; now left|].
  rewrite List.map_app in Hs. apply StronglySorted_app in Hs.
  destruct Hs as (Hlt & _ & _).
  apply List.Forall_app. split.
  - apply List.Forall_forall. intros r Hr.
    assert (open_time r < open_time last_row); [|lia].
    apply Hlt.
    + apply list_elem_of_In. now apply List.in_map.
    + cbn [List.map]. apply list_elem_of_here.
  - constructor; [lia | constructor].
Qed.

(** The invariant of the loop against honest handlers: the accumulated
    rows are strictly increasing and all before the cursor. *)
Lemma fetch_pages_honest (s : script) (floor start_time : Z) (all_data : list kline)
      (w : world) (result : list kline) :
  List.Forall honest s ->
  StronglySorted Z.lt (List.map open_time all_data) ->
  List.Forall (fun r => floor <= open_time r < start_time) all_data ->
  floor <= start_time ->
  fst (fetch_pages s start_time all_data w) = Ok result ->
  StronglySorted Z.lt (List.map open_time result) /\
  List.Forall (fun r => floor <= open_time r) result.
Proof.
  intros Hs. revert start_time all_data w.
  induction Hs as [|serve s Hserve _ IH];
    intros start_time all_data w Hsorted Hbefore Hfloor Hrun;
    cbn [fetch_pages] in Hrun; [discriminate|].
  destruct (serve start_time) as [data|] eqn:Eserve; [|discriminate].
  destruct (Hserve start_time data Eserve) as [Hfrom Hinc].
  assert (Hdone : all_data = result ->
                  StronglySorted Z.lt (List.map open_time result) /\
                  List.Forall (fun r => floor <= open_time r) result).
  { intros <-. split; [exact Hsorted|].
    eapply List.Forall_impl; [|exact Hbefore]. cbv beta. intros r Hr. lia. }
  destruct (List.rev data) as [|last_row others] eqn:Erev.
  { apply Hdone. cbn in Hrun. congruence. }
  destruct (last_row_is_latest data last_row others Erev Hinc) as [Hlast Hlatest].
  assert (Hlast_from : start_time <= open_time last_row).
  { rewrite List.Forall_forall in Hfrom. now apply Hfrom. }
  assert (Hsorted' : StronglySorted Z.lt (List.map open_time (all_data ++ data))).
  { rewrite List.map_app. apply StronglySorted_app_2; [|assumption|assumption].
    intros x y Hx Hy.
    apply list_elem_of_In, List.in_map_iff in Hx. destruct Hx as (rx & <- & Hrx).
    apply list_elem_of_In, List.in_map_iff in Hy. destruct Hy as (ry & <- & Hry).
    rewrite List.Forall_forall in Hbefore, Hfrom.
    specialize (Hbefore rx Hrx). specialize (Hfrom ry Hry). lia. }
  assert (Hbefore' : List.Forall
                       (fun r => floor <= open_time r < open_time last_row + 1)
                       (all_data ++ data)).
  { apply List.Forall_app. split.
    - eapply List.Forall_impl; [|exact Hbefore]. cbv beta. intros r Hr. lia.
    - apply List.Forall_forall. intros r Hr.
      rewrite List.Forall_forall in Hfrom, Hlatest.
      specialize (Hfrom r Hr). specialize (Hlatest r Hr). lia. }
  rewrite bind_print in Hrun.
  destruct (List.length data <? 1000)%nat.
  - cbn in Hrun. inversion Hrun. subst result. split; [exact Hsorted'|].
    eapply List.Forall_impl; [|exact Hbefore']. cbv beta. intros r Hr. lia.
  - eapply IH; [exact Hsorted' | exact Hbefore' | lia | exact Hrun].
Qed.

(** X4. Against a source that answers every request with rows at or after
    the [startTime] asked for, in strictly increasing time, advancing the
    cursor to the last timestamp plus one makes the pages disjoint: the
    accumulated rows are strictly increasing, none is older than the
    inception instant, deduplication removes nothing, and the Series
    returned is the concatenation of the pages. *)
Theorem honest_source_gives_increasing_series (s : script) (f : frame) :
  List.Forall honest s ->
  fetched_frame s = Ok (Some f) ->
  accumulated s = Ok (bars f) /\
  f = DataFrame (bars f) /\
  StronglySorted Z.lt (open_times f) /\
  List.Forall (fun r => inception_ms <= open_time r) (bars f).
Proof.
  intros Hs Hf.
  destruct (fetched_frame_Some s f Hf) as (all_data & Hacc & ->).
  destruct (fetch_pages_honest s inception_ms inception_ms [] boot all_data Hs)
    as [Hsorted Hfloor]; try solve [constructor | lia | exact Hacc].
  assert (Hsame : drop_duplicates (DataFrame all_data) = DataFrame all_data).
  { unfold drop_duplicates, select_frame, duplicated, open_times, DataFrame.
    cbn [bars MA200 MA_long EHR999 option_map].
    rewrite distinct_rows_all_kept; [reflexivity | |now apply increasing_NoDup].
    apply List.Forall_forall. intros r _. apply not_elem_of_empty. }
  rewrite Hsame. cbn [bars DataFrame]. unfold open_times. cbn [bars].
  repeat split; assumption.
Qed.

Lemma two_bars_from_honest : honest two_bars_from.
Proof.
  intros start_time data H. unfold two_bars_from in H.
  inversion H. subst data. split.
  - repeat constructor; cbn; lia.
  - repeat constructor; cbn; lia.
Qed.

Lemma honest_source_gives_increasing_series_witness :
  let f := DataFrame [bar inception_ms 1; bar (inception_ms + 1) 1] in
  accumulated [two_bars_from] = Ok (bars f) /\
  f = DataFrame (bars f) /\
  StronglySorted Z.lt (open_times f) /\
  List.Forall (fun r => inception_ms <= open_time r) (bars f).
Proof.
  apply (honest_source_gives_increasing_series
           [two_bars_from]
           (DataFrame [bar inception_ms 1; bar (inception_ms + 1) 1])).
  - constructor; [apply two_bars_from_honest | constructor].
  - vm_compute. reflexivity.
Defined.

(** ** [calculate_ehr999]: when it raises and what its output looks like *)

(** X5. Ten rows are the exact threshold of the Indicator Engine: it raises
    [ValueError] on every frame of fewer than ten rows and returns a frame
    on every other one; it has no third way to end. *)
Theorem engine_raises_exactly_below_ten (f : frame) :
  (ehr999_frame f = Raise ValueError <-> (List.length (bars f) < 10)%nat) /\
  ((exists out, ehr999_frame f = Ok out) <-> (10 <= List.length (bars f))%nat).
Proof.
  destruct (le_lt_dec 10 (List.length (bars f))) as [Hlen | Hlen].
  - rewrite (ehr999_frame_returns f Hlen). split; split.
    + discriminate.
    + lia.
    + intros _. exact Hlen.
    + intros _. eexists. reflexivity.
  - rewrite (ehr999_frame_raises f Hlen). split; split.
    + intros _. exact Hlen.
    + reflexivity.
    + intros [out H]. discriminate.
    + lia.
Qed.

Lemma select_map_same {A B : Type} (g : A -> bool) (h : A -> B) (l : list A) :
  select (List.map g l) (List.map h l) = List.map h (List.filter g l).
Proof.
  induction l as [|x l IH]; [reflexivity|].
  simpl. destruct (g x); simpl; now rewrite IH.
Qed.

Lemma notna_column_with_by_row (A : arith) (f : frame) :
  notna (ehr999_column_with A f) =
  List.map (fun i => negb (is_nan (oscillator_at_with A f i)))
           (List.seq 0 (List.length (bars f))).
Proof.
  unfold notna. rewrite ehr999_column_with_by_row, List.map_map. reflexivity.
Qed.

Lemma closes_length (f : frame) : List.length (closes f) = List.length (bars f).
Proof. unfold closes. apply List.length_map. Qed.

(** Where the oscillator is not NaN, neither average is. *)
Lemma oscillator_defined_averages (A : arith) (f : frame) (i : nat) :
  propagates_nan A ->
  is_nan (oscillator_at_with A f i) = false ->
  is_nan (ma200_at_with A f i) = false /\ is_nan (ma_long_at_with A f i) = false.
Proof.
  intros HA Hosc.
  destruct (is_nan (ma200_at_with A f i)) eqn:E1.
  { rewrite (oscillator_nan_average A f i HA) in Hosc by (left; exact E1).
    discriminate. }
  destruct (is_nan (ma_long_at_with A f i)) eqn:E2.
  { rewrite (oscillator_nan_average A f i HA) in Hosc by (right; exact E2).
    discriminate. }
  split; reflexivity.
Qed.

(** X6. Whatever the float arithmetic, in the frame the engine returns the
    four columns have the same length, no longer than the input, and on
    every row both moving averages and the oscillator value are defined
    (not NaN): rows without enough history are dropped, never
    null-filled. *)
Theorem engine_output_is_aligned_and_defined (A : arith) (f : frame) :
  propagates_nan A ->
  (10 <= List.length (bars f))%nat ->
  exists out ma200 ma_long values,
    ehr999_frame_with A f = Ok out /\
    MA200 out = Some ma200 /\ MA_long out = Some ma_long /\
    EHR999 out = Some values /\
    List.length ma200 = List.length (bars out) /\
    List.length ma_long = List.length (bars out) /\
    List.length values = List.length (bars out) /\
    (List.length (bars out) <= List.length (bars f))%nat /\
    List.Forall (fun v => is_nan v = false) ma200 /\
    List.Forall (fun v => is_nan v = false) ma_long /\
    List.Forall (fun v => is_nan v = false) values.
Proof.
  intros HA Hlen.
  set (keep := List.filter (fun i => negb (is_nan (oscillator_at_with A f i)))
                           (List.seq 0 (List.length (bars f)))).
  exists (select_frame (notna (ehr999_column_with A f)) (with_indicators_with A f)).
  exists (List.map (ma200_at_with A f) keep).
  exists (List.map (ma_long_at_with A f) keep).
  exists (List.map (oscillator_at_with A f) keep).
  assert (Hbars : bars (select_frame (notna (ehr999_column_with A f))
                                     (with_indicators_with A f))
                  = List.map (fun i => List.nth i (bars f) (bar 0 0)) keep).
  { cbn [select_frame with_indicators_with bars].
    rewrite notna_column_with_by_row.
    rewrite (map_nth_seq (bar 0 0) (bars f)) at 2.
    apply select_map_same. }
  split; [now apply ehr999_frame_with_returns|].
  split.
  { cbn [select_frame with_indicators_with MA200 option_map]. f_equal.
    rewrite notna_column_with_by_row. unfold rolling_values_with.
    rewrite closes_length. apply select_map_same. }
  split.
  { cbn [select_frame with_indicators_with MA_long option_map]. f_equal.
    rewrite notna_column_with_by_row. unfold rolling_values_with.
    rewrite closes_length. apply select_map_same. }
  split.
  { cbn [select_frame with_indicators_with EHR999 option_map]. f_equal.
    fold (ehr999_column_with A f).
    rewrite notna_column_with_by_row, ehr999_column_with_by_row.
    apply select_map_same. }
  rewrite Hbars, !List.length_map.
  split; [reflexivity|]. split; [reflexivity|]. split; [reflexivity|].
  split.
  { unfold keep.
    pose proof (List.filter_length_le
                  (fun i => negb (is_nan (oscillator_at_with A f i)))
                  (List.seq 0 (List.length (bars f)))) as Hle.
    rewrite List.length_seq in Hle. exact Hle. }
  assert (Hkeep : forall i, List.In i keep ->
                            is_nan (oscillator_at_with A f i) = false).
  { intros i Hi. unfold keep in Hi. apply List.filter_In in Hi.
    destruct Hi as [_ Hi]. now apply negb_true_iff in Hi. }
  repeat split; apply List.Forall_forall; intros v Hv;
    apply List.in_map_iff in Hv; destruct Hv as (i & <- & Hi);
    specialize (Hkeep i Hi);
    solve [ apply (oscillator_defined_averages A f i HA Hkeep) | exact Hkeep ].
Qed.

Lemma engine_output_is_aligned_and_defined_witness :
  exists out ma200 ma_long values,
    ehr999_frame_with binary64_arith rising_series = Ok out /\
    MA200 out = Some ma200 /\ MA_long out = Some ma_long /\
    EHR999 out = Some values /\
    List.length ma200 = List.length (bars out) /\
    List.length ma_long = List.length (bars out) /\
    List.length values = List.length (bars out) /\
    (List.length (bars out) <= List.length (bars rising_series))%nat /\
    List.Forall (fun v => is_nan v = false) ma200 /\
    List.Forall (fun v => is_nan v = false) ma_long /\
    List.Forall (fun v => is_nan v = false) values.
Proof.
  apply (engine_output_is_aligned_and_defined binary64_arith rising_series).
  - exact binary64_propagates_nan.
  - simpl. lia.
Defined.

(** ** [calculate_ehr999]: sign of the values and first point *)

(** Over non-negative prices the oscillator is NaN, zero, positive or plus
    infinity. *)
Lemma oscillator_keeps_sign (A : arith) (f : frame) (i : nat) :
  keeps_sign A ->
  List.Forall (fun c => (0 <= c)%Q) (closes f) ->
  nonneg_or_nan (oscillator_at_with A f i) = true.
Proof.
  intros [Hmean Hdiv Hmul] Hpos.
  assert (Hc : nonneg_or_nan (Fin (List.nth i (closes f) 0%Q)) = true).
  { apply nonneg_or_nan_Fin.
    destruct (le_lt_dec (List.length (closes f)) i) as [Hi | Hi].
    - rewrite List.nth_overflow by exact Hi. unfold Qle; simpl; lia.
    - now apply (nth_Forall (fun c => (0 <= c)%Q)). }
  assert (Hroll : forall w, nonneg_or_nan (rolling_at_with A w (closes f) i) = true).
  { intros w. unfold rolling_at_with.
    destruct (_ && _); [|reflexivity].
    now apply Hmean. }
  unfold oscillator_at_with, ma200_at_with, ma_long_at_with. cbv zeta.
  apply Hmul; apply Hdiv; auto.
Qed.

(** X7. The engine and the classifier fit together whatever the float
    arithmetic: on a series without negative closes every value the engine
    returns is zero, positive or plus infinity; a finite one lies in the
    interval of the band the classifier gives it, and plus infinity is
    given the top band. *)
Theorem nonnegative_series_values_have_a_band (A : arith) (f : frame) :
  keeps_sign A ->
  (10 <= List.length (bars f))%nat ->
  List.Forall (fun c => (0 <= c)%Q) (closes f) ->
  exists out values,
    ehr999_frame_with A f = Ok out /\
    EHR999 out = Some values /\
    List.Forall (fun v => nonneg v = true /\
                          match v with
                          | Fin q => in_MarketBand (classify v) q
                          | _ => classify v = ManicTop
                          end) values.
Proof.
  intros HA Hlen Hpos.
  exists (select_frame (notna (ehr999_column_with A f)) (with_indicators_with A f)).
  exists (select (notna (ehr999_column_with A f)) (ehr999_column_with A f)).
  split; [now apply ehr999_frame_with_returns|].
  split; [reflexivity|].
  rewrite select_notna_filter, ehr999_column_with_by_row.
  apply Forall_filter_map_seq. intros i Hi Hnan.
  apply negb_true_iff in Hnan.
  pose proof (oscillator_keeps_sign A f i HA Hpos) as Hsign.
  destruct (nonneg_or_nan_cases _ Hsign) as [E | [E | (q & E & Hq)]];
    rewrite E in Hnan |- *.
  - discriminate.
  - split; reflexivity.
  - split; [now apply nonneg_Fin | now apply classify_in_interval].
Qed.

Lemma nonnegative_series_values_have_a_band_witness :
  exists out values,
    ehr999_frame_with binary64_arith underflow_series = Ok out /\
    EHR999 out = Some values /\
    List.Forall (fun v => nonneg v = true /\
                          match v with
                          | Fin q => in_MarketBand (classify v) q
                          | _ => classify v = ManicTop
                          end) values.
Proof.
  apply (nonnegative_series_values_have_a_band binary64_arith underflow_series).
  - exact binary64_keeps_sign.
  - simpl. lia.
  - repeat constructor; unfold Qle; simpl; lia.
Defined.

(** Rows whose flags are all unset up to position [k] are selected from
    the rows after it. *)
Lemma select_after {A : Type} (g : nat -> bool) (k : nat) (xs : list A) (a : nat) :
  (forall i, (i < k)%nat -> g i = false) ->
  sublist (select (List.map g (List.seq a (List.length xs))) xs)
          (List.skipn (k - a) xs).
Proof.
  intros Hg. revert a. induction xs as [|x xs IH]; intros a.
  - simpl. rewrite List.skipn_nil. constructor.
  - cbn [List.length List.seq List.map select].
    destruct (le_lt_dec k a) as [Hka | Hka].
    + replace (k - a)%nat with 0%nat by lia. cbn [List.skipn].
      change (sublist (select (List.map g (List.seq a (List.length (x :: xs))))
                              (x :: xs)) (x :: xs)).
      apply select_sublist.
    + rewrite (Hg a Hka).
      replace (k - a)%nat with (S (k - S a)) by lia. cbn [List.skipn].
      apply IH.
Qed.

(** Before the longer of the two windows is full, one average is NaN. *)
Lemma oscillator_undefined_before_first_point (A : arith) (f : frame) (i : nat) :
  propagates_nan A ->
  (i < first_point_index (Z.of_nat (List.length (bars f))))%nat ->
  oscillator_at_with A f i = NaN.
Proof.
  intros HA Hi. unfold first_point_index in Hi.
  set (n := Z.of_nat (List.length (bars f))) in *.
  assert (Hcase : (S i < Z.to_nat (ma_window_of n))%nat \/
                  (S i < Z.to_nat (long_window_of n))%nat) by lia.
  apply (oscillator_nan_average A f i HA).
  unfold ma200_at_with, ma_long_at_with, rolling_at_with. fold n.
  destruct Hcase as [Hc | Hc]; [left | right].
  - destruct (Z.to_nat (ma_window_of n) <=? S i)%nat eqn:E;
      [apply Nat.leb_le in E; lia|].
    rewrite andb_false_r. reflexivity.
  - destruct (Z.to_nat (long_window_of n) <=? S i)%nat eqn:E;
      [apply Nat.leb_le in E; lia|].
    rewrite andb_false_r. reflexivity.
Qed.

(** X8. Whatever the float arithmetic and whatever the prices, the engine
    returns no row before index max(ma_window, long_window) - 1: the rows
    it returns are taken, in order, from the rows from that index on. *)
Theorem no_point_before_both_windows (A : arith) (f : frame) :
  propagates_nan A ->
  (10 <= List.length (bars f))%nat ->
  let first := first_point_index (Z.of_nat (List.length (bars f))) in
  exists out values,
    ehr999_frame_with A f = Ok out /\
    EHR999 out = Some values /\
    sublist (bars out) (List.skipn first (bars f)) /\
    (List.length (bars out) <= List.length (bars f) - first)%nat /\
    (forall i, (i < first)%nat -> oscillator_at_with A f i = NaN).
Proof.
  intros HA Hlen first.
  exists (select_frame (notna (ehr999_column_with A f)) (with_indicators_with A f)).
  exists (select (notna (ehr999_column_with A f)) (ehr999_column_with A f)).
  split; [now apply ehr999_frame_with_returns|].
  split; [reflexivity|].
  assert (Hsub : sublist (select (notna (ehr999_column_with A f)) (bars f))
                         (List.skipn first (bars f))).
  { rewrite notna_column_with_by_row.
    rewrite <- (Nat.sub_0_r first) at 1.
    apply (select_after (fun i => negb (is_nan (oscillator_at_with A f i)))).
    intros i Hi. fold first in Hi.
    now rewrite (oscillator_undefined_before_first_point A f i HA Hi). }
  cbn [select_frame with_indicators_with bars].
  split; [exact Hsub|]. split.
  - apply sublist_length in Hsub. rewrite List.length_skipn in Hsub. exact Hsub.
  - intros i Hi. now apply oscillator_undefined_before_first_point.
Qed.

Lemma no_point_before_both_windows_witness :
  let first := first_point_index (Z.of_nat (List.length (bars rising_series))) in
  exists out values,
    ehr999_frame_with binary64_arith rising_series = Ok out /\
    EHR999 out = Some values /\
    sublist (bars out) (List.skipn first (bars rising_series)) /\
    (List.length (bars out) <= List.length (bars rising_series) - first)%nat /\
    (forall i, (i < first)%nat ->
               oscillator_at_with binary64_arith rising_series i = NaN).
Proof.
  apply (no_point_before_both_windows binary64_arith rising_series).
  - exact binary64_propagates_nan.
  - simpl. lia.
Defined.

(** With 1000 bars the windows are 200 and 600 and the first point is the
    bar of index 599. *)
Example first_point_of_1000_bars : first_point_index 1000 = 599%nat.
Proof. reflexivity. Qed.

(** ** [generate_html_chart]: nothing to render, missing column *)

(** X10. Given no frame, or a frame without rows, [generate_html_chart]
    prints its error line and returns [None]; the report file is left as it
    was. *)
Theorem nothing_to_render (df : option nat) (symbol : string) (w : world) :
  match df with
  | None => True
  | Some r => exists f, heap w !! r = Some f /\ bars f = []
  end ->
  generate_html_chart df symbol w =
  (Ok None,
   mk_world (heap w) (stdout w ++ [LRendering; LEmptyData]) (index_html w)).
Proof.
  intros H. unfold generate_html_chart. rewrite bind_print.
  destruct df as [r|].
  - destruct H as (f & Hf & Hbars).
    erewrite bind_load by (cbn [heap]; exact Hf).
    rewrite Hbars. cbn [List.length Nat.eqb].
    rewrite bind_print. cbn [ret heap stdout index_html].
    rewrite <- List.app_assoc. reflexivity.
  - rewrite bind_print. cbn [ret heap stdout index_html].
    rewrite <- List.app_assoc. reflexivity.
Qed.

Lemma nothing_to_render_witness :
  generate_html_chart (Some 0%nat) SYMBOL (world_of (DataFrame [])) =
  (Ok None,
   mk_world (heap (world_of (DataFrame [])))
            (stdout (world_of (DataFrame [])) ++ [LRendering; LEmptyData])
            (index_html (world_of (DataFrame [])))).
Proof.
  apply (nothing_to_render (Some 0%nat) SYMBOL (world_of (DataFrame []))).
  exists (DataFrame []). split; reflexivity.
Defined.

(** X11. Given a frame that has rows but no [EHR999] column, such as the
    one [fetch_eth_klines] returns, [generate_html_chart] raises [KeyError]
    before it writes anything. *)
Theorem missing_column_raises_KeyError (r : nat) (symbol : string) (w : world)
        (f : frame) :
  heap w !! r = Some f ->
  bars f <> [] ->
  EHR999 f = None ->
  generate_html_chart (Some r) symbol w =
  (Raise KeyError,
   mk_world (heap w) (stdout w ++ [LRendering]) (index_html w)).
Proof.
  intros Hf Hbars Hcol. unfold generate_html_chart. rewrite bind_print.
  erewrite bind_load by (cbn [heap]; exact Hf).
  destruct (bars f) as [|b bs] eqn:E; [congruence|].
  cbn [List.length Nat.eqb]. rewrite Hcol. reflexivity.
Qed.

Lemma missing_column_raises_KeyError_witness :
  generate_html_chart (Some 0%nat) SYMBOL (world_of rising_series) =
  (Raise KeyError,
   mk_world (heap (world_of rising_series))
            (stdout (world_of rising_series) ++ [LRendering])
            (index_html (world_of rising_series))).
Proof.
  apply (missing_column_raises_KeyError 0%nat SYMBOL (world_of rising_series)
                                        rising_series).
  - reflexivity.
  - discriminate.
  - reflexivity.
Defined.

(** ** [generate_html_chart]: the report it writes *)

Lemma iloc_last_nonempty {A : Type} (d : A) (xs : list A) :
  xs <> [] -> iloc_last xs = ret (List.last xs d).
Proof.
  intros Hne. destruct (List.exists_last Hne) as (l & x & ->).
  unfold iloc_last. rewrite List.rev_app_distr, List.last_last. reflexivity.
Qed.

Lemma fold_min_spec (xs : list Z) (x : Z) :
  let m := List.fold_left Z.min xs x in
  (m = x \/ List.In m xs) /\ m <= x /\ List.Forall (fun t => m <= t) xs.
Proof.
  revert x. induction xs as [|y xs IH]; intros x; cbn [List.fold_left].
  - cbv zeta. repeat split; [now left | lia | constructor].
  - specialize (IH (Z.min x y)). cbv zeta in *.
    destruct IH as (Hin & Hle & Hall).
    split; [|split].
    + destruct Hin as [Hin | Hin]; [|right; now right].
      destruct (Z.min_spec x y) as [[_ E] | [_ E]]; rewrite E in Hin;
        [left | right; left]; congruence.
    + lia.
    + constructor; [lia | exact Hall].
Qed.

Lemma fold_max_spec (xs : list Z) (x : Z) :
  let m := List.fold_left Z.max xs x in
  (m = x \/ List.In m xs) /\ x <= m /\ List.Forall (fun t => t <= m) xs.
Proof.
  revert x. induction xs as [|y xs IH]; intros x; cbn [List.fold_left].
  - cbv zeta. repeat split; [now left | lia | constructor].
  - specialize (IH (Z.max x y)). cbv zeta in *.
    destruct IH as (Hin & Hle & Hall).
    split; [|split].
    + destruct Hin as [Hin | Hin]; [|right; now right].
      destruct (Z.max_spec x y) as [[_ E] | [_ E]]; rewrite E in Hin;
        [right; left | left]; congruence.
    + lia.
    + constructor; [lia | exact Hall].
Qed.

Lemma col_min_spec (xs : list Z) :
  xs <> [] ->
  exists m, col_min xs = Some m /\ List.In m xs /\ List.Forall (fun t => m <= t) xs.
Proof.
  intros Hne. destruct xs as [|x xs]; [congruence|].
  destruct (fold_min_spec xs x) as (Hin & Hle & Hall).
  eexists. split; [reflexivity|]. split.
  - destruct Hin as [-> | Hin]; [now left | now right].
  - constructor; assumption.
Qed.

Lemma col_max_spec (xs : list Z) :
  xs <> [] ->
  exists m, col_max xs = Some m /\ List.In m xs /\ List.Forall (fun t => t <= m) xs.
Proof.
  intros Hne. destruct xs as [|x xs]; [congruence|].
  destruct (fold_max_spec xs x) as (Hin & Hle & Hall).
  eexists. split; [reflexivity|]. split.
  - destruct Hin as [-> | Hin]; [now left | now right].
  - constructor; assumption.
Qed.

Lemma strftime_supports_iff (t : Z) :
  strftime_supports t = true <-> datetime_min_ms <= t < datetime_end_ms.
Proof.
  unfold strftime_supports. rewrite andb_true_iff, Z.leb_le, Z.ltb_lt. tauto.
Qed.

(** The report written for a frame with rows, an [EHR999] column and
    times that [strftime] can format. *)
Lemma generate_html_chart_writes (r : nat) (symbol : string) (w : world)
      (f : frame) (e : list fval) :
  heap w !! r = Some f ->
  bars f <> [] ->
  EHR999 f = Some e ->
  List.length e = List.length (bars f) ->
  List.Forall (fun t => strftime_supports t = true) (open_times f) ->
  exists start finish,
    col_min (open_times f) = Some start /\
    col_max (open_times f) = Some finish /\
    generate_html_chart (Some r) symbol w =
    (Ok (Some "index.html"%string),
     mk_world (heap w) (stdout w ++ [LRendering; LWritten])
       (Some (mk_report symbol start finish (List.length (bars f))
                (List.last (closes f) 0%Q) (List.last e NaN)
                (List.last (open_times f) 0)
                (invest_multiplier (classify (List.last e NaN)))
                (market_status (classify (List.last e NaN)))
                (status_color (classify (List.last e NaN)))
                (List.map (fun row => row_class row (List.last e NaN)) bands)
                (ehr999_data_of (open_times f) e)))).
Proof.
  intros Hf Hbars Hcol Hlen Hrange.
  assert (Htimes : open_times f <> []).
  { unfold open_times. destruct (bars f); [congruence | discriminate]. }
  assert (Hcloses : closes f <> []).
  { unfold closes. destruct (bars f); [congruence | discriminate]. }
  assert (He : e <> []).
  { destruct e; [|discriminate]. destruct (bars f); [congruence | discriminate]. }
  destruct (col_min_spec _ Htimes) as (start & Hmin & Hin_min & _).
  destruct (col_max_spec _ Htimes) as (finish & Hmax & Hin_max & _).
  rewrite List.Forall_forall in Hrange.
  exists start, finish. split; [exact Hmin|]. split; [exact Hmax|].
  unfold generate_html_chart. rewrite bind_print.
  erewrite bind_load by (cbn [heap]; exact Hf).
  destruct (List.length (bars f) =? 0)%nat eqn:E.
  { apply Nat.eqb_eq in E. destruct (bars f); [congruence | discriminate]. }
  rewrite Hcol, bind_getcol_Some.
  rewrite Hmin. cbn [strftime]. rewrite (Hrange start Hin_min), bind_ret.
  rewrite Hmax. cbn [strftime]. rewrite (Hrange finish Hin_max), bind_ret.
  rewrite (iloc_last_nonempty NaN e He), bind_ret.
  rewrite (iloc_last_nonempty 0%Q (closes f) Hcloses), bind_ret.
  rewrite (iloc_last_nonempty 0 (open_times f) Htimes), bind_ret.
  unfold bind, write_index_html, print, ret. cbn [heap stdout index_html].
  rewrite <- List.app_assoc. reflexivity.
Qed.

(** When the earliest and the latest time can be formatted, every time
    can. *)
Lemma strftime_supports_between (lo hi t : Z) :
  strftime_supports lo = true -> strftime_supports hi = true ->
  lo <= t <= hi -> strftime_supports t = true.
Proof.
  rewrite !strftime_supports_iff. lia.
Qed.

(** A frame that holds a time [strftime] cannot format: the call raises
    before it writes. *)
Lemma generate_html_chart_unsupported (r : nat) (symbol : string) (w : world)
      (f : frame) (e : list fval) (t : Z) :
  heap w !! r = Some f ->
  EHR999 f = Some e ->
  List.In t (open_times f) ->
  strftime_supports t = false ->
  generate_html_chart (Some r) symbol w =
  (Raise NotImplementedError,
   mk_world (heap w) (stdout w ++ [LRendering]) (index_html w)).
Proof.
  intros Hf Hcol Hin Ht.
  assert (Htimes : open_times f <> []).
  { intros E. rewrite E in Hin. exact Hin. }
  destruct (col_min_spec _ Htimes) as (start & Hmin & _ & Hall_min).
  destruct (col_max_spec _ Htimes) as (finish & Hmax & _ & Hall_max).
  rewrite List.Forall_forall in Hall_min, Hall_max.
  unfold generate_html_chart. rewrite bind_print.
  erewrite bind_load by (cbn [heap]; exact Hf).
  destruct (List.length (bars f) =? 0)%nat eqn:E.
  { apply Nat.eqb_eq in E. unfold open_times in Htimes.
    destruct (bars f); [now elim Htimes | discriminate]. }
  rewrite Hcol, bind_getcol_Some.
  rewrite Hmin. cbn [strftime].
  destruct (strftime_supports start) eqn:Es; [|reflexivity].
  rewrite bind_ret, Hmax. cbn [strftime].
  destruct (strftime_supports finish) eqn:Ef; [|reflexivity].
  exfalso.
  rewrite (strftime_supports_between start finish t Es Ef) in Ht; [discriminate|].
  split; [now apply Hall_min | now apply Hall_max].
Qed.

(** X12. Given a frame with at least one row, an [EHR999] column and
    times within the years 1 to 9999, [generate_html_chart] returns the
    fixed path [index.html] and replaces whatever report there was.  The
    latest price, value and time of the report are those of the last row;
    its header is the band of that last value; and its date range is the
    earliest and the latest [open_time] of the frame, whatever the order of
    the rows. *)
Theorem report_of_a_frame (r : nat) (symbol : string) (w : world)
        (f : frame) (e : list fval) :
  heap w !! r = Some f ->
  bars f <> [] ->
  EHR999 f = Some e ->
  List.length e = List.length (bars f) ->
  List.Forall (fun t => strftime_supports t = true) (open_times f) ->
  exists doc,
    generate_html_chart (Some r) symbol w =
    (Ok (Some "index.html"%string),
     mk_world (heap w) (stdout w ++ [LRendering; LWritten]) (Some doc)) /\
    r_symbol doc = symbol /\
    r_latest_price doc = List.last (closes f) 0%Q /\
    r_latest_ehr999 doc = List.last e NaN /\
    r_latest_time doc = List.last (open_times f) 0 /\
    r_market_status doc = market_status (classify (List.last e NaN)) /\
    r_invest_multiplier doc = invest_multiplier (classify (List.last e NaN)) /\
    r_status_color doc = status_color (classify (List.last e NaN)) /\
    r_ehr999_data doc = ehr999_data_of (open_times f) e /\
    List.In (r_start_time doc) (open_times f) /\
    List.In (r_end_time doc) (open_times f) /\
    List.Forall (fun t => r_start_time doc <= t <= r_end_time doc) (open_times f).
Proof.
  intros Hf Hbars Hcol Hlen Hrange.
  destruct (generate_html_chart_writes r symbol w f e Hf Hbars Hcol Hlen Hrange)
    as (start & finish & Hmin & Hmax & Hrun).
  assert (Htimes : open_times f <> []).
  { unfold open_times. destruct (bars f); [congruence | discriminate]. }
  destruct (col_min_spec _ Htimes) as (start' & Hmin' & Hin_min & Hall_min).
  destruct (col_max_spec _ Htimes) as (finish' & Hmax' & Hin_max & Hall_max).
  rewrite Hmin in Hmin'. rewrite Hmax in Hmax'.
  inversion Hmin'. inversion Hmax'. subst start' finish'.
  eexists. split; [exact Hrun|].
  cbn [r_symbol r_latest_price r_latest_ehr999 r_latest_time
       r_market_status r_invest_multiplier r_status_color r_ehr999_data
       r_start_time r_end_time].
  repeat (split; [reflexivity|]).
  split; [exact Hin_min|]. split; [exact Hin_max|].
  apply List.Forall_forall. intros t Ht.
  rewrite List.Forall_forall in Hall_min, Hall_max.
  split; [now apply Hall_min | now apply Hall_max].
Qed.

Lemma report_of_a_frame_witness :
  exists doc,
    generate_html_chart (Some 0%nat) SYMBOL (world_of charted_series) =
    (Ok (Some "index.html"%string),
     mk_world (heap (world_of charted_series))
              (stdout (world_of charted_series) ++ [LRendering; LWritten])
              (Some doc)) /\
    r_symbol doc = SYMBOL /\
    r_latest_price doc = List.last (closes charted_series) 0%Q /\
    r_latest_ehr999 doc = List.last [Fin 1; Fin 1] NaN /\
    r_latest_time doc = List.last (open_times charted_series) 0 /\
    r_market_status doc = market_status (classify (List.last [Fin 1; Fin 1] NaN)) /\
    r_invest_multiplier doc
      = invest_multiplier (classify (List.last [Fin 1; Fin 1] NaN)) /\
    r_status_color doc = status_color (classify (List.last [Fin 1; Fin 1] NaN)) /\
    r_ehr999_data doc = ehr999_data_of (open_times charted_series) [Fin 1; Fin 1] /\
    List.In (r_start_time doc) (open_times charted_series) /\
    List.In (r_end_time doc) (open_times charted_series) /\
    List.Forall (fun t => r_start_time doc <= t <= r_end_time doc)
                (open_times charted_series).
Proof.
  apply (report_of_a_frame 0%nat SYMBOL (world_of charted_series) charted_series
                           [Fin 1; Fin 1]).
  - reflexivity.
  - discriminate.
  - reflexivity.
  - reflexivity.
  - repeat constructor.
Defined.

(** X23. Given a frame that holds a time outside the years 1 to 9999,
    [generate_html_chart] raises [NotImplementedError] when it formats the
    date range, after its progress line and before it writes: the report
    file is left as it was. *)
Theorem unsupported_time_raises_NotImplementedError
        (r : nat) (symbol : string) (w : world) (f : frame) (e : list fval) (t : Z) :
  heap w !! r = Some f ->
  EHR999 f = Some e ->
  List.In t (open_times f) ->
  strftime_supports t = false ->
  generate_html_chart (Some r) symbol w =
  (Raise NotImplementedError,
   mk_world (heap w) (stdout w ++ [LRendering]) (index_html w)).
Proof. exact (generate_html_chart_unsupported r symbol w f e t). Qed.

Lemma unsupported_time_raises_NotImplementedError_witness :
  generate_html_chart (Some 0%nat) SYMBOL (world_of far_future_series) =
  (Raise NotImplementedError,
   mk_world (heap (world_of far_future_series))
            (stdout (world_of far_future_series) ++ [LRendering])
            (index_html (world_of far_future_series))).
Proof.
  apply (unsupported_time_raises_NotImplementedError
           0%nat SYMBOL (world_of far_future_series) far_future_series
           [Fin 1; Fin 1] datetime_end_ms).
  - reflexivity.
  - reflexivity.
  - right. left. reflexivity.
  - reflexivity.
Defined.

(** ** [generate_html_chart]: the points of the chart *)

(** The loop, as a filter: the rows whose value is not NaN, each with its
    own time in whole seconds. *)
Lemma ehr999_data_of_filter (times : list Z) (values : list fval) :
  ehr999_data_of times values =
  List.map (fun row => (epoch_seconds (fst row), snd row))
           (List.filter (fun row => negb (is_nan (snd row)))
                        (List.combine times values)).
Proof.
  revert values. induction times as [|t times IH]; intros [|v values];
    try reflexivity.
  cbn [ehr999_data_of List.combine List.filter snd].
  destruct (negb (is_nan v)); cbn [List.map fst snd]; now rewrite IH.
Qed.

Lemma ehr999_data_of_In (times : list Z) (values : list fval) (p : Z * fval) :
  List.In p (ehr999_data_of times values) ->
  exists t, List.In t times /\ fst p = epoch_seconds t /\
            List.In (snd p) values /\ is_nan (snd p) = false.
Proof.
  revert values. induction times as [|t times IH]; intros [|v values];
    simpl; try tauto.
  destruct (is_nan v) eqn:E; simpl.
  - intros H. destruct (IH values H) as (t' & Ht' & Hp & Hv & Hn).
    exists t'. tauto.
  - intros [<- | H].
    + exists t. simpl. tauto.
    + destruct (IH values H) as (t' & Ht' & Hp & Hv & Hn).
      exists t'. tauto.
Qed.

Lemma ehr999_data_of_length (times : list Z) (values : list fval) :
  (List.length (ehr999_data_of times values) <= List.length values)%nat.
Proof.
  revert values. induction times as [|t times IH]; intros [|v values];
    simpl; try lia.
  specialize (IH values). destruct (is_nan v); simpl; lia.
Qed.

Lemma epoch_seconds_increasing (a b : Z) :
  0 <= a -> a + 1000 <= b -> epoch_seconds a < epoch_seconds b.
Proof.
  intros Ha Hab. unfold epoch_seconds.
  rewrite !Z.quot_div_nonneg by lia.
  Z.to_euclidean_division_equations. lia.
Qed.

Lemma ehr999_data_of_increasing (times : list Z) (values : list fval) :
  List.Forall (fun t => 0 <= t) times ->
  StronglySorted (fun a b => a + 1000 <= b) times ->
  StronglySorted Z.lt (List.map fst (ehr999_data_of times values)).
Proof.
  intros Hpos Hs. revert values.
  induction Hs as [|t times Hs IH Hall]; intros values.
  - destruct values; constructor.
  - apply List.Forall_cons_iff in Hpos. destruct Hpos as [Ht Hpos].
    destruct values as [|v values]; [constructor|].
    cbn [ehr999_data_of].
    destruct (negb (is_nan v)); [|now apply IH].
    cbn [List.map fst]. constructor; [now apply IH|].
    apply List.Forall_forall. intros s Hin.
    apply List.in_map_iff in Hin. destruct Hin as (p & <- & Hp).
    apply ehr999_data_of_In in Hp. destruct Hp as (t' & Ht' & -> & _).
    rewrite List.Forall_forall in Hall.
    apply epoch_seconds_increasing; [exact Ht | now apply Hall].
Qed.

(** X13. For every frame, the loop that fills [ehr999_data] emits exactly
    the rows whose value is not NaN, in order, each with its own
    [open_time] in whole seconds: at most one point per row, never a NaN.
    When moreover the bars are not before the epoch and at least one second
    apart in increasing order, the points are strictly increasing in
    time. *)
Theorem chart_points_increase_in_time (times : list Z) (values : list fval) :
  ehr999_data_of times values =
    List.map (fun row => (epoch_seconds (fst row), snd row))
             (List.filter (fun row => negb (is_nan (snd row)))
                          (List.combine times values)) /\
  List.Forall (fun p => is_nan (snd p) = false) (ehr999_data_of times values) /\
  (List.length (ehr999_data_of times values) <= List.length values)%nat /\
  (List.Forall (fun t => 0 <= t) times ->
   StronglySorted (fun a b => a + 1000 <= b) times ->
   StronglySorted Z.lt (List.map fst (ehr999_data_of times values))).
Proof.
  split; [apply ehr999_data_of_filter|].
  split; [|split; [apply ehr999_data_of_length | apply ehr999_data_of_increasing]].
  apply List.Forall_forall. intros p Hp.
  apply ehr999_data_of_In in Hp. destruct Hp as (t & _ & _ & _ & Hnan).
  exact Hnan.
Qed.

Lemma chart_points_increase_in_time_witness :
  ehr999_data_of three_days three_values = [(86400, Fin 1); (259200, PInf)] /\
  StronglySorted Z.lt (List.map fst (ehr999_data_of three_days three_values)).
Proof.
  destruct (chart_points_increase_in_time three_days three_values)
    as (Hrows & _ & _ & Hsorted).
  split.
  - rewrite Hrows. reflexivity.
  - apply Hsorted; repeat constructor; lia.
Defined.

(** ** The classifier over its whole domain *)

Lemma levels_reached_Fin (v : Q) :
  levels_reached (Fin v) = band_rank (classify (Fin v)).
Proof.
  unfold levels_reached, market_levels.
  by_band v; cbn [List.filter fst]; decide_cmp; reflexivity.
Qed.

(** X14. The price lines drawn over the chart are the thresholds of the
    chain: for every value that is not NaN, the band of the header is the
    band whose place in the table is the number of price lines at or below
    the value. *)
Theorem band_counts_price_lines (v : fval) :
  is_nan v = false ->
  band_rank (classify v) = levels_reached v /\
  classify v = List.nth (levels_reached v) bands ManicTop.
Proof.
  intros Hnan. destruct v as [q| | |]; try discriminate.
  - rewrite levels_reached_Fin.
    split; [reflexivity|]. destruct (classify (Fin q)); reflexivity.
  - split; reflexivity.
  - split; reflexivity.
Qed.

Lemma band_counts_price_lines_witness :
  band_rank (classify (Fin 2)) = levels_reached (Fin 2) /\
  classify (Fin 2) = List.nth (levels_reached (Fin 2)) bands ManicTop.
Proof. apply (band_counts_price_lines (Fin 2)). reflexivity. Defined.

(** X15. The chain is monotone: a larger value never gets an earlier
    band. *)
Theorem classify_is_monotone (v v' : Q) :
  (v <= v')%Q ->
  (band_rank (classify (Fin v)) <= band_rank (classify (Fin v')))%nat.
Proof.
  intros Hle.
  by_band v; by_band v'; cbn [band_rank]; solve [lia | exfalso; lra].
Qed.

Lemma classify_is_monotone_witness :
  (band_rank (classify (Fin 1)) <= band_rank (classify (Fin 5)))%nat.
Proof. apply (classify_is_monotone 1 5). unfold Qle; simpl; lia. Defined.

(** X16. Header and table over every float: for any value that is not NaN,
    the infinities included, exactly the row of the header's band is
    highlighted (plus infinity is the top band, minus infinity the first);
    for NaN every comparison is false, so the header shows the top band
    while no row is highlighted. *)
Theorem header_and_table_on_every_float (v : fval) :
  (is_nan v = false -> current_rows v = [classify v]) /\
  (is_nan v = true -> classify v = ManicTop /\ current_rows v = []) /\
  classify PInf = ManicTop /\ classify NInf = DiamondPit.
Proof.
  split; [|split; [|split; reflexivity]].
  - intros Hnan. destruct v as [q| | |]; try discriminate; try reflexivity.
    by_band q; unfold current_rows, bands, row_is_current, fgeb;
      cbn [List.filter]; decide_cmp; reflexivity.
  - intros Hnan. destruct v; try discriminate. split; reflexivity.
Qed.

(** ** The entry point, end to end *)

Lemma main_unfold (s : script) :
  main s boot =
  (df <- fetch_eth_klines s SYMBOL "1d" ;;
   match df with
   | Some df => update_from df
   | None => print LWaitRetry
   end) (mk_world ∅ [LRule; LStart; LRule] None).
Proof. reflexivity. Qed.

Lemma main_after_fetch (s : script) :
  main s boot =
  match fetch_eth_klines s SYMBOL "1d" (mk_world ∅ [LRule; LStart; LRule] None) with
  | (Ok (Some df), w) => update_from df w
  | (Ok None, w) => print LWaitRetry w
  | (Raise e, w) => (Raise e, w)
  | (Hang, w) => (Hang, w)
  end.
Proof.
  rewrite main_unfold. unfold bind at 1.
  destruct (fetch_eth_klines s SYMBOL "1d" _) as [[[df|]|e|] w]; reflexivity.
Qed.

(** When a frame is fetched, the program goes on with it, in a world that
    holds it and has no report yet. *)
Lemma main_with_frame (s : script) (g : frame) :
  fetched_frame s = Ok (Some g) ->
  exists w r,
    main s boot = update_from r w /\
    heap w !! r = Some g /\
    index_html w = None.
Proof.
  intros H. rewrite fetched_frame_by_cases in H.
  rewrite main_after_fetch, fetch_eth_klines_by_cases. cbv zeta.
  destruct (accumulated s) as [[|r rows]|e|]; try discriminate.
  inversion H. subst g.
  eexists _, _. split; [reflexivity|].
  cbn [heap index_html]. split; [apply lookup_insert_eq | reflexivity].
Qed.

Lemma main_without_frame (s : script) :
  fetched_frame s = Ok None ->
  fst (main s boot) = Ok tt /\ index_html (snd (main s boot)) = None.
Proof.
  intros H. rewrite fetched_frame_by_cases in H.
  rewrite main_after_fetch, fetch_eth_klines_by_cases. cbv zeta.
  destruct (accumulated s) as [[|r rows]|e|]; try discriminate;
    split; reflexivity.
Qed.

Lemma main_waiting (s : script) :
  fetched_frame s = Hang ->
  fst (main s boot) = Hang /\ index_html (snd (main s boot)) = None.
Proof.
  intros H. rewrite fetched_frame_by_cases in H.
  rewrite main_after_fetch, fetch_eth_klines_by_cases. cbv zeta.
  destruct (accumulated s) as [[|r rows]|e|]; try discriminate;
    split; reflexivity.
Qed.

Lemma fetched_frame_not_Raise (s : script) (e : exn) :
  fetched_frame s <> Raise e.
Proof.
  rewrite fetched_frame_by_cases.
  destruct (accumulated s) as [[|r rows]|e'|]; discriminate.
Qed.

Lemma update_from_short (w : world) (r : nat) (g : frame) :
  heap w !! r = Some g ->
  (List.length (bars g) < 10)%nat ->
  exists w',
    update_from r w = (Raise ValueError, w') /\ index_html w' = index_html w.
Proof.
  intros Hg Hlen. unfold update_from, bind at 1.
  rewrite (calculate_ehr999_raises w r g Hg Hlen).
  eexists. split; reflexivity.
Qed.

(** The frame the engine builds from [g], and its value column. *)
Lemma engine_output_columns (g : frame) :
  let out := select_frame (notna (ehr999_column g)) (with_indicators g) in
  let values := select (notna (ehr999_column g)) (ehr999_column g) in
  EHR999 out = Some values /\
  List.length values = List.length (bars out) /\
  List.Forall (fun v => is_nan v = false) values.
Proof.
  cbv zeta. split; [reflexivity|]. split.
  - cbn [select_frame with_indicators bars].
    apply select_length_same_mask. apply ehr999_column_length.
  - rewrite select_notna_filter. apply List.Forall_forall. intros v Hv.
    apply List.filter_In in Hv. destruct Hv as [_ Hv].
    now apply negb_true_iff in Hv.
Qed.

Lemma update_from_empty (w : world) (r : nat) (g : frame) :
  heap w !! r = Some g ->
  (10 <= List.length (bars g))%nat ->
  bars (select_frame (notna (ehr999_column g)) (with_indicators g)) = [] ->
  exists w',
    update_from r w = (Raise IndexError, w') /\ index_html w' = index_html w.
Proof.
  intros Hg Hlen Hempty. unfold update_from, bind at 1.
  rewrite (calculate_ehr999_returns w r g Hg Hlen).
  erewrite bind_load by (cbn [heap]; apply lookup_insert_eq).
  rewrite bind_print. unfold closes at 1. rewrite Hempty.
  eexists. split; reflexivity.
Qed.

(** The entry point over any arithmetic. *)
Lemma main_with_exact (s : script) : main_with exact_arith s = main s.
Proof. reflexivity. Qed.

Lemma main_with_after_fetch (A : arith) (s : script) :
  main_with A s boot =
  match fetch_eth_klines s SYMBOL "1d" (mk_world ∅ [LRule; LStart; LRule] None) with
  | (Ok (Some df), w) => update_from_with A df w
  | (Ok None, w) => print LWaitRetry w
  | (Raise e, w) => (Raise e, w)
  | (Hang, w) => (Hang, w)
  end.
Proof.
  change (main_with A s boot) with
    ((df <- fetch_eth_klines s SYMBOL "1d" ;;
      match df with
      | Some df => update_from_with A df
      | None => print LWaitRetry
      end) (mk_world ∅ [LRule; LStart; LRule] None)).
  unfold bind at 1.
  destruct (fetch_eth_klines s SYMBOL "1d" _) as [[[df|]|e|] w]; reflexivity.
Qed.

Lemma main_with_fetched_frame (A : arith) (s : script) (g : frame) :
  fetched_frame s = Ok (Some g) ->
  exists w r,
    main_with A s boot = update_from_with A r w /\
    heap w !! r = Some g /\
    index_html w = None.
Proof.
  intros H. rewrite fetched_frame_by_cases in H.
  rewrite main_with_after_fetch, fetch_eth_klines_by_cases. cbv zeta.
  destruct (accumulated s) as [[|r rows]|e|]; try discriminate.
  inversion H. subst g.
  eexists _, _. split; [reflexivity|].
  cbn [heap index_html]. split; [apply lookup_insert_eq | reflexivity].
Qed.

Lemma ehr999_frame_with_Ok (A : arith) (g out : frame) :
  ehr999_frame_with A g = Ok out ->
  (10 <= List.length (bars g))%nat /\
  out = select_frame (notna (ehr999_column_with A g)) (with_indicators_with A g).
Proof.
  intros H. destruct (le_lt_dec 10 (List.length (bars g))) as [Hlen | Hlen].
  - rewrite (ehr999_frame_with_returns A g Hlen) in H. inversion H. auto.
  - exfalso. unfold ehr999_frame_with in H.
    pose proof (calculate_ehr999_with_raises A (world_of g) 0%nat g
                  (lookup_singleton_eq _ _) Hlen) as Hraise.
    destruct (calculate_ehr999_with A 0%nat (world_of g)) as [[r|e|] w'];
      cbn [fst] in Hraise; discriminate.
Qed.

Lemma update_from_with_writes (A : arith) (w : world) (r : nat) (g : frame) :
  heap w !! r = Some g ->
  (10 <= List.length (bars g))%nat ->
  let n := Z.of_nat (List.length (bars g)) in
  let out := select_frame (notna (ehr999_column_with A g)) (with_indicators_with A g) in
  let values := select (notna (ehr999_column_with A g)) (ehr999_column_with A g) in
  bars out <> [] ->
  List.Forall (fun t => strftime_supports t = true) (open_times out) ->
  exists start finish,
    update_from_with A r w =
    (Ok tt,
     mk_world (heap (snd (calculate_ehr999_with A r w)))
       (stdout w ++
        [LCalculating; LWindows (ma_window_of n) (long_window_of n);
         LCalculated (List.length (bars out)); LLatestHeader;
         LPrice (List.last (closes out) 0%Q); LValue (List.last values NaN);
         LTime (List.last (open_times out) 0); LRendering; LWritten;
         LUpdateDone])
       (Some (mk_report SYMBOL start finish (List.length (bars out))
                (List.last (closes out) 0%Q) (List.last values NaN)
                (List.last (open_times out) 0)
                (invest_multiplier (classify (List.last values NaN)))
                (market_status (classify (List.last values NaN)))
                (status_color (classify (List.last values NaN)))
                (List.map (fun row => row_class row (List.last values NaN)) bands)
                (ehr999_data_of (open_times out) values)))).
Proof.
  intros Hg Hlen n out values Hne Hrange.
  destruct (engine_output_columns_with A g) as (Hcol & Hvlen & _).
  fold out values in Hcol, Hvlen.
  assert (Hcloses : closes out <> []).
  { unfold closes. destruct (bars out); [congruence | discriminate]. }
  assert (Htimes : open_times out <> []).
  { unfold open_times. destruct (bars out); [congruence | discriminate]. }
  assert (Hvalues : values <> []).
  { destruct values; [|discriminate]. destruct (bars out); [congruence | discriminate]. }
  unfold update_from_with, bind at 1.
  rewrite (calculate_ehr999_with_returns A w r g Hg Hlen). fold n out.
  cbn [snd heap].
  erewrite bind_load by (cbn [heap]; apply lookup_insert_eq).
  rewrite bind_print.
  rewrite (iloc_last_nonempty 0%Q (closes out) Hcloses), bind_ret, bind_print.
  rewrite Hcol, bind_getcol_Some.
  rewrite (iloc_last_nonempty NaN values Hvalues), bind_ret, bind_print.
  rewrite (iloc_last_nonempty 0 (open_times out) Htimes), bind_ret, bind_print.
  cbn [heap stdout index_html].
  match goal with
  | |- context [bind (generate_html_chart (Some ?r') SYMBOL) _ ?w'] =>
      destruct (generate_html_chart_writes r' SYMBOL w' out values)
        as (start & finish & _ & _ & Hgen);
      [cbn [heap]; apply lookup_insert_eq | exact Hne | exact Hcol | exact Hvlen
       | exact Hrange |]
  end.
  unfold bind at 1. rewrite Hgen. cbn [heap stdout index_html].
  exists start, finish.
  unfold print. cbn [heap stdout index_html].
  rewrite <- !List.app_assoc. cbn [List.app]. reflexivity.
Qed.

(** When the engine's output holds a time [strftime] cannot format, the
    branch ends with the exception of [generate_html_chart]. *)
Lemma update_from_with_unsupported (A : arith) (w : world) (r : nat) (g : frame)
      (t : Z) :
  heap w !! r = Some g ->
  (10 <= List.length (bars g))%nat ->
  let out := select_frame (notna (ehr999_column_with A g)) (with_indicators_with A g) in
  List.In t (open_times out) ->
  strftime_supports t = false ->
  exists w',
    update_from_with A r w = (Raise NotImplementedError, w') /\
    index_html w' = index_html w.
Proof.
  intros Hg Hlen out Hin Ht.
  set (values := select (notna (ehr999_column_with A g)) (ehr999_column_with A g)).
  destruct (engine_output_columns_with A g) as (Hcol & Hvlen & _).
  fold out values in Hcol, Hvlen.
  assert (Hne : bars out <> []).
  { intros E. unfold open_times in Hin. rewrite E in Hin. exact Hin. }
  assert (Hcloses : closes out <> []).
  { unfold closes. destruct (bars out); [congruence | discriminate]. }
  assert (Htimes : open_times out <> []).
  { unfold open_times. destruct (bars out); [congruence | discriminate]. }
  assert (Hvalues : values <> []).
  { destruct values; [|discriminate]. destruct (bars out); [congruence | discriminate]. }
  unfold update_from_with, bind at 1.
  rewrite (calculate_ehr999_with_returns A w r g Hg Hlen). fold out.
  cbn [snd heap].
  erewrite bind_load by (cbn [heap]; apply lookup_insert_eq).
  rewrite bind_print.
  rewrite (iloc_last_nonempty 0%Q (closes out) Hcloses), bind_ret, bind_print.
  rewrite Hcol, bind_getcol_Some.
  rewrite (iloc_last_nonempty NaN values Hvalues), bind_ret, bind_print.
  rewrite (iloc_last_nonempty 0 (open_times out) Htimes), bind_ret, bind_print.
  cbn [heap stdout index_html].
  match goal with
  | |- context [bind (generate_html_chart (Some ?r') SYMBOL) _ ?w'] =>
      pose proof (generate_html_chart_unsupported r' SYMBOL w' out values t) as Hgen
  end.
  cbn [heap stdout index_html] in Hgen.
  unfold bind at 1. rewrite Hgen; [|apply lookup_insert_eq | exact Hcol | exact Hin | exact Ht].
  eexists. split; reflexivity.
Qed.

Lemma update_from_writes (w : world) (r : nat) (g : frame) :
  heap w !! r = Some g ->
  (10 <= List.length (bars g))%nat ->
  let n := Z.of_nat (List.length (bars g)) in
  let out := select_frame (notna (ehr999_column g)) (with_indicators g) in
  let values := select (notna (ehr999_column g)) (ehr999_column g) in
  bars out <> [] ->
  List.Forall (fun t => strftime_supports t = true) (open_times out) ->
  exists start finish,
    update_from r w =
    (Ok tt,
     mk_world (heap (snd (calculate_ehr999 r w)))
       (stdout w ++
        [LCalculating; LWindows (ma_window_of n) (long_window_of n);
         LCalculated (List.length (bars out)); LLatestHeader;
         LPrice (List.last (closes out) 0%Q); LValue (List.last values NaN);
         LTime (List.last (open_times out) 0); LRendering; LWritten;
         LUpdateDone])
       (Some (mk_report SYMBOL start finish (List.length (bars out))
                (List.last (closes out) 0%Q) (List.last values NaN)
                (List.last (open_times out) 0)
                (invest_multiplier (classify (List.last values NaN)))
                (market_status (classify (List.last values NaN)))
                (status_color (classify (List.last values NaN)))
                (List.map (fun row => row_class row (List.last values NaN)) bands)
                (ehr999_data_of (open_times out) values)))).
Proof. exact (update_from_with_writes exact_arith w r g). Qed.

Lemma update_from_unsupported (w : world) (r : nat) (g : frame) (t : Z) :
  heap w !! r = Some g ->
  (10 <= List.length (bars g))%nat ->
  let out := select_frame (notna (ehr999_column g)) (with_indicators g) in
  List.In t (open_times out) ->
  strftime_supports t = false ->
  exists w',
    update_from r w = (Raise NotImplementedError, w') /\
    index_html w' = index_html w.
Proof. exact (update_from_with_unsupported exact_arith w r g t). Qed.

Lemma ehr999_frame_Ok (g out : frame) :
  ehr999_frame g = Ok out ->
  (10 <= List.length (bars g))%nat /\
  out = select_frame (notna (ehr999_column g)) (with_indicators g).
Proof.
  intros H. destruct (le_lt_dec 10 (List.length (bars g))) as [Hlen | Hlen].
  - rewrite (ehr999_frame_returns g Hlen) in H. inversion H. auto.
  - rewrite (ehr999_frame_raises g Hlen) in H. discriminate.
Qed.

Lemma main_short_series (s : script) (g : frame) :
  fetched_frame s = Ok (Some g) ->
  (List.length (bars g) < 10)%nat ->
  fst (main s boot) = Raise ValueError /\
  index_html (snd (main s boot)) = None.
Proof.
  intros Hfetch Hlen.
  destruct (main_with_frame s g Hfetch) as (w & r & -> & Hg & Hnone).
  destruct (update_from_short w r g Hg Hlen) as (w' & -> & Hsame).
  cbn [fst snd]. split; [reflexivity | congruence].
Qed.

(** X17. When the Series fetched has fewer than ten bars, the program ends
    with the [ValueError] of the Indicator Engine, uncaught, and no report
    is written. *)
Theorem short_series_stops_the_program (s : script) (g : frame) :
  fetched_frame s = Ok (Some g) ->
  (List.length (bars g) < 10)%nat ->
  fst (main s boot) = Raise ValueError /\
  index_html (snd (main s boot)) = None.
Proof. exact (main_short_series s g). Qed.

Lemma short_series_stops_the_program_witness :
  fst (main five_bar_source boot) = Raise ValueError /\
  index_html (snd (main five_bar_source boot)) = None.
Proof.
  apply (short_series_stops_the_program
           five_bar_source
           (DataFrame [bar 1 1; bar 2 2; bar 3 3; bar 4 4; bar 5 5])).
  - vm_compute. reflexivity.
  - simpl. lia.
Defined.

(** X18. When the Indicator Engine returns a frame without rows, the
    program ends with the [IndexError] of its own [iloc[-1]], before
    [generate_html_chart] is called: the empty-frame guard of the chart is
    never reached from the entry point, and no report is written. *)
Theorem empty_output_stops_the_program (s : script) (g out : frame) :
  fetched_frame s = Ok (Some g) ->
  ehr999_frame g = Ok out ->
  bars out = [] ->
  fst (main s boot) = Raise IndexError /\
  index_html (snd (main s boot)) = None.
Proof.
  intros Hfetch Hout Hempty.
  destruct (ehr999_frame_Ok g out Hout) as [Hlen ->].
  destruct (main_with_frame s g Hfetch) as (w & r & -> & Hg & Hnone).
  destruct (update_from_empty w r g Hg Hlen Hempty) as (w' & -> & Hsame).
  cbn [fst snd]. split; [reflexivity | congruence].
Qed.

Lemma empty_output_stops_the_program_witness :
  fst (main ten_bar_source boot) = Raise IndexError /\
  index_html (snd (main ten_bar_source boot)) = None.
Proof.
  apply (empty_output_stops_the_program
           ten_bar_source
           (DataFrame (flat_bars 1 10 1))
           (mk_frame [] (Some []) (Some []) (Some []))).
  - vm_compute. reflexivity.
  - vm_compute. reflexivity.
  - reflexivity.
Defined.

(** The report the program writes when the engine returns rows whose
    times [strftime] can format. *)
Lemma main_with_writes (A : arith) (s : script) (g out : frame) :
  fetched_frame s = Ok (Some g) ->
  ehr999_frame_with A g = Ok out ->
  bars out <> [] ->
  List.Forall (fun t => strftime_supports t = true) (open_times out) ->
  exists values start finish w,
    EHR999 out = Some values /\
    List.length values = List.length (bars out) /\
    List.Forall (fun v => is_nan v = false) values /\
    main_with A s boot = (Ok tt, w) /\
    (exists log, stdout w = log ++ [LUpdateDone]) /\
    index_html w =
    Some (mk_report SYMBOL start finish (List.length (bars out))
            (List.last (closes out) 0%Q) (List.last values NaN)
            (List.last (open_times out) 0)
            (invest_multiplier (classify (List.last values NaN)))
            (market_status (classify (List.last values NaN)))
            (status_color (classify (List.last values NaN)))
            (List.map (fun row => row_class row (List.last values NaN)) bands)
            (ehr999_data_of (open_times out) values)).
Proof.
  intros Hfetch Hout Hne Hrange.
  destruct (ehr999_frame_with_Ok A g out Hout) as [Hlen ->].
  destruct (engine_output_columns_with A g) as (Hcol & Hvlen & Hnan).
  destruct (main_with_fetched_frame A s g Hfetch) as (w & r & Hmain & Hg & Hnone).
  destruct (update_from_with_writes A w r g Hg Hlen Hne Hrange)
    as (start & finish & Hrun).
  eexists _, start, finish, _.
  split; [exact Hcol|]. split; [exact Hvlen|]. split; [exact Hnan|].
  split; [rewrite Hmain; exact Hrun|].
  cbn [stdout index_html]. split; [|reflexivity].
  eexists (stdout w ++ [_; _; _; _; _; _; _; _; _]).
  rewrite <- List.app_assoc. reflexivity.
Qed.

Lemma main_writes (s : script) (g out : frame) :
  fetched_frame s = Ok (Some g) ->
  ehr999_frame g = Ok out ->
  bars out <> [] ->
  List.Forall (fun t => strftime_supports t = true) (open_times out) ->
  exists values start finish w,
    EHR999 out = Some values /\
    List.length values = List.length (bars out) /\
    List.Forall (fun v => is_nan v = false) values /\
    main s boot = (Ok tt, w) /\
    (exists log, stdout w = log ++ [LUpdateDone]) /\
    index_html w =
    Some (mk_report SYMBOL start finish (List.length (bars out))
            (List.last (closes out) 0%Q) (List.last values NaN)
            (List.last (open_times out) 0)
            (invest_multiplier (classify (List.last values NaN)))
            (market_status (classify (List.last values NaN)))
            (status_color (classify (List.last values NaN)))
            (List.map (fun row => row_class row (List.last values NaN)) bands)
            (ehr999_data_of (open_times out) values)).
Proof. exact (main_with_writes exact_arith s g out). Qed.

(** When the engine's output holds a time [strftime] cannot format, the
    program ends with [NotImplementedError] and without a report. *)
Lemma main_unsupported (s : script) (g out : frame) (t : Z) :
  fetched_frame s = Ok (Some g) ->
  ehr999_frame g = Ok out ->
  List.In t (open_times out) ->
  strftime_supports t = false ->
  fst (main s boot) = Raise NotImplementedError /\
  index_html (snd (main s boot)) = None.
Proof.
  intros Hfetch Hout Hin Ht.
  destruct (ehr999_frame_Ok g out Hout) as [Hlen ->].
  destruct (main_with_frame s g Hfetch) as (w & r & -> & Hg & Hnone).
  destruct (update_from_unsupported w r g t Hg Hlen Hin Ht) as (w' & -> & Hsame).
  cbn [fst snd]. split; [reflexivity | congruence].
Qed.

Lemma last_Forall {A : Type} (P : A -> Prop) (d : A) (xs : list A) :
  xs <> [] -> List.Forall P xs -> P (List.last xs d).
Proof.
  intros Hne Hall. destruct (List.exists_last Hne) as (l & x & ->).
  rewrite List.last_last. apply List.Forall_app in Hall.
  destruct Hall as [_ Hx]. now inversion Hx.
Qed.

Lemma select_Forall {A : Type} (P : A -> Prop) (mask : list bool) (xs : list A) :
  List.Forall P xs -> List.Forall P (select mask xs).
Proof.
  intros H. revert mask. induction H as [|x xs Hx _ IH]; intros [|m mask];
    try constructor.
  cbn [select]. destruct m; [constructor; [exact Hx|] |]; apply IH.
Qed.

(** The engine returns rows of its input: their times are times of the
    input. *)
Lemma engine_output_times (A : arith) (P : Z -> Prop) (g out : frame) :
  ehr999_frame_with A g = Ok out ->
  List.Forall P (open_times g) -> List.Forall P (open_times out).
Proof.
  intros Hout Hall. destruct (ehr999_frame_with_Ok A g out Hout) as [_ ->].
  unfold open_times in *. cbn [select_frame with_indicators_with bars].
  rewrite List.Forall_map in Hall |- *. now apply select_Forall.
Qed.

Lemma forallb_false_In {A : Type} (p : A -> bool) (xs : list A) :
  List.forallb p xs = false -> exists x, List.In x xs /\ p x = false.
Proof.
  induction xs as [|x xs IH]; [discriminate|].
  cbn [List.forallb]. destruct (p x) eqn:E.
  - intros H. destruct (IH H) as (y & Hy & Hp). exists y. split; [now right | exact Hp].
  - intros _. exists x. split; [now left | exact E].
Qed.

(** X19. Whatever the float arithmetic, when every bar of the Series
    fetched opens within the years 1 to 9999 and the engine returns at least
    one row for it, the program ends normally, its last line being the one
    that announces the update, and the report is written: it holds exactly
    one point per row of the engine's output, in the same order, and its
    latest value is the last of them and is not NaN. *)
Theorem complete_run_writes_the_report (A : arith) (s : script) (g out : frame) :
  fetched_frame s = Ok (Some g) ->
  ehr999_frame_with A g = Ok out ->
  bars out <> [] ->
  List.Forall (fun t => strftime_supports t = true) (open_times g) ->
  fst (main_with A s boot) = Ok tt /\
  (exists log, stdout (snd (main_with A s boot)) = log ++ [LUpdateDone]) /\
  exists doc values,
    index_html (snd (main_with A s boot)) = Some doc /\
    EHR999 out = Some values /\
    r_symbol doc = SYMBOL /\
    r_ehr999_data doc =
      List.combine (List.map epoch_seconds (open_times out)) values /\
    List.length (r_ehr999_data doc) = List.length (bars out) /\
    r_latest_price doc = List.last (closes out) 0%Q /\
    r_latest_ehr999 doc = List.last values NaN /\
    is_nan (r_latest_ehr999 doc) = false.
Proof.
  intros Hfetch Hout Hne Hrange.
  pose proof (engine_output_times A _ g out Hout Hrange) as Hrange'.
  destruct (main_with_writes A s g out Hfetch Hout Hne Hrange')
    as (values & start & finish & w & Hcol & Hvlen & Hnan & -> & Hlog & Hdoc).
  assert (Htlen : List.length (open_times out) = List.length values).
  { unfold open_times. rewrite List.length_map. congruence. }
  assert (Hvalues : values <> []).
  { destruct values; [|discriminate]. destruct (bars out); [congruence | discriminate]. }
  cbn [fst snd]. split; [reflexivity|]. split; [exact Hlog|].
  eexists _, values. split; [exact Hdoc|].
  cbn [r_symbol r_ehr999_data r_latest_price r_latest_ehr999].
  split; [exact Hcol|]. split; [reflexivity|].
  rewrite (ehr999_data_of_notna _ _ Hnan Htlen).
  split; [reflexivity|].
  split.
  { rewrite List.length_combine, List.length_map, Htlen, Nat.min_id. exact Hvlen. }
  split; [reflexivity|]. split; [reflexivity|].
  now apply (last_Forall (fun v => is_nan v = false)).
Qed.

Lemma complete_run_writes_the_report_witness :
  exists out,
    ehr999_frame_with binary64_arith underflow_series = Ok out /\
    fst (main_with binary64_arith underflow_source boot) = Ok tt /\
    (exists log, stdout (snd (main_with binary64_arith underflow_source boot))
                 = log ++ [LUpdateDone]) /\
    exists doc values,
      index_html (snd (main_with binary64_arith underflow_source boot)) = Some doc /\
      EHR999 out = Some values /\
      r_symbol doc = SYMBOL /\
      r_ehr999_data doc =
        List.combine (List.map epoch_seconds (open_times out)) values /\
      List.length (r_ehr999_data doc) = List.length (bars out) /\
      r_latest_price doc = List.last (closes out) 0%Q /\
      r_latest_ehr999 doc = List.last values NaN /\
      is_nan (r_latest_ehr999 doc) = false.
Proof.
  eexists. split; [vm_compute; reflexivity|].
  eapply (complete_run_writes_the_report binary64_arith underflow_source
                                         underflow_series).
  - vm_compute. reflexivity.
  - vm_compute. reflexivity.
  - discriminate.
  - repeat constructor.
Defined.

(** X20. The program never leaves a partial or empty report: if a report
    exists when it ends, then it ended normally, a Series was fetched, the
    engine returned at least one row for it, and the report has as many
    points as it counts rows, at least one. *)
Theorem report_only_when_complete (s : script) (doc : report) :
  index_html (snd (main s boot)) = Some doc ->
  fst (main s boot) = Ok tt /\
  exists g out,
    fetched_frame s = Ok (Some g) /\
    ehr999_frame g = Ok out /\
    bars out <> [] /\
    r_count doc = List.length (bars out) /\
    List.length (r_ehr999_data doc) = r_count doc /\
    (0 < r_count doc)%nat.
Proof.
  intros Hdoc.
  destruct (fetched_frame s) as [[g|]|e|] eqn:Hfetch.
  - destruct (le_lt_dec 10 (List.length (bars g))) as [Hlen | Hlen].
    + pose proof (ehr999_frame_returns g Hlen) as Hout.
      set (out := select_frame (notna (ehr999_column g)) (with_indicators g)) in *.
      assert (Hcases : bars out = [] \/ bars out <> [])
        by (destruct (bars out); [left | right]; congruence).
      destruct Hcases as [Hbars | Hne].
      * destruct (main_with_frame s g Hfetch) as (w & r & Hmain & Hg & Hnone).
        destruct (update_from_empty w r g Hg Hlen Hbars) as (w' & Hrun & Hsame).
        rewrite Hmain, Hrun in Hdoc. cbn [snd] in Hdoc. congruence.
      * destruct (List.forallb strftime_supports (open_times out)) eqn:Hsup.
        2:{ apply forallb_false_In in Hsup. destruct Hsup as (t & Hin & Ht).
            destruct (main_unsupported s g out t Hfetch Hout Hin Ht) as [_ Hnone].
            congruence. }
        assert (Hrange : List.Forall (fun t => strftime_supports t = true)
                                     (open_times out)).
        { apply List.Forall_forall. now apply List.forallb_forall. }
        assert (Hrows : (0 < List.length (bars out))%nat)
          by (destruct (bars out); [congruence | simpl; lia]).
        destruct (main_writes s g out Hfetch Hout Hne Hrange)
          as (values & start & finish & w & Hcol & Hvlen & Hnan & Hmain & _ & Hw).
        rewrite Hmain in Hdoc |- *. cbn [fst snd] in *.
        rewrite Hw in Hdoc. inversion Hdoc. subst doc.
        split; [reflexivity|]. exists g, out.
        cbn [r_count r_ehr999_data].
        assert (Htlen : List.length (open_times out) = List.length values).
        { unfold open_times. rewrite List.length_map. congruence. }
        rewrite (ehr999_data_of_notna _ _ Hnan Htlen).
        rewrite List.length_combine, List.length_map, Htlen, Nat.min_id.
        split; [reflexivity|]. split; [exact Hout|]. split; [exact Hne|].
        split; [reflexivity|]. split; [exact Hvlen|].
        exact Hrows.
    + destruct (main_short_series s g Hfetch Hlen) as (_ & Hnone).
      congruence.
  - destruct (main_without_frame s Hfetch) as [_ Hnone]. congruence.
  - exfalso. exact (fetched_frame_not_Raise s e Hfetch).
  - destruct (main_waiting s Hfetch) as [_ Hnone]. congruence.
Qed.

Lemma report_only_when_complete_witness :
  fst (main rising_source boot) = Ok tt /\
  exists g out,
    fetched_frame rising_source = Ok (Some g) /\
    ehr999_frame g = Ok out /\
    bars out <> [] /\
    r_count rising_report = List.length (bars out) /\
    List.length (r_ehr999_data rising_report) = r_count rising_report /\
    (0 < r_count rising_report)%nat.
Proof.
  apply (report_only_when_complete rising_source rising_report).
  vm_compute. reflexivity.
Defined.

(** ** [int(len(df) * 0.6)] is the floor of 60% *)

Lemma round53_small (n : Z) :
  0 <= n < 2 ^ 53 -> Binary64.round53 n = Binary64.mk n 0.
Proof.
  intros Hn. unfold Binary64.round53.
  destruct (Z.log2 n <=? 52) eqn:E; [reflexivity|].
  apply Z.leb_gt in E. exfalso.
  assert (Hpos : 0 < n).
  { destruct (Z.eq_dec n 0) as [-> | ]; [simpl in E; lia | lia]. }
  pose proof (Z.log2_spec n Hpos) as [Hlo _].
  assert (2 ^ 53 <= 2 ^ Z.log2 n) by (apply Z.pow_le_mono_r; lia).
  lia.
Qed.

(** The binary64 product of a length below [2^50] and the double [0.6],
    truncated, is the floor of three fifths of the length. *)
Lemma max_long_window_exact (n : Z) :
  0 <= n < 2 ^ 50 -> max_long_window_of n = 3 * n / 5.
Proof.
  intros Hn.
  unfold max_long_window_of, Binary64.mul, Binary64.of_int, Binary64.to_int.
  rewrite (round53_small n) by (change (2 ^ 50) with 1125899906842624 in Hn;
                                change (2 ^ 53) with 9007199254740992; lia).
  cbn [Binary64.mant Binary64.expo Binary64.lit_0_6].
  set (p := n * 5404319552844595).
  change (2 ^ 50) with 1125899906842624 in Hn.
  (* 3n = 5k + r *)
  pose proof (Z.div_mod (3 * n) 5 ltac:(lia)) as Hk.
  pose proof (Z.mod_pos_bound (3 * n) 5 ltac:(lia)) as Hr.
  set (k := 3 * n / 5) in *. set (r := (3 * n) mod 5) in *.
  assert (Hk0 : 0 <= k) by (unfold k; apply Z.div_pos; lia).
  assert (H5p : 5 * p = 5 * k * 9007199254740992 + r * 9007199254740992 - n)
    by (unfold p; lia).
  unfold Binary64.round53.
  destruct (Z.log2 p <=? 52) eqn:Elog;
    [apply Z.leb_le in Elog | apply Z.leb_gt in Elog].
  - (* the product is below 2^53: the length is 0 or 1 *)
    cbn [Binary64.mant Binary64.expo]. cbn [Z.add Z.leb Z.compare Z.opp].
    assert (Hp : p < 9007199254740992).
    { destruct (Z.eq_dec p 0) as [-> | Hp0]; [lia|].
      assert (Hpos : 0 < p) by (unfold p in *; lia).
      pose proof (Z.log2_spec p Hpos) as [_ Hhi].
      assert (2 ^ Z.succ (Z.log2 p) <= 2 ^ 53) by (apply Z.pow_le_mono_r; lia).
      change (2 ^ 53) with 9007199254740992 in *. lia. }
    change (2 ^ 53) with 9007199254740992.
    rewrite Z.div_small by (unfold p in *; lia).
    assert (n <= 1) by (unfold p in Hp; lia).
    assert (Hzero : k = 0) by lia. rewrite Hzero. reflexivity.
  - (* the product has more than 53 bits and is rounded *)
    assert (Hpos : 0 < p).
    { destruct (Z.eq_dec p 0) as [E0 | ]; [rewrite E0 in Elog; simpl in Elog; lia|].
      unfold p in *. lia. }
    pose proof (Z.log2_spec p Hpos) as [Hlo Hhi].
    assert (HL : Z.log2 p < 103).
    { apply Z.log2_lt_pow2; [exact Hpos|].
      change (2 ^ 103) with 10141204801825835211973625643008. unfold p. lia. }
    set (s := Z.log2 p - 52) in *.
    assert (Hs : 1 <= s <= 50) by (unfold s; lia).
    assert (HS : 0 < 2 ^ s) by (apply Z.pow_pos_nonneg; lia).
    assert (HT : 0 < 2 ^ (53 - s)) by (apply Z.pow_pos_nonneg; lia).
    assert (HST : 2 ^ s * 2 ^ (53 - s) = 9007199254740992).
    { rewrite <- Z.pow_add_r by lia. replace (s + (53 - s)) with 53 by lia.
      reflexivity. }
    assert (HS50 : 2 ^ s <= 1125899906842624).
    { change 1125899906842624 with (2 ^ 50). apply Z.pow_le_mono_r; lia. }
    assert (Hhalf : 2 * 2 ^ (s - 1) = 2 ^ s).
    { rewrite <- Z.pow_succ_r by lia. f_equal. lia. }
    assert (Hhi' : p < 9007199254740992 * 2 ^ s).
    { replace (Z.succ (Z.log2 p)) with (53 + s) in Hhi by (unfold s; lia).
      rewrite Z.pow_add_r in Hhi by lia.
      change (2 ^ 53) with 9007199254740992 in Hhi. exact Hhi. }
    pose proof (Z.div_mod p (2 ^ s) ltac:(lia)) as Hdm.
    pose proof (Z.mod_pos_bound p (2 ^ s) HS) as Hmod.
    set (q := p / 2 ^ s) in *. set (rem := p mod 2 ^ s) in *.
    set (S := 2 ^ s) in *. set (T := 2 ^ (53 - s)) in *.
    set (half := 2 ^ (s - 1)) in *.
    (* what is left to show, for either way of rounding *)
    assert (Hgoal : forall mant, k * T <= mant < k * T + T -> mant / T = k).
    { intros mant Hm. symmetry.
      apply (Z.div_unique mant T k (mant - k * T)); [left; lia | ring]. }
    assert (HkT : k * T * S = k * 9007199254740992).
    { rewrite <- HST. ring. }
    assert (Hexp : forall mant,
               (if 0 <=? s + 0 + -53 then mant * 2 ^ (s + 0 + -53)
                else mant / 2 ^ (- (s + 0 + -53))) = mant / T).
    { intros mant. destruct (0 <=? s + 0 + -53) eqn:E;
        [apply Z.leb_le in E; lia|].
      unfold T. do 2 f_equal. lia. }
    destruct (Z.eq_dec r 0) as [Hr0 | Hr0].
    + (* 0.6 n is an integer: the product is just below it and rounds up *)
      pose proof (Z.div_mod n 5 ltac:(lia)) as Hj.
      pose proof (Z.mod_pos_bound n 5 ltac:(lia)) as Hjr.
      set (j := n / 5) in *.
      assert (Hn5 : n = 5 * j) by lia.
      assert (Hk3 : k = 3 * j) by lia.
      assert (Hp3 : p = 3 * j * 9007199254740992 - j) by lia.
      assert (Hj1 : 1 <= j) by lia.
      assert (HSj : 3 * j <= S) by lia.
      assert (Hsplit : p = S * (3 * j * T - 1) + (S - j)).
      { replace (S * (3 * j * T - 1) + (S - j)) with (3 * j * (S * T) - j) by ring.
        rewrite HST. exact Hp3. }
      destruct (Z.div_mod_unique S q (3 * j * T - 1) rem (S - j)) as [Hq Hrem];
        [left; lia | left; lia | lia |].
      assert (Hup : (half <? rem) = true) by (apply Z.ltb_lt; lia).
      rewrite Hup. cbn [orb Binary64.mant Binary64.expo].
      rewrite Hexp. apply Hgoal. rewrite Hq, Hk3. lia.
    + (* 0.6 n has a fraction of at least 0.2: rounding cannot reach an integer *)
      assert (Hlow : k * T <= q).
      { assert (k * T * S < (q + 1) * S) by lia.
        apply Z.mul_lt_mono_pos_r in H; lia. }
      assert (Hupp : q + 1 < k * T + T).
      { assert ((q + 1) * S < (k * T + T) * S).
        { replace ((k * T + T) * S) with (k * T * S + S * T) by ring.
          rewrite HkT, HST. lia. }
        apply Z.mul_lt_mono_pos_r in H; lia. }
      destruct ((half <? rem) || ((rem =? half) && Z.odd q));
        cbn [Binary64.mant Binary64.expo]; rewrite Hexp; apply Hgoal; lia.
Qed.

(** X21. For every length below [2^50] the double-precision product
    truncates to the exact floor of three fifths of the length: rounding
    never moves [int(len(df) * 0.6)] off [floor(0.6 * len(df))]. *)
Theorem max_long_window_is_floor_of_60_percent (n : Z) :
  0 <= n < 2 ^ 50 -> max_long_window_of n = 3 * n / 5.
Proof. exact (max_long_window_exact n). Qed.

Lemma max_long_window_is_floor_of_60_percent_witness :
  max_long_window_of 1005 = 3 * 1005 / 5.
Proof. apply (max_long_window_is_floor_of_60_percent 1005). lia. Defined.

(** X22. The regimes of the adaptive windows from 200 bars on (lengths
    below [2^50]): the short window is 200; the long window is the length
    minus ten up to 260 bars, 250 up to 416 bars, three fifths of the length
    up to 2333 bars, and the nominal 1400 from 2334 bars on. *)
Theorem long_window_regimes (n : Z) :
  200 <= n < 2 ^ 50 ->
  ma_window_of n = 200 /\
  long_window_of n =
    (if n <=? 260 then n - 10
     else if n <=? 416 then 250
     else if n <=? 2333 then 3 * n / 5
     else 1400).
Proof.
  intros Hn.
  assert (Hma : ma_window_of n = 200).
  { unfold ma_window_of. destruct (n <? 200) eqn:E; [apply Z.ltb_lt in E; lia | reflexivity]. }
  split; [exact Hma|].
  unfold long_window_of. rewrite Hma, max_long_window_exact by lia.
  change (2 ^ 50) with 1125899906842624 in Hn.
  pose proof (Z.div_mod (3 * n) 5 ltac:(lia)) as Hk.
  pose proof (Z.mod_pos_bound (3 * n) 5 ltac:(lia)) as Hr.
  set (k := 3 * n / 5) in *. set (r := (3 * n) mod 5) in *.
  destruct (n <=? 260) eqn:E1; [apply Z.leb_le in E1 | apply Z.leb_gt in E1];
    [|destruct (n <=? 416) eqn:E2; [apply Z.leb_le in E2 | apply Z.leb_gt in E2];
      [|destruct (n <=? 2333) eqn:E3; [apply Z.leb_le in E3 | apply Z.leb_gt in E3]]];
    destruct (Z.min (200 * 7) k <? 200 + 50) eqn:E;
    try apply Z.ltb_lt in E; try apply Z.ltb_ge in E; lia.
Qed.

Lemma long_window_regimes_witness :
  ma_window_of 3000 = 200 /\
  long_window_of 3000 =
    (if 3000 <=? 260 then 3000 - 10
     else if 3000 <=? 416 then 250
     else if 3000 <=? 2333 then 3 * 3000 / 5
     else 1400).
Proof. apply (long_window_regimes 3000). lia. Defined.
